(** * The quiz engine of the tutoring agent (src/tools/quiz_tools.py)

    A shallow embedding of the five quiz tools and their three helpers,
    and the properties of the quiz state machine proved over it.

    Python values are represented as follows.
    - [int] is [Z]; [len] is [Z.of_nat (length _)].
    - [str] is [string], one character per byte; [str.upper] and
      [str.lower] map the letters a-z and A-Z and leave every other byte
      alone. The keys of the catalog and the correct letters are ASCII, and
      no character outside ASCII has one of them as its upper or lower
      case, so lookups and comparisons agree with the interpreter on every
      input; the recorded [user_answer] agrees on ASCII answers.
    - [float] is the binary64 primitive float of the kernel, so that
      [int(score / len(questions) * 100)] is computed with the rounding of
      the interpreter and not over the rationals.
    - a raised exception is the [Raise] result of the monad [M]; mutations
      made before the raise stay in the state, as in Python.
    - [uuid.uuid4()] draws from a sequence of strings carried by the state.
    - the room, its participants and the answer of the remote side are an
      oracle stored in [ctx]; the tools only read it. *)

From Stdlib Require Import ZArith Floats Ascii String.
From stdpp Require Import base gmap strings list pretty.

Local Open Scope string_scope.
Local Open Scope Z_scope.

(** ** Python primitives *)

Module Py.

Definition ascii_upper (c : ascii) : ascii :=
  let n := nat_of_ascii c in
  if ((97 <=? n) && (n <=? 122))%nat then ascii_of_nat (n - 32) else c.

Definition ascii_lower (c : ascii) : ascii :=
  let n := nat_of_ascii c in
  if ((65 <=? n) && (n <=? 90))%nat then ascii_of_nat (n + 32) else c.

(** [s.upper()] *)
Fixpoint upper (s : string) : string :=
  match s with
  | EmptyString => EmptyString
  | String c r => String (ascii_upper c) (upper r)
  end.

(** [s.lower()] *)
Fixpoint lower (s : string) : string :=
  match s with
  | EmptyString => EmptyString
  | String c r => String (ascii_lower c) (lower r)
  end.

(** [len(l)] *)
Definition len {A} (l : list A) : Z := Z.of_nat (length l).

(** [max(a, b)] and [min(a, b)] on ints. *)
Definition max (a b : Z) : Z := if b >? a then b else a.
Definition min (a b : Z) : Z := if b <? a then b else a.

(** [l[:n]]: a negative bound counts from the end. *)
Definition slice_to {A} (l : list A) (n : Z) : list A :=
  if n <? 0 then take (Z.to_nat (len l + n)) l else take (Z.to_nat n) l.

(** The position [l[i]] denotes, when there is one: a negative index
    counts from the end, anything else out of range is an IndexError. *)
Definition position {A} (l : list A) (i : Z) : option nat :=
  if (0 <=? i) && (i <? len l) then Some (Z.to_nat i)
  else if (- len l <=? i) && (i <? 0) then Some (Z.to_nat (len l + i))
  else None.

(** [float(z)], exact for [|z| < 2^53]. *)
Definition float_of_int (z : Z) : float :=
  if z <? 0 then PrimFloat.opp (PrimFloat.of_uint63 (Uint63.of_Z (- z)))
  else PrimFloat.of_uint63 (Uint63.of_Z z).

(** [int(f)]: truncation toward zero; [None] for nan and the
    infinities, on which Python raises. *)
Definition int_of_float (f : float) : option Z :=
  match Prim2SF f with
  | S754_zero _ => Some 0
  | S754_finite s m e =>
      let a := if 0 <=? e then Z.pos m * 2 ^ e else Z.pos m / 2 ^ (- e) in
      Some (if s then - a else a)
  | _ => None
  end.

(** [str(z)] for an int. *)
Definition str (z : Z) : string := pretty z.

End Py.

(** ** Data model *)

(** Modelled from the spec: the dataclass [QuizQuestion], which
    quiz_tools.py imports from src/models.py and which that file does not
    declare. The fields are the keyword arguments and attributes used in
    quiz_tools.py; [user_answer] and [is_correct] are initially absent
    (section 3 of the specification). *)
Record QuizQuestion := {
  qid : string;
  question_text : string;
  options : list string;
  correct_answer : string;
  explanation : option string;
  user_answer : option string;
  is_correct : option bool
}.

(** Modelled from the spec: the dataclass [Quiz], imported from
    src/models.py and not declared there either. The fields are the
    keyword arguments of the constructor call in [create_quiz]; [id] is
    named [quiz_id] here. *)
Record Quiz := {
  quiz_id : string;
  topic : string;
  difficulty : string;
  questions : list QuizQuestion;
  current_question_index : Z;
  score : Z;
  completed : bool
}.

(** An entry of [quiz_history]: the dict built by [create_quiz], whose
    keys "score" and "percentage" exist only once [_complete_quiz] has set
    them. *)
Record HistoryEntry := {
  h_id : string;
  h_topic : string;
  h_difficulty : string;
  h_status : string;
  h_created_at : string;
  h_score : option string;
  h_percentage : option Z
}.

(** *** The frontend protocol *)

(** The "question" object of start_quiz and next_question. *)
Record QuestionView := {
  v_index : Z;
  v_question_text : string;
  v_options : list string;
  v_question_id : string
}.

(** One element of the "results" array of show_results. *)
Record ResultRow := {
  r_question_number : Z;
  r_question : string;
  r_correct_answer : string;
  r_user_answer : string;
  r_is_correct : option bool
}.

(** The dict passed to [json.dumps]. All its leaves are strings, ints,
    bools, None and lists of those, so serialisation cannot fail and the
    request is kept in structured form. *)
Inductive ActionRequest :=
  | StartQuiz (id topic difficulty : string) (total_questions : Z)
              (question : QuestionView)
  | NextQuestion (id : string) (question : QuestionView)
                 (current total score : Z)
  | CompleteQuiz (id : string) (score total percentage : Z)
  | ShowResults (id : string) (score total percentage : Z)
                (results : list ResultRow).

(** What [json.loads(result)] gives that the tools can observe: they call
    [response.get("ok")] for its truth value and, in [create_quiz],
    [response.get("error", "Unknown error")] for its text. *)
Inductive Response :=
  | NotADict (detail : string)
  | Dict (ok : bool) (error : option string).

(** The string returned by the remote side, with its decoding. *)
Inductive Body :=
  | NotJson (detail : string)
  | Json (r : Response).

(** The outcome of awaiting
    [asyncio.wait_for(room.local_participant.perform_rpc(...), timeout)]. *)
Inductive RpcOutcome :=
  | TimedOut
  | Failed (detail : string)
  | Replied (body : Body).

Record RemoteParticipant := { identity : string }.

(** The room: [remote_participants] in enumeration order, and the
    behaviour of the remote side: [perform_rpc r d p] is the outcome of
    awaiting [perform_rpc(destination_identity=d, method=RPC_METHOD_QUIZ,
    payload=p)] under [RPC_TIMEOUT]. Every call of the module passes the
    same method and timeout, so the oracle is not indexed by them
    ([RPC_METHOD_QUIZ] is imported from src/config.py, which does not
    define it). *)
Record Room := {
  remote_participants : list (string * RemoteParticipant);
  perform_rpc : string → ActionRequest → RpcOutcome
}.

Record JobContext := { room : option Room }.

(** Modelled from the spec: the fields [current_quiz] (nullable, no
    active quiz at first) and [quiz_history] (a list, empty at first) of
    [UserData], which src/models.py does not declare. [ctx] is declared
    there; the other fields of the class are not used by the quiz tools. *)
Record UserData := {
  ctx : option JobContext;
  current_quiz : option Quiz;
  quiz_history : list HistoryEntry
}.

(** ** Exceptions and the monad of a tool call *)

Inductive exn :=
  | TimeoutError
  | IndexError
  | ZeroDivisionError
  | ValueError
  | Exception (detail : string).

(** [str(e)] *)
Definition exn_str (e : exn) : string :=
  match e with
  | TimeoutError => ""
  | IndexError => "list index out of range"
  | ZeroDivisionError => "division by zero"
  | ValueError => "cannot convert float NaN to integer"
  | Exception d => d
  end.

Record World := {
  userdata : UserData;
  uuid_draws : nat → string;
  uuid_count : nat
}.

Inductive Res (A : Type) :=
  | Ok (a : A)
  | Raise (e : exn).
Arguments Ok {A} a.
Arguments Raise {A} e.

Definition M (A : Type) : Type := World → Res A * World.

#[global] Instance M_ret : MRet M := λ A a w, (Ok a, w).

#[global] Instance M_bind : MBind M := λ A B f m w,
  match m w with
  | (Ok a, w') => f a w'
  | (Raise e, w') => (Raise e, w')
  end.

Definition raise {A} (e : exn) : M A := λ w, (Raise e, w).

(** [try: body except Exception as e: handler(e)]; every [exn] is a
    subclass of [Exception]. *)
Definition try_except {A} (body : M A) (handler : exn → M A) : M A := λ w,
  match body w with
  | (Ok a, w') => (Ok a, w')
  | (Raise e, w') => handler e w'
  end.

Definition get_userdata : M UserData := λ w, (Ok (userdata w), w).

Definition put_userdata (u : UserData) : M unit := λ w,
  (Ok tt, {| userdata := u; uuid_draws := uuid_draws w;
             uuid_count := uuid_count w |}).

(** [str(uuid.uuid4())] *)
Definition uuid4 : M string := λ w,
  (Ok (uuid_draws w (uuid_count w)),
   {| userdata := userdata w; uuid_draws := uuid_draws w;
      uuid_count := S (uuid_count w) |}).

(** [userdata.current_quiz = q] *)
Definition set_current_quiz (q : Quiz) : M unit :=
  u ← get_userdata;
  put_userdata {| ctx := ctx u; current_quiz := Some q;
                  quiz_history := quiz_history u |}.

(** Replace the history list by its image (append, or update in place). *)
Definition modify_history (f : list HistoryEntry → list HistoryEntry)
  : M unit :=
  u ← get_userdata;
  put_userdata {| ctx := ctx u; current_quiz := current_quiz u;
                  quiz_history := f (quiz_history u) |}.

(** [l[i]] *)
Definition getitem {A} (l : list A) (i : Z) : M A :=
  match Py.position l i ≫= (l !!.) with
  | Some x => mret x
  | None => raise IndexError
  end.

(** [int(score / total * 100)] *)
Definition percentage_of (score total : Z) : M Z :=
  if total =? 0 then raise ZeroDivisionError
  else
    match Py.int_of_float
            (PrimFloat.mul
               (PrimFloat.div (Py.float_of_int score) (Py.float_of_int total))
               (Py.float_of_int 100)) with
    | Some p => mret p
    | None => raise ValueError
    end.

(** The [await] of the RPC, [json.loads] and the two [response.get]. *)
Definition await_rpc (r : Room) (destination_identity : string)
    (payload : ActionRequest) : M Body :=
  match perform_rpc r destination_identity payload with
  | TimedOut => raise TimeoutError
  | Failed d => raise (Exception d)
  | Replied b => mret b
  end.

Definition json_loads (b : Body) : M Response :=
  match b with
  | NotJson d => raise (Exception d)
  | Json r => mret r
  end.

Definition get_ok (r : Response) : M bool :=
  match r with
  | NotADict d => raise (Exception d)
  | Dict ok _ => mret ok
  end.

Definition get_error (r : Response) (fallback : string) : M string :=
  match r with
  | NotADict d => raise (Exception d)
  | Dict _ e => mret (default fallback e)
  end.

(** ** Field updates of the mutable objects *)

(** [q.user_answer = a; q.is_correct = c] *)
Definition record_answer (a : string) (c : bool) (q : QuizQuestion)
  : QuizQuestion :=
  {| qid := qid q; question_text := question_text q; options := options q;
     correct_answer := correct_answer q; explanation := explanation q;
     user_answer := Some a; is_correct := Some c |}.

Definition with_questions (qs : list QuizQuestion) (z : Quiz) : Quiz :=
  {| quiz_id := quiz_id z; topic := topic z; difficulty := difficulty z;
     questions := qs; current_question_index := current_question_index z;
     score := score z; completed := completed z |}.

Definition with_score (s : Z) (z : Quiz) : Quiz :=
  {| quiz_id := quiz_id z; topic := topic z; difficulty := difficulty z;
     questions := questions z;
     current_question_index := current_question_index z;
     score := s; completed := completed z |}.

Definition with_index (i : Z) (z : Quiz) : Quiz :=
  {| quiz_id := quiz_id z; topic := topic z; difficulty := difficulty z;
     questions := questions z; current_question_index := i;
     score := score z; completed := completed z |}.

Definition with_completed (c : bool) (z : Quiz) : Quiz :=
  {| quiz_id := quiz_id z; topic := topic z; difficulty := difficulty z;
     questions := questions z;
     current_question_index := current_question_index z;
     score := score z; completed := c |}.

(** [q["status"] = "completed"; q["score"] = s; q["percentage"] = p] *)
Definition mark_completed (s : string) (p : Z) (h : HistoryEntry)
  : HistoryEntry :=
  {| h_id := h_id h; h_topic := h_topic h; h_difficulty := h_difficulty h;
     h_status := "completed"; h_created_at := h_created_at h;
     h_score := Some s; h_percentage := Some p |}.

(** ** The helpers of quiz_tools.py *)

Definition new_question (id text : string) (opts : list string)
    (correct expl : string) : QuizQuestion :=
  {| qid := id; question_text := text; options := opts;
     correct_answer := correct; explanation := Some expl;
     user_answer := None; is_correct := None |}.

(** The three lists of the dict literal [sample_questions], given the ids
    drawn while they are built. *)
Definition algebra_questions (a1 a2 : string) : list QuizQuestion :=
  [ new_question a1 "What is 2x + 5 = 15? Solve for x."
      ["A) x = 5"; "B) x = 10"; "C) x = 7"; "D) x = 3"] "A"
      "Subtract 5 from both sides: 2x = 10, then divide by 2: x = 5";
    new_question a2 "Simplify: 3(x + 2) - 2x"
      ["A) x + 6"; "B) 5x + 6"; "C) x + 2"; "D) 3x + 6"] "A"
      "3(x + 2) - 2x = 3x + 6 - 2x = x + 6" ].

Definition geometry_questions (g1 : string) : list QuizQuestion :=
  [ new_question g1
      "What is the area of a rectangle with length 8 and width 5?"
      ["A) 13"; "B) 40"; "C) 26"; "D) 32"] "B"
      "Area = length × width = 8 × 5 = 40" ].

Definition fractions_questions (f1 : string) : list QuizQuestion :=
  [ new_question f1 "What is 1/2 + 1/4?"
      ["A) 2/6"; "B) 3/4"; "C) 1/6"; "D) 2/4"] "B"
      "1/2 + 1/4 = 2/4 + 1/4 = 3/4" ].

Definition sample_questions (a1 a2 g1 f1 : string)
  : gmap string (list QuizQuestion) :=
  {[ "algebra" := algebra_questions a1 a2;
     "geometry" := geometry_questions g1;
     "fractions" := fractions_questions f1 ]}.

Definition _generate_quiz_questions (topic : string) (num_questions : Z)
    (difficulty : string) : M (list QuizQuestion) :=
  a1 ← uuid4; a2 ← uuid4; g1 ← uuid4; f1 ← uuid4;
  let bank := sample_questions a1 a2 g1 f1 in
  match bank !! "algebra" with
  | None => raise (Exception "'algebra'")
  | Some fallback =>
      let questions := default fallback (bank !! Py.lower topic) in
      mret (Py.slice_to questions num_questions)
  end.

(** The lines every tool repeats before its RPC: the room of the context,
    its participants, and the first of them. The three arguments are the
    strings returned when each is missing. *)
Definition with_first_participant (no_room no_participants no_first : string)
    (k : Room → RemoteParticipant → M string) : M string :=
  u ← get_userdata;
  match ctx u ≫= room with
  | None => mret no_room
  | Some r =>
      match remote_participants r with
      | [] => mret no_participants
      | _ :: _ =>
          match head (remote_participants r).*2 with
          | None => mret no_first
          | Some participant => k r participant
          end
      end
  end.

Definition view_of (i : Z) (q : QuizQuestion) : QuestionView :=
  {| v_index := i; v_question_text := question_text q;
     v_options := options q; v_question_id := qid q |}.

Definition score_of (quiz : Quiz) : string :=
  Py.str (score quiz) +:+ "/" +:+ Py.str (Py.len (questions quiz)).

Definition _show_next_question (quiz : Quiz) : M string :=
  with_first_participant
    "Moving to next question, but couldn't display it"
    "No participants"
    "Couldn't get participant"
    (λ r participant,
      try_except
        (next_question ← getitem (questions quiz)
                                 (current_question_index quiz);
         let payload :=
           NextQuestion (quiz_id quiz)
             (view_of (current_question_index quiz) next_question)
             (current_question_index quiz + 1)
             (Py.len (questions quiz)) (score quiz) in
         result ← await_rpc r (identity participant) payload;
         response ← json_loads result;
         ok ← get_ok response;
         if ok : bool then
           mret ("Moving to question "
                 +:+ Py.str (current_question_index quiz + 1) +:+ ".")
         else
           mret ("Next question ready (Question "
                 +:+ Py.str (current_question_index quiz + 1) +:+ ")"))
        (λ e, mret "Moving to next question")).

Definition _complete_quiz (quiz : Quiz) : M string :=
  percentage ← percentage_of (score quiz) (Py.len (questions quiz));
  modify_history
    (fmap (λ q, if bool_decide (h_id q = quiz_id quiz)
                then mark_completed (score_of quiz) percentage q else q));;
  with_first_participant
    ("Quiz completed! Final score: " +:+ score_of quiz
       +:+ " (" +:+ Py.str percentage +:+ "%)")
    ("Quiz completed! Score: " +:+ score_of quiz)
    ("Quiz completed! Score: " +:+ score_of quiz)
    (λ r participant,
      try_except
        (let payload :=
           CompleteQuiz (quiz_id quiz) (score quiz)
             (Py.len (questions quiz)) percentage in
         result ← await_rpc r (identity participant) payload;
         response ← json_loads result;
         ok ← get_ok response;
         if ok : bool then
           mret ("Quiz completed! You scored " +:+ score_of quiz
                 +:+ " (" +:+ Py.str percentage +:+ "%). Great job!")
         else
           mret ("Quiz completed! Score: " +:+ score_of quiz
                 +:+ " (" +:+ Py.str percentage +:+ "%)"))
        (λ e, mret ("Quiz completed! Final score: " +:+ score_of quiz
                    +:+ " (" +:+ Py.str percentage +:+ "%)"))).

(** ** The five tools *)

Definition create_quiz (topic : string) (num_questions : Z)
    (difficulty : string) : M string :=
  let num_questions := Py.max 1 (Py.min 10 num_questions) in
  let difficulty :=
    if bool_decide (Py.lower difficulty ∈ ["easy"; "medium"; "hard"])
    then Py.lower difficulty else "medium" in
  questions ← _generate_quiz_questions topic num_questions difficulty;
  id ← uuid4;
  let quiz :=
    {| quiz_id := id; topic := topic; difficulty := difficulty;
       questions := questions; current_question_index := 0;
       score := 0; completed := false |} in
  set_current_quiz quiz;;
  created_at ← uuid4;
  modify_history
    (λ h, (h ++ [ {| h_id := quiz_id quiz; h_topic := topic;
                     h_difficulty := difficulty; h_status := "in_progress";
                     h_created_at := created_at;
                     h_score := None; h_percentage := None |} ])%list);;
  with_first_participant
    ("Created a " +:+ Py.str num_questions +:+ "-question quiz on "
       +:+ topic +:+ ", but couldn't display it")
    "Quiz created, but no participants found to send it to"
    "Quiz created, but couldn't get the first participant"
    (λ r participant,
      try_except
        (first ← getitem questions 0;
         let payload :=
           StartQuiz (quiz_id quiz) topic difficulty (Py.len questions)
             (view_of 0 first) in
         result ← await_rpc r (identity participant) payload;
         response ← json_loads result;
         ok ← get_ok response;
         if ok : bool then
           mret ("I've created a " +:+ difficulty +:+ " " +:+ topic
                 +:+ " quiz with " +:+ Py.str num_questions
                 +:+ " questions. Let's start with question 1!")
         else
           error ← get_error response "Unknown error";
           mret ("Created quiz but couldn't display it: " +:+ error))
        (λ e,
          match e with
          | TimeoutError =>
              mret "Quiz created but the display timed out. Please try again."
          | _ =>
              mret ("Created quiz but encountered an error displaying it: "
                    +:+ exn_str e)
          end)).

(** The lines [submit_answer] and [skip_question] share after the current
    question has been marked: advance the index, then complete the quiz or
    show the next question. *)
Definition advance (quiz : Quiz) : M string :=
  let quiz := with_index (current_question_index quiz + 1) quiz in
  set_current_quiz quiz;;
  if current_question_index quiz >=? Py.len (questions quiz) then
    let quiz := with_completed true quiz in
    set_current_quiz quiz;;
    _complete_quiz quiz
  else
    _show_next_question quiz.

(** [current_question = quiz.questions[quiz.current_question_index]], with
    the position of that object in the list. *)
Definition current_question_of (quiz : Quiz) : M (nat * QuizQuestion) :=
  match Py.position (questions quiz) (current_question_index quiz) with
  | None => raise IndexError
  | Some i =>
      match questions quiz !! i with
      | None => raise IndexError
      | Some q => mret (i, q)
      end
  end.

Definition submit_answer (answer : string) : M string :=
  u ← get_userdata;
  match current_quiz u with
  | None =>
      mret "There's no active quiz. Create a quiz first using create_quiz."
  | Some quiz =>
      if completed quiz then
        mret ("This quiz is already completed. Your score was "
              +:+ score_of quiz +:+ ".")
      else
        '(i, current_question) ← current_question_of quiz;
        let correct :=
          bool_decide (Py.upper answer
                       = Py.upper (correct_answer current_question)) in
        let quiz := if correct then with_score (score quiz + 1) quiz
                    else quiz in
        let quiz :=
          with_questions
            (<[i := record_answer (Py.upper answer) correct current_question]>
               (questions quiz)) quiz in
        set_current_quiz quiz;;
        advance quiz
  end.

Definition get_quiz_status : M string :=
  u ← get_userdata;
  match current_quiz u with
  | None =>
      match last (quiz_history u) with
      | Some last_quiz =>
          mret ("No active quiz. Last quiz was on " +:+ h_topic last_quiz
                +:+ " (" +:+ h_status last_quiz +:+ ").")
      | None =>
          mret "No quiz has been created yet. Use create_quiz to start one."
      end
  | Some quiz =>
      if completed quiz then
        percentage ← percentage_of (score quiz) (Py.len (questions quiz));
        mret ("Quiz completed! Final score: " +:+ score_of quiz
              +:+ " (" +:+ Py.str percentage +:+ "%)")
      else
        let current := current_question_index quiz + 1 in
        let total := Py.len (questions quiz) in
        mret ("Currently on question " +:+ Py.str current +:+ " of "
              +:+ Py.str total +:+ ". Score so far: "
              +:+ Py.str (score quiz) +:+ "/"
              +:+ Py.str (current_question_index quiz)
              +:+ " answered correctly.")
  end.

Definition skip_question : M string :=
  u ← get_userdata;
  match current_quiz u with
  | None => mret "There's no active quiz."
  | Some quiz =>
      if completed quiz then mret "Quiz is already completed."
      else
        '(i, current_question) ← current_question_of quiz;
        let quiz :=
          with_questions
            (<[i := record_answer "SKIPPED" false current_question]>
               (questions quiz)) quiz in
        set_current_quiz quiz;;
        advance quiz
  end.

(** [q.user_answer or "Not answered"] *)
Definition answer_or_not_answered (q : QuizQuestion) : string :=
  match user_answer q with
  | None | Some "" => "Not answered"
  | Some a => a
  end.

Definition result_rows (qs : list QuizQuestion) : list ResultRow :=
  imap (λ i q,
          {| r_question_number := Z.of_nat i + 1;
             r_question := question_text q;
             r_correct_answer := correct_answer q;
             r_user_answer := answer_or_not_answered q;
             r_is_correct := is_correct q |}) qs.

Definition show_quiz_results : M string :=
  u ← get_userdata;
  match current_quiz u with
  | None => mret "No quiz to show results for."
  | Some quiz =>
      if negb (completed quiz) then
        mret "Quiz is not completed yet. Finish the quiz first."
      else
        with_first_participant
          "Quiz completed but couldn't display results"
          "No participants to send results to"
          "Couldn't get participant"
          (λ r participant,
            try_except
              (let results := result_rows (questions quiz) in
               percentage ← percentage_of (score quiz)
                                          (Py.len (questions quiz));
               let payload :=
                 ShowResults (quiz_id quiz) (score quiz)
                   (Py.len (questions quiz)) percentage results in
               result ← await_rpc r (identity participant) payload;
               response ← json_loads result;
               ok ← get_ok response;
               if ok : bool then
                 percentage ← percentage_of (score quiz)
                                            (Py.len (questions quiz));
                 mret ("Here are your detailed results: " +:+ score_of quiz
                       +:+ " correct (" +:+ Py.str percentage +:+ "%)")
               else
                 mret ("Results: " +:+ score_of quiz))
              (λ e, mret ("Quiz completed with score " +:+ score_of quiz)))
  end.

(** ** Sessions: sequences of tool calls *)

Inductive Call :=
  | CreateQuiz (topic : string) (num_questions : Z) (difficulty : string)
  | SubmitAnswer (answer : string)
  | GetQuizStatus
  | SkipQuestion
  | ShowQuizResults.

Definition run (c : Call) : M string :=
  match c with
  | CreateQuiz t n d => create_quiz t n d
  | SubmitAnswer a => submit_answer a
  | GetQuizStatus => get_quiz_status
  | SkipQuestion => skip_question
  | ShowQuizResults => show_quiz_results
  end.

(** [UserData()] with the context [c] of the session, and a source of
    uuids. *)
Definition fresh (c : option JobContext) (draws : nat → string) : World :=
  {| userdata := {| ctx := c; current_quiz := None; quiz_history := [] |};
     uuid_draws := draws; uuid_count := 0 |}.

(** The surrounding session layer may change the room, its participants
    and the behaviour of the remote side between two tool calls. *)
Definition with_ctx (c : option JobContext) (w : World) : World :=
  {| userdata := {| ctx := c; current_quiz := current_quiz (userdata w);
                    quiz_history := quiz_history (userdata w) |};
     uuid_draws := uuid_draws w; uuid_count := uuid_count w |}.

Inductive reachable : World → Prop :=
  | reach_fresh c draws : reachable (fresh c draws)
  | reach_call w c : reachable w → reachable (run c w).2
  | reach_ctx w c : reachable w → reachable (with_ctx c w).

(** ** Example contexts *)

Definition demo_draws (n : nat) : string := "id-" +:+ pretty n.

Definition silent_room : Room :=
  {| remote_participants := [("web", {| identity := "web" |})];
     perform_rpc := λ _ _, TimedOut |}.

Definition ok_room : Room :=
  {| remote_participants := [("web", {| identity := "web" |})];
     perform_rpc := λ _ _, Replied (Json (Dict true None)) |}.

Definition in_room (r : Room) : option JobContext :=
  Some {| room := Some r |}.

(** What happens in a session: a tool is invoked, or the session layer
    changes the context. *)
Inductive Event :=
  | Invoke (c : Call)
  | SetCtx (c : option JobContext).

Definition step (w : World) (e : Event) : World :=
  match e with
  | Invoke c => (run c w).2
  | SetCtx c => with_ctx c w
  end.

(** The world after the events [es], in order from [w]. *)
Definition after (es : list Event) (w : World) : World := foldl step w es.

Definition is_create (e : Event) : bool :=
  match e with
  | Invoke (CreateQuiz _ _ _) => true
  | _ => false
  end.

(** ** Notions used in the statements *)

Definition is_ok {A} (r : Res A) : Prop := ∃ a, r = Ok a.

(** A computation that leaves the world as it found it. *)
Definition read_only {A} (m : M A) : Prop := ∀ w, (m w).2 = w.

(** A computation that never raises. *)
Definition total {A} (m : M A) : Prop := ∀ w, is_ok (m w).1.

(** [floor(score / total * 100)] over the integers. *)
Definition floor_percentage (score total : Z) : Z := score * 100 / total.

(** The quiz object once [advance] has run on it. *)
Definition advanced (quiz : Quiz) : Quiz :=
  let quiz := with_index (current_question_index quiz + 1) quiz in
  if current_question_index quiz >=? Py.len (questions quiz)
  then with_completed true quiz else quiz.

(** The history once [_complete_quiz] has run for [quiz]. *)
Definition closed_history (quiz : Quiz) (h : list HistoryEntry)
  : list HistoryEntry :=
  (λ q, if bool_decide (h_id q = quiz_id quiz)
        then mark_completed (score_of quiz)
               (floor_percentage (score quiz) (Py.len (questions quiz))) q
        else q) <$> h.

(** The invariant of a quiz object (section 3 of the specification), with
    the bound on its length that creation gives. *)
Record quiz_inv (q : Quiz) : Prop := {
  inv_length : 1 ≤ Py.len (questions q) ≤ 10;
  inv_index : 0 ≤ current_question_index q ≤ Py.len (questions q);
  inv_completed :
    completed q = true ↔ current_question_index q = Py.len (questions q);
  inv_score : 0 ≤ score q ≤ current_question_index q
}.

(** The last history entry is the one of the active quiz. *)
Definition history_inv (u : UserData) : Prop :=
  match current_quiz u with
  | None => True
  | Some q =>
      ∃ e, last (quiz_history u) = Some e ∧ h_id e = quiz_id q ∧
           (h_status e = "completed" ↔ completed q = true)
  end.

Definition world_inv (w : World) : Prop :=
  history_inv (userdata w) ∧
  ∀ q, current_quiz (userdata w) = Some q → quiz_inv q.

(** The [i]-th uuid that a call starting in [w] draws. *)
Definition drawn (w : World) (i : nat) : string :=
  uuid_draws w (i + uuid_count w)%nat.

(** [sample_questions.get(topic.lower(), sample_questions["algebra"])], for
    the ids drawn by a call starting in [w]. *)
Definition catalog_entry (w : World) (topic : string) : list QuizQuestion :=
  default (algebra_questions (drawn w 0) (drawn w 1))
    (sample_questions (drawn w 0) (drawn w 1) (drawn w 2) (drawn w 3)
       !! Py.lower topic).

(** The quiz object with the current question marked: the answer [a] and
    the flag [c] recorded at position [i], the score raised when [c]. *)
Definition marked (i : nat) (a : string) (c : bool) (quiz : Quiz) : Quiz :=
  match questions quiz !! i with
  | None => quiz
  | Some cq =>
      with_questions (<[i := record_answer a c cq]> (questions quiz))
        (if c then with_score (score quiz + 1) quiz else quiz)
  end.

(** The world with the active quiz [q] and the history [h]. *)
Definition put_quiz (q : Quiz) (h : list HistoryEntry) (w : World) : World :=
  {| userdata := {| ctx := ctx (userdata w); current_quiz := Some q;
                    quiz_history := h |};
     uuid_draws := uuid_draws w; uuid_count := uuid_count w |}.

(** [sub in s] *)
Fixpoint contains (sub s : string) : bool :=
  String.prefix sub s ||
  match s with
  | EmptyString => false
  | String _ r => contains sub r
  end.

(** The conditions under which the frontend cannot be reached or does not
    answer with a JSON object: no context or room, no participant, a
    timeout, a transport failure, a body that does not decode. *)
Definition rpc_fails (o : RpcOutcome) : bool :=
  match o with
  | TimedOut | Failed _ | Replied (NotJson _)
  | Replied (Json (NotADict _)) => true
  | Replied (Json (Dict _ _)) => false
  end.

Definition frontend_down (c : option JobContext) : Prop :=
  match c ≫= room with
  | None => True
  | Some r =>
      remote_participants r = [] ∨ ∀ d p, rpc_fails (perform_rpc r d p) = true
  end.

(** The remote side accepts every request with [{"ok": true}]. *)
Definition frontend_up (c : option JobContext) : Prop :=
  ∃ r, c ≫= room = Some r ∧ remote_participants r ≠ [] ∧
       ∀ d p, ∃ e, perform_rpc r d p = Replied (Json (Dict true e)).

(** [difficulty.lower() if difficulty.lower() in [...] else "medium"] *)
Definition normalised (difficulty : string) : string :=
  if bool_decide (Py.lower difficulty ∈ ["easy"; "medium"; "hard"])
  then Py.lower difficulty else "medium".

(** The quiz object and the history entry that [create_quiz] builds when
    it starts in [w]. *)
Definition created_quiz (w : World) (t : string) (n : Z) (d : string)
  : Quiz :=
  {| quiz_id := drawn w 4; topic := t; difficulty := normalised d;
     questions := Py.slice_to (catalog_entry w t) (Py.max 1 (Py.min 10 n));
     current_question_index := 0; score := 0; completed := false |}.

Definition created_entry (w : World) (t d : string) : HistoryEntry :=
  {| h_id := drawn w 4; h_topic := t; h_difficulty := normalised d;
     h_status := "in_progress"; h_created_at := drawn w 5;
     h_score := None; h_percentage := None |}.

(** What a tool can observe of a question's content. *)
Definition content (q : QuizQuestion) : string * list string * string :=
  (question_text q, options q, correct_answer q).

(** The two calls that answer the current question. *)
Definition is_answer (c : Call) : bool :=
  match c with
  | SubmitAnswer _ | SkipQuestion => true
  | _ => false
  end.

(** *** Sessions used as examples *)

Definition offline : World := fresh None demo_draws.

(** An algebra quiz of two questions, just created. *)
Definition algebra_started : World :=
  after [Invoke (CreateQuiz "algebra" 5 "medium")] offline.

(** A fractions quiz of one question, answered correctly. *)
Definition fractions_done : World :=
  after [Invoke (CreateQuiz "fractions" 1 "easy"); Invoke (SubmitAnswer "b")]
    offline.

(** The quiz object once the call [c], an answer or a skip, has marked
    its current question. *)
Definition answered (c : Call) (q : Quiz) : Quiz :=
  let i := Z.to_nat (current_question_index q) in
  match c, questions q !! i with
  | SubmitAnswer a, Some cq =>
      marked i (Py.upper a)
        (bool_decide (Py.upper a = Py.upper (correct_answer cq))) q
  | SkipQuestion, Some _ => marked i "SKIPPED" false q
  | _, _ => q
  end.

(** *** Bookkeeping of answers *)

(** The number of questions marked correct. *)
Definition correct_count (qs : list QuizQuestion) : Z :=
  Z.of_nat (length (filter (λ cq, is_correct cq = Some true) qs)).

(** The questions before the index carry an answer and a mark, the others
    carry neither, and the score counts the questions marked correct. *)
Definition book_inv (q : Quiz) : Prop :=
  (∀ i cq, questions q !! i = Some cq →
     if bool_decide (Z.of_nat i < current_question_index q)
     then is_Some (user_answer cq) ∧ is_Some (is_correct cq)
     else user_answer cq = None ∧ is_correct cq = None) ∧
  score q = correct_count (questions q).

(** No quiz has been created yet, or one is active and well kept. *)
Definition session_inv (w : World) : Prop :=
  (current_quiz (userdata w) = None → quiz_history (userdata w) = []) ∧
  ∀ q, current_quiz (userdata w) = Some q → book_inv q.

Definition is_answer_event (e : Event) : bool :=
  match e with
  | Invoke c => is_answer c
  | SetCtx _ => false
  end.

(** The number of answers and skips among the events. *)
Definition answers_in (es : list Event) : Z :=
  Z.of_nat (length (filter (λ e, is_answer_event e = true) es)).

(** The request that [submit_answer] and [skip_question] send for the
    quiz object [q] they have advanced. *)
Definition display_request (q : Quiz) : option ActionRequest :=
  if completed q then
    Some (CompleteQuiz (quiz_id q) (score q) (Py.len (questions q))
            (floor_percentage (score q) (Py.len (questions q))))
  else
    (λ nq, NextQuestion (quiz_id q) (view_of (current_question_index q) nq)
             (current_question_index q + 1) (Py.len (questions q)) (score q))
    <$> questions q !! Z.to_nat (current_question_index q).

(** The request that [create_quiz] sends when it starts in [w]. *)
Definition start_request (w : World) (t : string) (n : Z) (d : string)
  : option ActionRequest :=
  (λ first, StartQuiz (drawn w 4) t (normalised d)
              (Py.len (questions (created_quiz w t n d))) (view_of 0 first))
  <$> head (questions (created_quiz w t n d)).

(** The request that [show_quiz_results] sends for the quiz [q]. *)
Definition results_request (q : Quiz) : ActionRequest :=
  ShowResults (quiz_id q) (score q) (Py.len (questions q))
    (floor_percentage (score q) (Py.len (questions q)))
    (result_rows (questions q)).


(** * The session data of src/models.py and the tools that use it

    [UserData] as src/models.py declares it, with the tools of
    user_tools.py, component_tools.py, canvas_tools.py and
    illustration_tools.py and the RPC handler of rpc_handlers.py. The
    quiz tools above do not touch these fields, and these tools do not
    touch the quiz. *)

Module Models.

(** A decoded JSON value. A dict is kept as its items; a key is looked up
    at its first item. *)
#[local] Unset Elimination Schemes.
Inductive Json :=
  | JNull
  | JBool (b : bool)
  | JInt (z : Z)
  | JFloat (f : float)
  | JStr (s : string)
  | JList (l : list Json)
  | JDict (items : list (string * Json)).
#[local] Set Elimination Schemes.

(** [bool(j)] *)
Definition truthy (j : Json) : bool :=
  match j with
  | JNull => false
  | JBool b => b
  | JInt z => negb (z =? 0)
  | JFloat f => negb (PrimFloat.eqb f PrimFloat.zero)
  | JStr s => negb (String.eqb s "")
  | JList l => match l with [] => false | _ => true end
  | JDict l => match l with [] => false | _ => true end
  end.

(** [type(j).__name__] *)
Definition type_name (j : Json) : string :=
  match j with
  | JNull => "NoneType"
  | JBool _ => "bool"
  | JInt _ => "int"
  | JFloat _ => "float"
  | JStr _ => "str"
  | JList _ => "list"
  | JDict _ => "dict"
  end.

Fixpoint assoc (key : string) (items : list (string * Json)) : option Json :=
  match items with
  | [] => None
  | (k, v) :: rest => if String.eqb k key then Some v else assoc key rest
  end.

Record UserInfo := {
  info_id : string;
  info_name : string;
  info_age : Z
}.

Record Component := {
  comp_id : string;
  content : string;
  is_showed : bool
}.

(** The payload dict of each tool, before [json.dumps]. *)
Inductive Request :=
  | ShowComponent (id content : string) (index : Z)
  | ToggleComponent (id : string)
  | GetDrawing
  | ClearCanvas
  | Highlight (x y width height : Z) (color : string)
  | ShowIllustration (image_url : string)
  | HideIllustration.

(** What the tools can observe of [json.loads(result)]: the truth value
    of [response.get("ok")], the text of [response.get("error")] when the
    key is there, and the value of [response.get("drawing_data")]. *)
Inductive Answer :=
  | NotADict (detail : string)
  | Dict (ok : bool) (error : option string) (drawing_data : option Json).

Inductive Reply :=
  | NotJson (detail : string)
  | Decoded (a : Answer).

(** The outcome of awaiting [perform_rpc]. Under [asyncio.wait_for],
    [TimedOut] is the expiry of [RPC_TIMEOUT]; for the calls of
    component_tools.py, which are not wrapped, it is the response timeout
    that the transport raises itself. *)
Inductive Outcome :=
  | TimedOut
  | Failed (detail : string)
  | Replied (body : Reply).

(** The room: its remote participants in enumeration order, and the
    behaviour of the remote side by destination, method and payload. *)
Record Room := {
  remote_participants : list (string * RemoteParticipant);
  perform_rpc : string → string → Request → Outcome
}.

Record JobContext := { room : option Room }.

(** [UserData] of src/models.py. *)
Record UserData := {
  ctx : option JobContext;
  name : string;
  age : Z;
  components : list Component;
  last_canvas_drawing : option Json;
  canvas_history : list Json
}.

(** The state of a session: the user data, the source of uuids, and the
    number of replies asked of the agent with [session.generate_reply]. *)
Record Session := {
  userdata : UserData;
  uuid_draws : nat → string;
  uuid_count : nat;
  replies_requested : nat
}.

Definition T (A : Type) : Type := Session → Res A * Session.

#[global] Instance T_ret : MRet T := λ A a s, (Ok a, s).

#[global] Instance T_bind : MBind T := λ A B f m s,
  match m s with
  | (Ok a, s') => f a s'
  | (Raise e, s') => (Raise e, s')
  end.

Definition raise {A} (e : exn) : T A := λ s, (Raise e, s).

Definition try_except {A} (body : T A) (handler : exn → T A) : T A := λ s,
  match body s with
  | (Ok a, s') => (Ok a, s')
  | (Raise e, s') => handler e s'
  end.

Definition get_userdata : T UserData := λ s, (Ok (userdata s), s).

Definition put_userdata (u : UserData) : T unit := λ s,
  (Ok tt, {| userdata := u; uuid_draws := uuid_draws s;
             uuid_count := uuid_count s;
             replies_requested := replies_requested s |}).

(** [str(uuid.uuid4())] *)
Definition uuid4 : T string := λ s,
  (Ok (uuid_draws s (uuid_count s)),
   {| userdata := userdata s; uuid_draws := uuid_draws s;
      uuid_count := S (uuid_count s);
      replies_requested := replies_requested s |}).

(** [session.generate_reply(instructions=...)] *)
Definition generate_reply : T unit := λ s,
  (Ok tt, {| userdata := userdata s; uuid_draws := uuid_draws s;
             uuid_count := uuid_count s;
             replies_requested := S (replies_requested s) |}).

(** ** The methods of [UserData] *)

Definition set_user_info (name : string) (age : Z) : T UserInfo :=
  id ← uuid4;
  let user_info := {| info_id := id; info_name := name; info_age := age |} in
  u ← get_userdata;
  put_userdata {| ctx := ctx u; name := name; age := age;
                  components := components u;
                  last_canvas_drawing := last_canvas_drawing u;
                  canvas_history := canvas_history u |};;
  mret user_info.

(** [self.age] is an [int], so [self.age is not None] holds. *)
Definition get_user_info : T (option UserInfo) :=
  u ← get_userdata;
  if negb (String.eqb (Models.name u) "") then
    id ← uuid4;
    mret (Some {| info_id := id; info_name := Models.name u;
                  info_age := Models.age u |})
  else mret None.

Definition set_components (cs : list Component) : T unit :=
  u ← get_userdata;
  put_userdata {| ctx := ctx u; name := Models.name u; age := Models.age u;
                  components := cs;
                  last_canvas_drawing := last_canvas_drawing u;
                  canvas_history := canvas_history u |}.

Definition add_component (content : string) : T Component :=
  id ← uuid4;
  let component :=
    {| comp_id := id; content := content; is_showed := false |} in
  u ← get_userdata;
  set_components (components u ++ [component]);;
  mret component.

(** The first component with the id, and its position. *)
Definition get_component_at (action_id : string) (cs : list Component)
  : option (nat * Component) :=
  list_find (λ c, comp_id c = action_id) cs.

Definition get_component (action_id : string) : T (option Component) :=
  u ← get_userdata;
  mret (snd <$> get_component_at action_id (components u)).

Definition flip_showed (c : Component) : Component :=
  {| comp_id := comp_id c; content := Models.content c;
     is_showed := negb (is_showed c) |}.

(** The component is changed in place and returned as it is afterwards. *)
Definition toggle_component (action_id : string) : T (option Component) :=
  u ← get_userdata;
  match get_component_at action_id (components u) with
  | Some (i, component) =>
      set_components (<[i := flip_showed component]> (components u));;
      mret (Some (flip_showed component))
  | None => mret None
  end.

Definition set_canvas (d : option Json) (h : list Json) : T unit :=
  u ← get_userdata;
  put_userdata {| ctx := ctx u; name := Models.name u; age := Models.age u;
                  components := components u;
                  last_canvas_drawing := d; canvas_history := h |}.

(** [self.canvas_history.append(self.last_canvas_drawing.copy())] when the
    drawing is truthy; a value without [copy] raises. *)
Definition save_canvas_to_history : T unit :=
  u ← get_userdata;
  match last_canvas_drawing u with
  | Some d =>
      if truthy d then
        match d with
        | JDict _ | JList _ =>
            set_canvas (last_canvas_drawing u) (canvas_history u ++ [d])
        | _ =>
            raise (Exception ("'" +:+ type_name d
                              +:+ "' object has no attribute 'copy'"))
        end
      else mret tt
  | None => mret tt
  end.

Definition clear_canvas_data : T unit :=
  u ← get_userdata;
  set_canvas None (canvas_history u).

(** ** user_tools.py *)

Definition set_user_data (name : string) (age : Z) : T string :=
  _ ← set_user_info name age;
  mret ("Okay, now I will remember your name is " +:+ name
        +:+ " and you are " +:+ Py.str age +:+ " year old.").

Definition get_user_data : T string :=
  user_info ← get_user_info;
  match user_info with
  | Some i =>
      mret ("Your name: " +:+ info_name i +:+ " and your age: "
            +:+ Py.str (info_age i))
  | None =>
      mret "I don't know your name. Please introduce your name and your age"
  end.

(** ** component_tools.py *)

(** The constants of src/config.py. *)
Definition RPC_METHOD_COMPONENT : string := "client.component".
Definition RPC_METHOD_ILLUSTRATION : string := "client.showIllustration".
Definition RPC_METHOD_CANVAS : string := "client.canvas".

(** The room, its participants and the first of them, with the string
    returned when each is missing. *)
Definition with_first_participant (no_room no_participants no_first : string)
    (k : Room → RemoteParticipant → T string) : T string :=
  u ← get_userdata;
  match ctx u ≫= room with
  | None => mret no_room
  | Some r =>
      match remote_participants r with
      | [] => mret no_participants
      | _ :: _ =>
          match head (remote_participants r).*2 with
          | None => mret no_first
          | Some participant => k r participant
          end
      end
  end.

(** [await room.local_participant.perform_rpc(...)], not wrapped: every
    failure is raised to the caller. *)
Definition await_plain (r : Room) (destination_identity method : string)
    (payload : Request) : T unit :=
  match perform_rpc r destination_identity method payload with
  | TimedOut => raise TimeoutError
  | Failed d => raise (Exception d)
  | Replied _ => mret tt
  end.

Definition create_component (content : string) : T string :=
  component ← add_component content;
  with_first_participant
    "Created a component, but couldn't access the room to send it"
    "Created a component, but no participants found to send it to"
    "Created a component, but couldn't get the first participant"
    (λ r participant,
      u ← get_userdata;
      let payload :=
        ShowComponent (comp_id component) (Models.content component)
          (Py.len (components u) - 1) in
      await_plain r (identity participant) RPC_METHOD_COMPONENT payload;;
      mret ("I've created a component with the content: " +:+ content)).

Definition toggle_component_tool (component_id : string) : T string :=
  component ← toggle_component component_id;
  match component with
  | None => mret ("Component with ID " +:+ component_id +:+ " not found")
  | Some component =>
      with_first_participant
        "Toggled the component, but couldn't access the room to send it"
        "Toggled the component, but no participants found to send it to"
        "Toggled the component, but couldn't get the first participant."
        (λ r participant,
          let payload := ToggleComponent (comp_id component) in
          await_plain r (identity participant) RPC_METHOD_COMPONENT payload;;
          mret ("I've toggled the component to "
                +:+ (if is_showed component then "show" else "hide")
                +:+ " the component"))
  end.

(** ** rpc_handlers.py *)

(** The payload of an invocation: what [json.loads(rpc_data.payload)]
    gives. *)
Inductive Payload :=
  | Malformed (detail : string)
  | Parsed (j : Json).

(** [payload_data.get("id")] *)
Definition get_id (j : Json) : T Json :=
  match j with
  | JDict items => mret (default JNull (assoc "id" items))
  | _ => raise (Exception ("'" +:+ type_name j
                           +:+ "' object has no attribute 'get'"))
  end.

(** [component.id == action_id] holds for a string only. *)
Definition toggle_by (action_id : Json) : T (option Component) :=
  match action_id with
  | JStr s => toggle_component s
  | _ => mret None
  end.

Definition handle_toggle_component (rpc_data : Payload) : T string :=
  try_except
    (payload_data ← match rpc_data with
                    | Malformed d => raise (Exception d)
                    | Parsed j => mret j
                    end;
     action_id ← get_id payload_data;
     (if truthy action_id then
        component ← toggle_by action_id;
        match component with
        | Some _ => generate_reply
        | None => mret tt
        end
      else mret tt);;
     mret "success")
    (λ e, mret ("error: " +:+ exn_str e)).
(** The id that a payload asks to toggle: the string under its key "id",
    when the payload is an object and that string is not empty. *)
Definition requested_id (rpc_data : Payload) : option string :=
  match rpc_data with
  | Parsed (JDict items) =>
      match assoc "id" items with
      | Some (JStr id) => if String.eqb id "" then None else Some id
      | _ => None
      end
  | _ => None
  end.

(** ** illustration_tools.py *)

Record Illustration := {
  url : string;
  description : string;
  topics : list string
}.

(** [AVAILABLE_ILLUSTRATIONS] of src/config.py, in the order of its keys. *)
Definition AVAILABLE_ILLUSTRATIONS : list (string * Illustration) :=
  [ ("pythagoras",
     {| url := "https://upload.wikimedia.org/wikipedia/commons/thumb/d/d2/Pythagorean.svg/512px-Pythagorean.svg.png";
        description := "Pythagorean theorem diagram showing a² + b² = c²";
        topics := ["mathematics"; "geometry"; "pythagoras"; "triangle";
                   "theorem"] |});
    ("trigonometry",
     {| url := "https://upload.wikimedia.org/wikipedia/commons/thumb/7/7e/Trigonometry_triangle.svg/800px-Trigonometry_triangle.svg.png";
        description := "A trigonometry triangle is a right-angled triangle used as the fundamental scaffold for defining sine, cosine, and tangent";
        topics := ["mathematics"; "geometry"; "trigonometry"; "triangle"] |})
  ].

Fixpoint lookup_illustration (key : string)
    (table : list (string * Illustration)) : option Illustration :=
  match table with
  | [] => None
  | (k, v) :: rest =>
      if String.eqb k key then Some v else lookup_illustration key rest
  end.

(** [sep.join(l)] *)
Fixpoint join (sep : string) (l : list string) : string :=
  match l with
  | [] => ""
  | [x] => x
  | x :: rest => x +:+ sep +:+ join sep rest
  end.

(** [await asyncio.wait_for(perform_rpc(...), timeout=RPC_TIMEOUT)] *)
Definition await_rpc (r : Room) (destination_identity method : string)
    (payload : Request) : T Reply :=
  match perform_rpc r destination_identity method payload with
  | TimedOut => raise TimeoutError
  | Failed d => raise (Exception d)
  | Replied b => mret b
  end.

Definition json_loads (b : Reply) : T Answer :=
  match b with
  | NotJson d => raise (Exception d)
  | Decoded a => mret a
  end.

Definition get_ok (a : Answer) : T bool :=
  match a with
  | NotADict d => raise (Exception d)
  | Dict ok _ _ => mret ok
  end.

Definition get_error (a : Answer) (fallback : string) : T string :=
  match a with
  | NotADict d => raise (Exception d)
  | Dict _ e _ => mret (default fallback e)
  end.

Definition show_illustration (illustration_key : string) : T string :=
  match lookup_illustration illustration_key AVAILABLE_ILLUSTRATIONS with
  | None =>
      let available_keys := join ", " (AVAILABLE_ILLUSTRATIONS.*1) in
      mret ("I don't have an illustration called '" +:+ illustration_key
            +:+ "'. Available illustrations are: " +:+ available_keys)
  | Some illustration =>
      let image_url := url illustration in
      let description := description illustration in
      with_first_participant
        "Cannot show illustration: couldn't access the room"
        "Cannot show illustration: no participants found in the room"
        "Cannot show illustration: couldn't get the first participant"
        (λ r participant,
          try_except
            (result ← await_rpc r (identity participant)
                        RPC_METHOD_ILLUSTRATION (ShowIllustration image_url);
             response ← json_loads result;
             ok ← get_ok response;
             if ok : bool then
               let desc_msg :=
                 if String.eqb description "" then ""
                 else " showing " +:+ description in
               mret ("I've displayed the illustration" +:+ desc_msg
                     +:+ " to you.")
             else
               error ← get_error response "Unknown error";
               mret ("I tried to show the illustration but encountered an error: "
                     +:+ error))
            (λ e,
              match e with
              | TimeoutError =>
                  mret "The illustration request timed out. Please make sure the frontend is connected and try again."
              | _ =>
                  mret "I encountered an error while trying to show the illustration. The frontend may not be ready to receive it."
              end))
  end.

Definition hide_illustration : T string :=
  with_first_participant
    "Cannot hide illustration: couldn't access the room"
    "Cannot hide illustration: no participants found in the room"
    "Cannot hide illustration: couldn't get the first participant"
    (λ r participant,
      try_except
        (result ← await_rpc r (identity participant)
                    RPC_METHOD_ILLUSTRATION HideIllustration;
         response ← json_loads result;
         ok ← get_ok response;
         if ok : bool then mret "I've hidden the illustration."
         else
           error ← get_error response "Unknown error";
           mret ("I tried to hide the illustration but encountered an error: "
                 +:+ error))
        (λ e,
          match e with
          | TimeoutError =>
              mret "The hide illustration request timed out. Please make sure the frontend is connected."
          | _ =>
              mret "I encountered an error while trying to hide the illustration. The frontend may not be ready."
          end)).

(** ** canvas_tools.py *)

(** [j.get(key, fallback)] *)
Definition json_get (j : Json) (key : string) (fallback : Json) : T Json :=
  match j with
  | JDict items => mret (default fallback (assoc key items))
  | _ => raise (Exception ("'" +:+ type_name j
                           +:+ "' object has no attribute 'get'"))
  end.

(** The keys of a dict, each once. *)
Fixpoint distinct_keys (items : list (string * Json)) : list string :=
  match items with
  | [] => []
  | (k, _) :: rest =>
      let ks := distinct_keys rest in
      if bool_decide (k ∈ ks) then ks else k :: ks
  end.

(** [len(j)]; the length of a string is counted in bytes. *)
Definition json_len (j : Json) : T Z :=
  match j with
  | JStr s => mret (Z.of_nat (String.length s))
  | JList l => mret (Py.len l)
  | JDict items => mret (Py.len (distinct_keys items))
  | _ => raise (Exception ("object of type '" +:+ type_name j
                           +:+ "' has no len()"))
  end.

(** [response.get("drawing_data", {})] *)
Definition get_drawing_data (a : Answer) : T Json :=
  match a with
  | NotADict d => raise (Exception d)
  | Dict _ _ d => mret (default (JDict []) d)
  end.

(** A JSON value as an attribute of type [Optional]: null is [None]. *)
Definition to_optional (j : Json) : option Json :=
  match j with
  | JNull => None
  | _ => Some j
  end.

(** [bool(userdata.last_canvas_drawing)] *)
Definition has_drawing (d : option Json) : bool :=
  match d with
  | None => false
  | Some j => truthy j
  end.

Definition get_canvas_drawing : T string :=
  with_first_participant
    "Cannot get canvas: couldn't access the room"
    "Cannot get canvas: no participants found in the room"
    "Cannot get canvas: couldn't get the first participant"
    (λ r participant,
      try_except
        (result ← await_rpc r (identity participant) RPC_METHOD_CANVAS
                    GetDrawing;
         response ← json_loads result;
         ok ← get_ok response;
         if ok : bool then
           drawing_data ← get_drawing_data response;
           u ← get_userdata;
           set_canvas (to_optional drawing_data) (canvas_history u);;
           strokes ← json_get drawing_data "strokes" (JList []);
           n ← json_len strokes;
           mret ("I can see your drawing. It contains " +:+ Py.str n
                 +:+ " strokes. Let me analyze it.")
         else
           error ← get_error response "Unknown error";
           mret ("I couldn't get your canvas drawing: " +:+ error))
        (λ e,
          match e with
          | TimeoutError =>
              mret "The canvas request timed out. Please make sure you've drawn something on the canvas."
          | _ =>
              mret "I encountered an error while trying to get your drawing. Please try again."
          end)).

Definition clear_canvas : T string :=
  with_first_participant
    "Cannot clear canvas: couldn't access the room"
    "Cannot clear canvas: no participants found in the room"
    "Cannot clear canvas: couldn't get the first participant"
    (λ r participant,
      try_except
        (result ← await_rpc r (identity participant) RPC_METHOD_CANVAS
                    ClearCanvas;
         response ← json_loads result;
         ok ← get_ok response;
         if ok : bool then
           u ← get_userdata;
           set_canvas None (canvas_history u);;
           mret "I've cleared the canvas. You can start drawing a new problem."
         else
           error ← get_error response "Unknown error";
           mret ("I couldn't clear the canvas: " +:+ error))
        (λ e,
          match e with
          | TimeoutError =>
              mret "The clear request timed out. Please try again."
          | _ => mret "I encountered an error while clearing the canvas."
          end)).

(** The element and the suggestion chosen by the number of strokes. *)
Definition heuristic (n : Z) : string * string :=
  if n <? 5 then
    ("Simple shape or number",
     "Try drawing more complex mathematical expressions")
  else if n <? 20 then
    ("Mathematical equation or expression",
     "Make sure numbers and operators are clear")
  else
    ("Complex diagram or graph",
     "This looks like a detailed mathematical concept").

Definition analyze_math_drawing : T string :=
  u ← get_userdata;
  early ← (if negb (has_drawing (last_canvas_drawing u)) then
             get_result ← get_canvas_drawing;
             if contains "couldn't" (Py.lower get_result)
                || contains "error" (Py.lower get_result)
             then mret (Some get_result)
             else mret None
           else mret None);
  match early with
  | Some get_result => mret get_result
  | None =>
      u ← get_userdata;
      match last_canvas_drawing u with
      | Some drawing_data =>
          if truthy drawing_data then
            strokes ← json_get drawing_data "strokes" (JList []);
            _ ← json_get drawing_data "image" (JStr "");
            n ← json_len strokes;
            let '(element, suggestion) := heuristic n in
            mret ("I can see you've drawn something with " +:+ Py.str n
                  +:+ " strokes. " +:+ element +:+ ". " +:+ suggestion)
          else
            mret "There's no drawing on the canvas yet. Please draw something first."
      | None =>
          mret "There's no drawing on the canvas yet. Please draw something first."
      end
  end.

Definition highlight_canvas_area (x y width height : Z) (color : string)
  : T string :=
  with_first_participant
    "Cannot highlight: couldn't access the room"
    "Cannot highlight: no participants found"
    "Cannot highlight: couldn't get participant"
    (λ r participant,
      try_except
        (result ← await_rpc r (identity participant) RPC_METHOD_CANVAS
                    (Highlight x y width height color);
         response ← json_loads result;
         ok ← get_ok response;
         if ok : bool then
           mret ("I've highlighted the area at (" +:+ Py.str x +:+ ", "
                 +:+ Py.str y +:+ ") to draw your attention to it.")
         else
           error ← get_error response "Unknown error";
           mret ("I couldn't highlight the area: " +:+ error))
        (λ e,
          match e with
          | TimeoutError => mret "The highlight request timed out."
          | _ => mret "I encountered an error while highlighting."
          end)).

(** ** Sessions *)

(** [UserData(ctx=c)] in a new session. *)
Definition fresh (c : option JobContext) (draws : nat → string) : Session :=
  {| userdata := {| ctx := c; name := ""; age := 0; components := [];
                    last_canvas_drawing := None; canvas_history := [] |};
     uuid_draws := draws; uuid_count := 0; replies_requested := 0 |}.

Definition with_ctx (c : option JobContext) (s : Session) : Session :=
  {| userdata := {| ctx := c; name := name (userdata s);
                    age := age (userdata s);
                    components := components (userdata s);
                    last_canvas_drawing := last_canvas_drawing (userdata s);
                    canvas_history := canvas_history (userdata s) |};
     uuid_draws := uuid_draws s; uuid_count := uuid_count s;
     replies_requested := replies_requested s |}.

Definition in_room (r : Room) : option JobContext :=
  Some {| room := Some r |}.

(** A room whose only participant accepts every request. *)
Definition ok_room : Room :=
  {| remote_participants := [("web", {| identity := "web" |})];
     perform_rpc := λ _ _ _, Replied (Decoded (Dict true None None)) |}.

(** A room whose only participant never answers. *)
Definition silent_room : Room :=
  {| remote_participants := [("web", {| identity := "web" |})];
     perform_rpc := λ _ _ _, TimedOut |}.

(** ** config.py: the instructions *)

Definition AGENT_INSTRUCTIONS : string :=
"Kamu adalah Vyna, seorang tutor AI yang bertugas menjelaskan materi Matematika seperti guru sungguhan.
Ubah setiap simbol dan angka dalam bentuk lisan.
Langsung menjelaskan materi tanpa basa-basi. Gunakan bahasa Indonesia.

Awali interaksi dengan perkenalan singkat dan tanyakan apa yang ingin dipelajari oleh siswa.
Buat giliran bicaramu singkat, hanya satu atau dua kalimat. Interaksi dengan pengguna menggunakan suara jadi respons secara singkat, to the point, dan tanpa format dan simbol kompleks.

Ketika menjelasan konsep dengan visual, gunakan fungsi show_illustration untuk menampilkan gambar atau diagram relevan agar siswa lebih mudah memahami.
Gunakan fungsi hide_illustration ketika kamu ingin membersihkan gambar ilustrasi atau berpindah topik.
".

Definition MATH_TEACHER_INSTRUCTIONS : string :=
"You are a Math Teacher AI assistant that helps students learn mathematics through interactive drawing.

Your capabilities:
- Analyze mathematical drawings on the canvas (equations, shapes, graphs, diagrams)
- Provide step-by-step explanations
- Give feedback on student work
- Highlight specific areas of interest on the canvas
- Show relevant illustrations for concepts

Guidelines:
1. Always be encouraging and supportive
2. When analyzing drawings, describe what you see clearly
3. Break down complex problems into steps
4. Use the canvas tools to interact with student drawings
5. Show relevant illustrations when explaining concepts
6. Keep responses concise and focused

Available tools:
- get_canvas_drawing(): See what the student has drawn
- analyze_math_drawing(): Analyze mathematical elements
- clear_canvas(): Clear the canvas for a new problem
- highlight_canvas_area(): Point to specific areas
- show_illustration(): Display helpful diagrams
- hide_illustration(): Clear displayed images

Start by greeting the student and asking them to draw a math problem on the canvas.
".

Definition RPC_METHOD_TOGGLE_COMPONENT : string := "agent.toggleComponent".

(** ** assistants/base_assistant.py and assistants/math_teacher.py *)

Inductive AgentClass :=
  | Assistant
  | MathTeacherAssistant.

(** An agent: its class and the instructions given to [Agent.__init__]. *)
Record Agent := {
  agent_class : AgentClass;
  instructions : string
}.

(** [Assistant(instructions=...)]; without the argument the instructions
    are [AGENT_INSTRUCTIONS]. *)
Definition new_Assistant (instructions : option string) : Agent :=
  {| agent_class := Assistant;
     instructions := default AGENT_INSTRUCTIONS instructions |}.

(** [MathTeacherAssistant(instructions=...)] *)
Definition new_MathTeacherAssistant (instructions : option string) : Agent :=
  {| agent_class := MathTeacherAssistant;
     instructions := default MATH_TEACHER_INSTRUCTIONS instructions |}.

(** The function tools that the body of each class registers, by the name
    of the attribute. *)
Definition tools (c : AgentClass) : list string :=
  match c with
  | Assistant =>
      ["set_user_data"; "get_user_data"; "create_component";
       "toggle_component"; "show_illustration"; "hide_illustration"]
  | MathTeacherAssistant =>
      ["set_user_data"; "get_user_data"; "show_illustration";
       "hide_illustration"; "get_canvas_drawing"; "analyze_math_drawing";
       "clear_canvas"; "highlight_canvas_area"]
  end.

(** ** agent_factory.py *)

(** The [ValueError] of an unknown type is raised with its message. *)
Definition create_agent (agent_type : string)
    (custom_instructions : option string) : Res Agent :=
  if String.eqb agent_type "math_teacher" then
    match custom_instructions with
    | Some i =>
        if negb (String.eqb i "") then Ok (new_MathTeacherAssistant (Some i))
        else Ok (new_MathTeacherAssistant None)
    | None => Ok (new_MathTeacherAssistant None)
    end
  else if String.eqb agent_type "default" then
    match custom_instructions with
    | Some i =>
        if negb (String.eqb i "") then Ok (new_Assistant (Some i))
        else Ok (new_Assistant None)
    | None => Ok (new_Assistant None)
    end
  else
    Raise (Exception ("Unknown agent type: " +:+ agent_type
                      +:+ ". Valid options are: 'default', 'math_teacher'")).

Definition create_default_agent (custom_instructions : option string)
  : Res Agent :=
  create_agent "default" custom_instructions.

Definition create_math_teacher_agent (custom_instructions : option string)
  : Res Agent :=
  create_agent "math_teacher" custom_instructions.

(** ** session.py *)

(** The agent that [start_agent_session] starts: the one given, or the one
    of the type. *)
Definition started_agent (agent_type : string) (agent : option Agent)
  : Res Agent :=
  match agent with
  | Some a => Ok a
  | None => create_agent agent_type None
  end.

(** A call of a function tool by the model, with its arguments. *)
Inductive ToolCall :=
  | call_set_user_data (name : string) (age : Z)
  | call_get_user_data
  | call_create_component (content : string)
  | call_toggle_component (component_id : string)
  | call_show_illustration (illustration_key : string)
  | call_hide_illustration
  | call_get_canvas_drawing
  | call_analyze_math_drawing
  | call_clear_canvas
  | call_highlight_canvas_area (x y width height : Z) (color : string).

Definition tool_name (c : ToolCall) : string :=
  match c with
  | call_set_user_data _ _ => "set_user_data"
  | call_get_user_data => "get_user_data"
  | call_create_component _ => "create_component"
  | call_toggle_component _ => "toggle_component"
  | call_show_illustration _ => "show_illustration"
  | call_hide_illustration => "hide_illustration"
  | call_get_canvas_drawing => "get_canvas_drawing"
  | call_analyze_math_drawing => "analyze_math_drawing"
  | call_clear_canvas => "clear_canvas"
  | call_highlight_canvas_area _ _ _ _ _ => "highlight_canvas_area"
  end.

Definition run_tool (c : ToolCall) : T string :=
  match c with
  | call_set_user_data n a => set_user_data n a
  | call_get_user_data => get_user_data
  | call_create_component text => create_component text
  | call_toggle_component id => toggle_component_tool id
  | call_show_illustration key => show_illustration key
  | call_hide_illustration => hide_illustration
  | call_get_canvas_drawing => get_canvas_drawing
  | call_analyze_math_drawing => analyze_math_drawing
  | call_clear_canvas => clear_canvas
  | call_highlight_canvas_area x y w h color =>
      highlight_canvas_area x y w h color
  end.

(** The sessions of an agent: a session starts with [UserData(ctx=ctx)];
    the model calls the tools of the class of the agent, the frontend
    invokes the handler registered under [RPC_METHOD_TOGGLE_COMPONENT],
    and the room of the context changes as participants come and go.
    What a call has changed stays changed when the call raises. *)
Inductive reaches (a : Agent) : Session → Prop :=
  | reaches_fresh c draws : reaches a (fresh c draws)
  | reaches_tool call s :
      reaches a s → tool_name call ∈ tools (agent_class a) →
      reaches a (run_tool call s).2
  | reaches_toggle rpc_data s :
      reaches a s → reaches a (handle_toggle_component rpc_data s).2
  | reaches_ctx c s : reaches a s → reaches a (with_ctx c s).

(** ** Notions used in the statements *)

(** What becomes of a request of the session: the outcome of the call to
    the first participant of its room, when there is a room with a
    participant. *)
Definition frontend (s : Session) (method : string) (payload : Request)
  : option Outcome :=
  r ← ctx (userdata s) ≫= room;
  p ← head (remote_participants r).*2;
  Some (perform_rpc r (identity p) method payload).

(** The request was accepted: the answer is a JSON object whose "ok" is
    true. The result is the value under "drawing_data", when the key is
    there. *)
Definition accepted (o : option Outcome) : option (option Json) :=
  match o with
  | Some (Replied (Decoded (Dict true _ d))) => Some d
  | _ => None
  end.

(** The session with [d] as its last canvas drawing. *)
Definition with_drawing (d : option Json) (s : Session) : Session :=
  {| userdata := {| ctx := ctx (userdata s); name := name (userdata s);
                    age := age (userdata s);
                    components := components (userdata s);
                    last_canvas_drawing := d;
                    canvas_history := canvas_history (userdata s) |};
     uuid_draws := uuid_draws s; uuid_count := uuid_count s;
     replies_requested := replies_requested s |}.

(** The strokes of a drawing: the value under "strokes", an empty list
    when the key is missing. *)
Definition strokes_of (items : list (string * Json)) : Json :=
  default (JList []) (assoc "strokes" items).

(** A room whose only participant answers every request with the drawing
    [d]. *)
Definition drawing_room (d : Json) : Room :=
  {| remote_participants := [("web", {| identity := "web" |})];
     perform_rpc := λ _ _ _, Replied (Decoded (Dict true None (Some d))) |}.

(** The string is made of decimal digits. *)
Fixpoint decimal (s : string) : bool :=
  match s with
  | EmptyString => true
  | String c r =>
      bool_decide (c ∈ ["0"; "1"; "2"; "3"; "4"; "5"; "6"; "7"; "8"; "9"]%char)
      && decimal r
  end.

(** The sentence of [analyze_math_drawing] about a drawing of [n]
    strokes. *)
Definition analysis (n : nat) : string :=
  "I can see you've drawn something with " +:+ Py.str (Z.of_nat n)
  +:+ " strokes. "
  +:+ (if decide (n < 5)%nat then
         "Simple shape or number. Try drawing more complex mathematical expressions"
       else if decide (n < 20)%nat then
         "Mathematical equation or expression. Make sure numbers and operators are clear"
       else
         "Complex diagram or graph. This looks like a detailed mathematical concept").

End Models.

(** ** Running the monad *)

Lemma bind_run {A B} (m : M A) (f : A → M B) w :
  (m ≫= f) w = match m w with
               | (Ok a, w') => f a w'
               | (Raise e, w') => (Raise e, w')
               end.
Proof. reflexivity. Qed.

Lemma read_only_ret {A} (a : A) : read_only (mret a).
Proof. intros w. reflexivity. Qed.

Lemma read_only_raise {A} e : read_only (@raise A e).
Proof. intros w. reflexivity. Qed.

Lemma read_only_bind {A B} (m : M A) (f : A → M B) :
  read_only m → (∀ a, read_only (f a)) → read_only (m ≫= f).
Proof.
  intros Hm Hf w. rewrite bind_run. specialize (Hm w).
  destruct (m w) as [[a|e] w']; simpl in *; subst; [apply Hf | reflexivity].
Qed.

Lemma read_only_try {A} (body : M A) handler :
  read_only body → (∀ e, read_only (handler e)) →
  read_only (try_except body handler).
Proof.
  intros Hb Hh w. unfold try_except. specialize (Hb w).
  destruct (body w) as [[a|e] w']; simpl in *; subst; [reflexivity | apply Hh].
Qed.

Lemma read_only_get_userdata : read_only get_userdata.
Proof. intros w. reflexivity. Qed.

Lemma read_only_getitem {A} (l : list A) i : read_only (getitem l i).
Proof. intros w. unfold getitem. by case_match. Qed.

Lemma read_only_percentage_of s t : read_only (percentage_of s t).
Proof. intros w. unfold percentage_of. by repeat case_match. Qed.

Lemma read_only_await_rpc r d p : read_only (await_rpc r d p).
Proof. intros w. unfold await_rpc. by case_match. Qed.

Lemma read_only_json_loads b : read_only (json_loads b).
Proof. intros w. by destruct b. Qed.

Lemma read_only_get_ok r : read_only (get_ok r).
Proof. intros w. by destruct r. Qed.

Lemma read_only_get_error r d : read_only (get_error r d).
Proof. intros w. by destruct r. Qed.

Lemma read_only_with_first_participant a b c k :
  (∀ r p, read_only (k r p)) → read_only (with_first_participant a b c k).
Proof.
  intros Hk. apply read_only_bind; [apply read_only_get_userdata|].
  intros u. repeat case_match; solve [apply read_only_ret | apply Hk].
Qed.

Create HintDb quiz_ro.
#[local] Hint Resolve read_only_ret read_only_raise read_only_bind
  read_only_try read_only_get_userdata read_only_getitem
  read_only_percentage_of read_only_await_rpc read_only_json_loads
  read_only_get_ok read_only_get_error read_only_with_first_participant
  : quiz_ro.

Ltac read_only_tac :=
  repeat first
    [ progress intros
    | apply read_only_with_first_participant
    | apply read_only_try
    | apply read_only_bind
    | solve [eauto with quiz_ro]
    | case_match ].

Lemma read_only_show_next_question quiz : read_only (_show_next_question quiz).
Proof. unfold _show_next_question. read_only_tac. Qed.

Lemma total_ret {A} (a : A) : total (mret a).
Proof. intros w. by eexists. Qed.

Lemma total_bind {A B} (m : M A) (f : A → M B) :
  total m → (∀ a, total (f a)) → total (m ≫= f).
Proof.
  intros Hm Hf w. rewrite bind_run. destruct (Hm w) as [a Ha].
  destruct (m w) as [[a'|e] w']; simpl in *; [apply Hf | discriminate].
Qed.

Lemma total_try {A} (body : M A) handler :
  (∀ e, total (handler e)) → total (try_except body handler).
Proof.
  intros Hh w. unfold try_except.
  destruct (body w) as [[a|e] w']; simpl; [by eexists | apply Hh].
Qed.

Lemma total_get_userdata : total get_userdata.
Proof. intros w. by eexists. Qed.

Lemma total_with_first_participant a b c k :
  (∀ r p, total (k r p)) → total (with_first_participant a b c k).
Proof.
  intros Hk. apply total_bind; [apply total_get_userdata|].
  intros u. repeat case_match; solve [apply total_ret | apply Hk].
Qed.

Lemma total_show_next_question quiz : total (_show_next_question quiz).
Proof.
  apply total_with_first_participant. intros r p.
  apply total_try. intros e. apply total_ret.
Qed.


(** ** Arithmetic of the percentage *)

Lemma percentage_of_exact s t w :
  1 ≤ t ≤ 10 → 0 ≤ s ≤ t →
  percentage_of s t w = (Ok (floor_percentage s t), w).
Proof.
  intros Ht Hs. unfold floor_percentage.
  assert (∃ n m : nat, (n ≤ 10)%nat ∧ (m ≤ 10)%nat ∧
                       t = Z.of_nat n ∧ s = Z.of_nat m)
    as (n & m & Hn & Hm & -> & ->).
  { exists (Z.to_nat t), (Z.to_nat s). lia. }
  do 11 (destruct n as [|n];
         [ try lia;
           do 11 (destruct m as [|m]; [try lia; vm_compute; reflexivity|]);
           lia
         |]).
  lia.
Qed.

(** ** The catalog *)

Lemma bank_algebra a1 a2 g1 f1 :
  sample_questions a1 a2 g1 f1 !! "algebra" = Some (algebra_questions a1 a2).
Proof. reflexivity. Qed.

Lemma bank_lookup a1 a2 g1 f1 k l :
  sample_questions a1 a2 g1 f1 !! k = Some l →
  l = algebra_questions a1 a2 ∨ l = geometry_questions g1
  ∨ l = fractions_questions f1.
Proof.
  unfold sample_questions. intros H.
  apply lookup_insert_Some in H as [[_ <-]|[_ H]]; [by left|].
  apply lookup_insert_Some in H as [[_ <-]|[_ H]]; [by right; left|].
  apply lookup_singleton_Some in H as [_ <-]. by right; right.
Qed.

Lemma catalog_entry_length w t : (1 ≤ length (catalog_entry w t) ≤ 2)%nat.
Proof.
  unfold catalog_entry.
  destruct (sample_questions _ _ _ _ !! Py.lower t) as [l|] eqn:E; simpl;
    [|lia].
  apply bank_lookup in E as [ -> | [ -> | -> ] ]; simpl; lia.
Qed.

Lemma clamp_range n : 1 ≤ Py.max 1 (Py.min 10 n) ≤ 10.
Proof. unfold Py.max, Py.min. repeat case_match; lia. Qed.

Lemma clamp_eq n : Py.max 1 (Py.min 10 n) = Z.max 1 (Z.min 10 n).
Proof. unfold Py.max, Py.min. repeat case_match; lia. Qed.

Lemma slice_to_pos {A} (l : list A) n :
  0 ≤ n → Py.slice_to l n = take (Z.to_nat n) l.
Proof. intros H. unfold Py.slice_to. case_match; [lia | done]. Qed.

Lemma slice_to_len {A} (l : list A) n :
  0 ≤ n → Py.len (Py.slice_to l n) = Z.min n (Py.len l).
Proof.
  intros H. rewrite slice_to_pos by done. unfold Py.len.
  rewrite length_take. lia.
Qed.

Lemma generate_run t n d w :
  _generate_quiz_questions t n d w =
  (Ok (Py.slice_to (catalog_entry w t) n),
   {| userdata := userdata w; uuid_draws := uuid_draws w;
      uuid_count := (4 + uuid_count w)%nat |}).
Proof. reflexivity. Qed.

(** ** What each state-changing helper does to the world *)

Lemma complete_quiz_run quiz w :
  1 ≤ Py.len (questions quiz) ≤ 10 →
  0 ≤ score quiz ≤ Py.len (questions quiz) →
  is_ok (_complete_quiz quiz w).1 ∧
  (_complete_quiz quiz w).2 =
  {| userdata := {| ctx := ctx (userdata w);
                    current_quiz := current_quiz (userdata w);
                    quiz_history :=
                      closed_history quiz (quiz_history (userdata w)) |};
     uuid_draws := uuid_draws w; uuid_count := uuid_count w |}.
Proof.
  intros Hl Hs. unfold _complete_quiz.
  rewrite bind_run, percentage_of_exact by done.
  rewrite bind_run. simpl.
  match goal with
  | |- context [with_first_participant ?a ?b ?c ?k ?w'] =>
      assert (read_only (with_first_participant a b c k)) as Hro
        by read_only_tac;
      assert (total (with_first_participant a b c k)) as Htot
        by (apply total_with_first_participant; intros ? ?;
            apply total_try; intros ?; apply total_ret);
      split; [apply Htot | rewrite Hro; reflexivity]
  end.
Qed.

Lemma advance_run quiz w :
  1 ≤ Py.len (questions quiz) ≤ 10 →
  0 ≤ score quiz ≤ Py.len (questions quiz) →
  is_ok (advance quiz w).1 ∧
  (advance quiz w).2 =
  put_quiz (advanced quiz)
    (if current_question_index quiz + 1 >=? Py.len (questions quiz)
     then closed_history (advanced quiz) (quiz_history (userdata w))
     else quiz_history (userdata w)) w.
Proof.
  intros Hl Hs. unfold advance, advanced. simpl.
  rewrite bind_run. simpl.
  destruct (current_question_index quiz + 1 >=? Py.len (questions quiz)).
  - rewrite bind_run. simpl.
    match goal with
    | |- context [_complete_quiz ?q ?w'] =>
        destruct (complete_quiz_run q w') as [Hok Hw]; [done..|]
    end.
    split; [done|]. rewrite Hw. reflexivity.
  - split; [apply total_show_next_question|].
    rewrite read_only_show_next_question. reflexivity.
Qed.


Lemma create_quiz_run t n d w :
  is_ok (create_quiz t n d w).1 ∧
  (create_quiz t n d w).2 =
  {| userdata :=
       {| ctx := ctx (userdata w);
          current_quiz := Some (created_quiz w t n d);
          quiz_history := quiz_history (userdata w) ++ [created_entry w t d] |};
     uuid_draws := uuid_draws w; uuid_count := (6 + uuid_count w)%nat |}.
Proof.
  unfold create_quiz. rewrite bind_run, generate_run.
  repeat (rewrite bind_run; simpl).
  match goal with
  | |- context [with_first_participant ?a ?b ?c ?k ?w'] =>
      assert (read_only (with_first_participant a b c k)) as Hro
        by read_only_tac;
      assert (total (with_first_participant a b c k)) as Htot
        by (apply total_with_first_participant; intros ? ?;
            apply total_try; intros []; apply total_ret);
      split; [apply Htot | rewrite Hro; reflexivity]
  end.
Qed.

Lemma current_question_of_run quiz w :
  0 ≤ current_question_index quiz < Py.len (questions quiz) →
  ∃ cq, questions quiz !! Z.to_nat (current_question_index quiz) = Some cq ∧
        current_question_of quiz w
        = (Ok (Z.to_nat (current_question_index quiz), cq), w).
Proof.
  intros H. unfold current_question_of, Py.position.
  destruct (questions quiz !! Z.to_nat (current_question_index quiz))
    as [cq|] eqn:E.
  - exists cq. split; [done|].
    replace ((0 <=? current_question_index quiz)
             && (current_question_index quiz <? Py.len (questions quiz)))
      with true by (symmetry; apply andb_true_iff; lia).
    by rewrite E.
  - apply lookup_ge_None in E. unfold Py.len in H. lia.
Qed.

Lemma marked_len i a c quiz :
  Py.len (questions (marked i a c quiz)) = Py.len (questions quiz).
Proof.
  unfold marked, Py.len. case_match; [|done]. simpl.
  rewrite length_insert. by destruct c.
Qed.

Lemma marked_index i a c quiz :
  current_question_index (marked i a c quiz) = current_question_index quiz.
Proof. unfold marked. case_match; [|done]. by destruct c. Qed.

Lemma marked_completed i a c quiz :
  completed (marked i a c quiz) = completed quiz.
Proof. unfold marked. case_match; [|done]. by destruct c. Qed.

Lemma marked_id i a c quiz : quiz_id (marked i a c quiz) = quiz_id quiz.
Proof. unfold marked. case_match; [|done]. by destruct c. Qed.

Lemma marked_score i a c quiz cq :
  questions quiz !! i = Some cq →
  score (marked i a c quiz) = score quiz + (if c then 1 else 0).
Proof. unfold marked. intros ->. destruct c; simpl; lia. Qed.

Lemma marked_question i a c quiz cq :
  questions quiz !! i = Some cq →
  questions (marked i a c quiz) !! i = Some (record_answer a c cq).
Proof.
  unfold marked. intros E. rewrite E. simpl.
  apply list_lookup_insert_eq. apply lookup_lt_Some in E. by destruct c.
Qed.

Lemma advanced_len quiz :
  Py.len (questions (advanced quiz)) = Py.len (questions quiz).
Proof. unfold advanced. simpl. by case_match. Qed.

Lemma advanced_index quiz :
  current_question_index (advanced quiz) = current_question_index quiz + 1.
Proof. unfold advanced. simpl. by case_match. Qed.

Lemma advanced_score quiz : score (advanced quiz) = score quiz.
Proof. unfold advanced. simpl. by case_match. Qed.

Lemma advanced_questions quiz : questions (advanced quiz) = questions quiz.
Proof. unfold advanced. simpl. by case_match. Qed.

Lemma advanced_id quiz : quiz_id (advanced quiz) = quiz_id quiz.
Proof. unfold advanced. simpl. by case_match. Qed.

Lemma advanced_completed quiz :
  completed (advanced quiz) =
  (current_question_index quiz + 1 >=? Py.len (questions quiz))
  || completed quiz.
Proof. unfold advanced. simpl. by case_match. Qed.

(** The state after [submit_answer] and [skip_question] on a quiz in
    progress. *)
Lemma submit_answer_run a quiz w :
  current_quiz (userdata w) = Some quiz → completed quiz = false →
  quiz_inv quiz →
  ∃ cq, questions quiz !! Z.to_nat (current_question_index quiz) = Some cq ∧
    let q1 := marked (Z.to_nat (current_question_index quiz)) (Py.upper a)
                (bool_decide (Py.upper a = Py.upper (correct_answer cq)))
                quiz in
    is_ok (submit_answer a w).1 ∧
    (submit_answer a w).2 =
    put_quiz (advanced q1)
      (if current_question_index quiz + 1 >=? Py.len (questions quiz)
       then closed_history (advanced q1) (quiz_history (userdata w))
       else quiz_history (userdata w)) w.
Proof.
  intros Hq Hc [Hl Hi Hcomp Hs].
  assert (current_question_index quiz < Py.len (questions quiz)) as Hlt.
  { destruct (decide (current_question_index quiz = Py.len (questions quiz)))
      as [E|E]; [apply Hcomp in E; congruence | lia]. }
  destruct (current_question_of_run quiz w) as (cq & Ecq & Hrun); [lia|].
  exists cq. split; [done|]. cbv zeta.
  remember (marked (Z.to_nat (current_question_index quiz)) (Py.upper a)
              (bool_decide (Py.upper a = Py.upper (correct_answer cq))) quiz)
    as q1 eqn:Eq1.
  unfold submit_answer. rewrite bind_run. simpl. rewrite Hq, Hc.
  rewrite bind_run, Hrun. rewrite bind_run. simpl.
  match goal with
  | |- context [advance ?q ?w'] =>
      assert (q = q1) as ->
        by (rewrite Eq1; unfold marked; rewrite Ecq; by case_bool_decide)
  end.
  match goal with
  | |- context [advance q1 ?w'] => destruct (advance_run q1 w') as [Hok Hw]
  end.
  - by rewrite Eq1, marked_len.
  - rewrite Eq1, marked_len, (marked_score _ _ _ _ cq) by done.
    case_match; lia.
  - split; [done|]. rewrite Hw, Eq1, marked_len, marked_index. reflexivity.
Qed.

Lemma skip_question_run quiz w :
  current_quiz (userdata w) = Some quiz → completed quiz = false →
  quiz_inv quiz →
  ∃ cq, questions quiz !! Z.to_nat (current_question_index quiz) = Some cq ∧
    let q1 := marked (Z.to_nat (current_question_index quiz)) "SKIPPED" false
                quiz in
    is_ok (skip_question w).1 ∧
    (skip_question w).2 =
    put_quiz (advanced q1)
      (if current_question_index quiz + 1 >=? Py.len (questions quiz)
       then closed_history (advanced q1) (quiz_history (userdata w))
       else quiz_history (userdata w)) w.
Proof.
  intros Hq Hc [Hl Hi Hcomp Hs].
  assert (current_question_index quiz < Py.len (questions quiz)) as Hlt.
  { destruct (decide (current_question_index quiz = Py.len (questions quiz)))
      as [E|E]; [apply Hcomp in E; congruence | lia]. }
  destruct (current_question_of_run quiz w) as (cq & Ecq & Hrun); [lia|].
  exists cq. split; [done|]. cbv zeta.
  remember (marked (Z.to_nat (current_question_index quiz)) "SKIPPED" false
              quiz) as q1 eqn:Eq1.
  unfold skip_question. rewrite bind_run. simpl. rewrite Hq, Hc.
  rewrite bind_run, Hrun. rewrite bind_run. simpl.
  match goal with
  | |- context [advance ?q ?w'] =>
      assert (q = q1) as -> by (rewrite Eq1; unfold marked; by rewrite Ecq)
  end.
  match goal with
  | |- context [advance q1 ?w'] => destruct (advance_run q1 w') as [Hok Hw]
  end.
  - by rewrite Eq1, marked_len.
  - rewrite Eq1, marked_len, (marked_score _ _ _ _ cq) by done. lia.
  - split; [done|]. rewrite Hw, Eq1, marked_len, marked_index. reflexivity.
Qed.

(** ** Calls that change nothing *)

Lemma submit_answer_no_quiz a w :
  current_quiz (userdata w) = None →
  submit_answer a w
  = (Ok "There's no active quiz. Create a quiz first using create_quiz.", w).
Proof. intros H. unfold submit_answer. rewrite bind_run. simpl. by rewrite H. Qed.

Lemma submit_answer_completed a w q :
  current_quiz (userdata w) = Some q → completed q = true →
  submit_answer a w
  = (Ok ("This quiz is already completed. Your score was "
         +:+ score_of q +:+ "."), w).
Proof.
  intros H Hc. unfold submit_answer. rewrite bind_run. simpl.
  by rewrite H, Hc.
Qed.

Lemma skip_question_no_quiz w :
  current_quiz (userdata w) = None →
  skip_question w = (Ok "There's no active quiz.", w).
Proof. intros H. unfold skip_question. rewrite bind_run. simpl. by rewrite H. Qed.

Lemma skip_question_completed w q :
  current_quiz (userdata w) = Some q → completed q = true →
  skip_question w = (Ok "Quiz is already completed.", w).
Proof.
  intros H Hc. unfold skip_question. rewrite bind_run. simpl.
  by rewrite H, Hc.
Qed.

Lemma read_only_get_quiz_status : read_only get_quiz_status.
Proof. unfold get_quiz_status. read_only_tac. Qed.

Lemma read_only_show_quiz_results : read_only show_quiz_results.
Proof. unfold show_quiz_results. read_only_tac. Qed.

Lemma total_show_quiz_results : total show_quiz_results.
Proof.
  apply total_bind; [apply total_get_userdata|]. intros u.
  repeat case_match; try apply total_ret.
  apply total_with_first_participant. intros r p.
  apply total_try. intros e. apply total_ret.
Qed.

Lemma get_quiz_status_completed w q :
  current_quiz (userdata w) = Some q → completed q = true → quiz_inv q →
  get_quiz_status w
  = (Ok ("Quiz completed! Final score: " +:+ score_of q +:+ " ("
         +:+ Py.str (floor_percentage (score q) (Py.len (questions q)))
         +:+ "%)"), w).
Proof.
  intros H Hc [Hl Hi _ Hs]. unfold get_quiz_status. rewrite bind_run. simpl.
  rewrite H, Hc, bind_run, percentage_of_exact by lia. reflexivity.
Qed.

Lemma get_quiz_status_in_progress w q :
  current_quiz (userdata w) = Some q → completed q = false →
  get_quiz_status w
  = (Ok ("Currently on question " +:+ Py.str (current_question_index q + 1)
         +:+ " of " +:+ Py.str (Py.len (questions q))
         +:+ ". Score so far: " +:+ Py.str (score q) +:+ "/"
         +:+ Py.str (current_question_index q)
         +:+ " answered correctly."), w).
Proof.
  intros H Hc. unfold get_quiz_status. rewrite bind_run. simpl.
  by rewrite H, Hc.
Qed.

(** ** The invariant *)

Lemma created_quiz_inv w t n d : quiz_inv (created_quiz w t n d).
Proof.
  pose proof (clamp_range n) as Hc.
  pose proof (catalog_entry_length w t) as He.
  assert (1 ≤ Py.len (questions (created_quiz w t n d)) ≤ 2) as Hl.
  { simpl. rewrite slice_to_len by lia. unfold Py.len. lia. }
  split; simpl in *; lia.
Qed.

Lemma in_progress_index q :
  quiz_inv q → completed q = false →
  0 ≤ current_question_index q < Py.len (questions q).
Proof.
  intros [Hl Hi Hc Hs] Hf.
  destruct (decide (current_question_index q = Py.len (questions q)))
    as [E|E]; [apply Hc in E; congruence | lia].
Qed.

Lemma advanced_marked_inv q i a c cq :
  quiz_inv q → completed q = false → questions q !! i = Some cq →
  quiz_inv (advanced (marked i a c q)).
Proof.
  intros Hq Hf E. pose proof (in_progress_index q Hq Hf) as Hlt.
  destruct Hq as [Hl Hi Hc Hs].
  split.
  - by rewrite advanced_len, marked_len.
  - rewrite advanced_len, advanced_index, marked_len, marked_index. lia.
  - rewrite advanced_completed, advanced_len, advanced_index, marked_len,
      marked_index, marked_completed, Hf, orb_false_r.
    rewrite Z.geb_le. lia.
  - rewrite advanced_score, advanced_index, marked_index,
      (marked_score _ _ _ _ cq) by done.
    destruct c; lia.
Qed.

Lemma closed_history_last quiz h e :
  last h = Some e → h_id e = quiz_id quiz →
  ∃ e', last (closed_history quiz h) = Some e' ∧ h_id e' = quiz_id quiz ∧
        h_status e' = "completed".
Proof.
  intros Hl Hid. unfold closed_history. rewrite fmap_last, Hl. simpl.
  eexists. split; [done|]. rewrite bool_decide_eq_true_2 by done. done.
Qed.

Lemma put_quiz_inv q h w :
  quiz_inv q →
  (∃ e, last h = Some e ∧ h_id e = quiz_id q ∧
        (h_status e = "completed" ↔ completed q = true)) →
  world_inv (put_quiz q h w).
Proof.
  intros Hq He. split; [exact He|]. simpl. intros q' [= <-]. exact Hq.
Qed.

Lemma progress_inv q i a c cq h w :
  quiz_inv q → completed q = false → questions q !! i = Some cq →
  (∃ e, last h = Some e ∧ h_id e = quiz_id q ∧
        (h_status e = "completed" ↔ completed q = true)) →
  world_inv
    (put_quiz (advanced (marked i a c q))
       (if current_question_index q + 1 >=? Py.len (questions q)
        then closed_history (advanced (marked i a c q)) h else h) w).
Proof.
  intros Hq Hf E (e & Hl & Hid & Hst).
  apply put_quiz_inv; [by eapply advanced_marked_inv|].
  rewrite advanced_completed, advanced_id, marked_id, marked_len,
    marked_index, marked_completed, Hf, orb_false_r.
  destruct (current_question_index q + 1 >=? Py.len (questions q)).
  - destruct (closed_history_last (advanced (marked i a c q)) h e)
      as (e' & Hl' & Hid' & Hst'); [done | by rewrite advanced_id, marked_id|].
    exists e'. rewrite advanced_id, marked_id in Hid'. by rewrite Hst'.
  - exists e. rewrite Hf in Hst. done.
Qed.

Lemma run_inv c w : world_inv w → world_inv (run c w).2.
Proof.
  intros Hw. pose proof Hw as [Hh Hq]. destruct c as [t n d|a| | |]; simpl.
  - destruct (create_quiz_run t n d w) as [_ ->].
    split.
    + red. simpl. exists (created_entry w t d).
      rewrite last_snoc. split; [done|]. split; [done|]. done.
    + simpl. intros q [= <-]. apply created_quiz_inv.
  - destruct (current_quiz (userdata w)) as [q|] eqn:E.
    + destruct (completed q) eqn:Hc.
      * rewrite (submit_answer_completed a w q) by done. exact Hw.
      * destruct (submit_answer_run a q w) as (cq & Ecq & _ & ->); auto.
        red in Hh. rewrite E in Hh.
        apply (progress_inv q _ _ _ cq); [by apply Hq | done | done | exact Hh].
    + rewrite submit_answer_no_quiz by done. exact Hw.
  - rewrite read_only_get_quiz_status. exact Hw.
  - destruct (current_quiz (userdata w)) as [q|] eqn:E.
    + destruct (completed q) eqn:Hc.
      * rewrite (skip_question_completed w q) by done. exact Hw.
      * destruct (skip_question_run q w) as (cq & Ecq & _ & ->); auto.
        red in Hh. rewrite E in Hh.
        apply (progress_inv q _ _ _ cq); [by apply Hq | done | done | exact Hh].
    + rewrite skip_question_no_quiz by done. exact Hw.
  - rewrite read_only_show_quiz_results. exact Hw.
Qed.

Lemma reachable_inv w : reachable w → world_inv w.
Proof.
  induction 1 as [c draws|w c _ IH|w c _ IH].
  - split; [done|]. simpl. discriminate.
  - by apply run_inv.
  - exact IH.
Qed.

Lemma reachable_after es w : reachable w → reachable (after es w).
Proof.
  revert w. induction es as [|e es IH]; intros w Hw; [done|].
  simpl. apply IH. destruct e; simpl; by constructor.
Qed.

Lemma run_total c w : world_inv w → is_ok (run c w).1.
Proof.
  intros [Hh Hq]. destruct c as [t n d|a| | |]; simpl.
  - apply create_quiz_run.
  - destruct (current_quiz (userdata w)) as [q|] eqn:E.
    + destruct (completed q) eqn:Hc.
      * rewrite (submit_answer_completed a w q) by done. by eexists.
      * destruct (submit_answer_run a q w) as (cq & Ecq & Hok & _); auto.
    + rewrite submit_answer_no_quiz by done. by eexists.
  - destruct (current_quiz (userdata w)) as [q|] eqn:E.
    + destruct (completed q) eqn:Hc.
      * rewrite (get_quiz_status_completed w q) by auto. by eexists.
      * rewrite (get_quiz_status_in_progress w q) by auto. by eexists.
    + unfold get_quiz_status. rewrite bind_run. simpl. rewrite E.
      case_match; by eexists.
  - destruct (current_quiz (userdata w)) as [q|] eqn:E.
    + destruct (completed q) eqn:Hc.
      * rewrite (skip_question_completed w q) by done. by eexists.
      * destruct (skip_question_run q w) as (cq & Ecq & Hok & _); auto.
    + rewrite skip_question_no_quiz by done. by eexists.
  - apply total_show_quiz_results.
Qed.

(** ** Progress of the index *)

Lemma answer_step c w q :
  world_inv w → current_quiz (userdata w) = Some q → is_answer c = true →
  completed q = false →
  ∃ q', current_quiz (userdata (run c w).2) = Some q' ∧
        quiz_id q' = quiz_id q ∧
        current_question_index q' = current_question_index q + 1.
Proof.
  intros [_ Hinv] Hq Hc Hf. specialize (Hinv q Hq).
  destruct c as [| a | | |]; try discriminate; simpl.
  - destruct (submit_answer_run a q w) as (cq & _ & _ & ->); [done..|].
    eexists. split; [reflexivity|].
    by rewrite advanced_id, marked_id, advanced_index, marked_index.
  - destruct (skip_question_run q w) as (cq & _ & _ & ->); [done..|].
    eexists. split; [reflexivity|].
    by rewrite advanced_id, marked_id, advanced_index, marked_index.
Qed.

Lemma idle_step c w q :
  current_quiz (userdata w) = Some q →
  (is_answer c = true → completed q = true) →
  (∀ t n d, c ≠ CreateQuiz t n d) →
  (run c w).2 = w.
Proof.
  intros Hq Hc Hn. destruct c as [t n d| a | | |]; simpl.
  - by destruct (Hn t n d).
  - by rewrite (submit_answer_completed a w q) by auto.
  - apply read_only_get_quiz_status.
  - by rewrite (skip_question_completed w q) by auto.
  - apply read_only_show_quiz_results.
Qed.

Lemma event_step e w q :
  world_inv w → current_quiz (userdata w) = Some q → is_create e = false →
  ∃ q', current_quiz (userdata (step w e)) = Some q' ∧
        quiz_id q' = quiz_id q ∧
        current_question_index q ≤ current_question_index q' ∧
        (completed q = true → completed q' = true).
Proof.
  intros Hw Hq He. destruct e as [c|env]; simpl; [|by exists q].
  destruct (is_answer c && negb (completed q)) eqn:E.
  - apply andb_true_iff in E as [Ha Hf]. apply negb_true_iff in Hf.
    destruct (answer_step c w q) as (q' & Hq' & Hid & Hi); [done..|].
    exists q'. split; [done|]. split; [done|]. split; [lia|]. congruence.
  - rewrite (idle_step c w q); [by exists q | done | |].
    + intros Ha. rewrite Ha in E. by destruct (completed q).
    + intros t n d ->. discriminate.
Qed.

Lemma step_inv e w : world_inv w → world_inv (step w e).
Proof. destruct e; simpl; [apply run_inv | done]. Qed.

Lemma events_progress es w q :
  world_inv w → current_quiz (userdata w) = Some q →
  forallb (negb ∘ is_create) es = true →
  ∃ q', current_quiz (userdata (after es w)) = Some q' ∧
        quiz_id q' = quiz_id q ∧
        current_question_index q ≤ current_question_index q' ∧
        (completed q = true → completed q' = true).
Proof.
  revert w q. induction es as [|e es IH]; intros w q Hw Hq Hes.
  - exists q. by simpl.
  - simpl in Hes. apply andb_true_iff in Hes as [He Hes].
    apply negb_true_iff in He.
    destruct (event_step e w q) as (q1 & Hq1 & Hid1 & Hi1 & Hc1); [done..|].
    destruct (IH (step w e) q1) as (q' & Hq' & Hid & Hi & Hc);
      [by apply step_inv | done | done |].
    exists q'. split; [done|]. split; [congruence|]. split; [lia|]. auto.
Qed.

(** C1. In every state a session can reach, the active quiz satisfies
    [0 <= current_question_index <= len(questions)], and [completed] holds
    exactly when the index equals the number of questions. A
    [submit_answer] or [skip_question] on a quiz in progress raises the
    index by exactly one. Over any sequence of calls and context changes
    that creates no new quiz, the index of that quiz never decreases and
    [completed], once true, stays true. *)
Theorem quiz_index_invariant w q :
  reachable w → current_quiz (userdata w) = Some q →
  0 ≤ current_question_index q ≤ Py.len (questions q) ∧
  (completed q = true ↔ current_question_index q = Py.len (questions q)) ∧
  (∀ c, is_answer c = true → completed q = false →
     ∃ q', current_quiz (userdata (run c w).2) = Some q' ∧
           quiz_id q' = quiz_id q ∧
           current_question_index q' = current_question_index q + 1) ∧
  (∀ es, forallb (negb ∘ is_create) es = true →
     ∃ q', current_quiz (userdata (after es w)) = Some q' ∧
           quiz_id q' = quiz_id q ∧
           current_question_index q ≤ current_question_index q' ∧
           (completed q = true → completed q' = true)).
Proof.
  intros Hr Hq. pose proof (reachable_inv w Hr) as Hw.
  destruct (proj2 Hw q Hq) as [Hl Hi Hc Hs].
  split; [done|]. split; [done|]. split.
  - intros c Ha Hf. by apply answer_step.
  - intros es Hes. by apply events_progress.
Qed.

Lemma quiz_index_invariant_witness :
  reachable algebra_started ∧
  ∃ q, current_quiz (userdata algebra_started) = Some q ∧
       0 ≤ current_question_index q ≤ Py.len (questions q).
Proof.
  assert (reachable algebra_started) as Hr
    by exact (reach_call _ (CreateQuiz "algebra" 5 "medium")
                (reach_fresh None demo_draws)).
  split; [exact Hr|].
  exists (created_quiz offline "algebra" 5 "medium").
  assert (current_quiz (userdata algebra_started)
          = Some (created_quiz offline "algebra" 5 "medium")) as Hq
    by reflexivity.
  split; [exact Hq|].
  exact (proj1 (quiz_index_invariant algebra_started _ Hr Hq)).
Defined.



(** ** Creation *)

Lemma created_quiz_len w t n d :
  Py.len (questions (created_quiz w t n d))
  = Z.min (Z.max 1 (Z.min 10 n)) (Py.len (catalog_entry w t)).
Proof.
  pose proof (clamp_range n). simpl.
  rewrite slice_to_len by lia. by rewrite clamp_eq.
Qed.

Lemma catalog_entry_algebra w t :
  Py.lower t = "algebra" →
  catalog_entry w t = algebra_questions (drawn w 0) (drawn w 1).
Proof. unfold catalog_entry. by intros ->. Qed.



(** ** Substrings *)

Lemma prefix_app s r : String.prefix s (s +:+ r) = true.
Proof.
  induction s as [|c s IH]; simpl; [by destruct r|].
  destruct (ascii_dec c c); [exact IH | done].
Qed.

Lemma contains_prefix sub s :
  String.prefix sub s = true → contains sub s = true.
Proof. intros H. destruct s; cbn [contains]; by rewrite H. Qed.

Lemma contains_app pre s post : contains s (pre +:+ s +:+ post) = true.
Proof.
  induction pre as [|c pre IH].
  - change (contains s (s +:+ post) = true).
    apply contains_prefix, prefix_app.
  - change (contains s (String c (pre +:+ s +:+ post)) = true).
    cbn [contains]. rewrite IH. apply orb_true_r.
Qed.

(** ** Rejections of a completed quiz *)

(** C4, as stated, fails for [skip_question]: on a completed quiz (here
    the fractions quiz, finished with the score 1/1) its reply does not
    include the score. *)
Lemma skip_question_reply_omits_score :
  ∃ q, current_quiz (userdata fractions_done) = Some q ∧
       completed q = true ∧ score q = 1 ∧
       (skip_question fractions_done).1 = Ok "Quiz is already completed." ∧
       contains (Py.str (score q)) "Quiz is already completed." = false.
Proof. eexists. repeat split; reflexivity. Qed.

(** C4, amended. On a completed quiz, [submit_answer] (with any answer)
    and [skip_question] both return a rejection and leave the whole
    session state as it was: score, index and every question's
    [user_answer] and [is_correct] are unchanged. The reply of
    [submit_answer] includes the final score; the reply of
    [skip_question] is the fixed sentence "Quiz is already completed.",
    without the score. *)
Theorem completed_quiz_rejects w q a :
  current_quiz (userdata w) = Some q → completed q = true →
  (∃ msg, submit_answer a w = (Ok msg, w) ∧
          contains (score_of q) msg = true ∧
          msg = "This quiz is already completed. Your score was "
                +:+ score_of q +:+ ".") ∧
  skip_question w = (Ok "Quiz is already completed.", w).
Proof.
  intros Hq Hc. split.
  - eexists. split; [by apply submit_answer_completed|].
    split; [apply contains_app | reflexivity].
  - by apply (skip_question_completed w q).
Qed.

Lemma completed_quiz_rejects_witness :
  skip_question fractions_done
  = (Ok "Quiz is already completed.", fractions_done).
Proof.
  assert (current_quiz (userdata fractions_done)
          = Some (advanced
                    (marked 0 "B" true
                       (created_quiz offline "fractions" 1 "easy")))) as Hq
    by reflexivity.
  exact (proj2 (completed_quiz_rejects fractions_done _ "c" Hq eq_refl)).
Defined.

(** ** Scoring *)

Lemma submit_answer_effect a w q :
  world_inv w → current_quiz (userdata w) = Some q → completed q = false →
  ∃ cq q' cq',
    questions q !! Z.to_nat (current_question_index q) = Some cq ∧
    current_quiz (userdata (submit_answer a w).2) = Some q' ∧
    questions q' !! Z.to_nat (current_question_index q) = Some cq' ∧
    cq' = record_answer (Py.upper a)
            (bool_decide (Py.upper a = Py.upper (correct_answer cq))) cq ∧
    score q' = score q
               + (if bool_decide (Py.upper a = Py.upper (correct_answer cq))
                  then 1 else 0).
Proof.
  intros [_ Hinv] Hq Hf. specialize (Hinv q Hq).
  destruct (submit_answer_run a q w) as (cq & Ecq & _ & ->); [done..|].
  exists cq. eexists. eexists. split; [exact Ecq|].
  split; [reflexivity|]. rewrite advanced_questions, advanced_score.
  split; [by apply marked_question|]. split; [reflexivity|].
  by apply (marked_score _ _ _ _ cq).
Qed.

Lemma skip_question_effect w q :
  world_inv w → current_quiz (userdata w) = Some q → completed q = false →
  ∃ cq q',
    questions q !! Z.to_nat (current_question_index q) = Some cq ∧
    current_quiz (userdata (skip_question w).2) = Some q' ∧
    questions q' !! Z.to_nat (current_question_index q)
    = Some (record_answer "SKIPPED" false cq) ∧
    score q' = score q.
Proof.
  intros [_ Hinv] Hq Hf. specialize (Hinv q Hq).
  destruct (skip_question_run q w) as (cq & Ecq & _ & ->); [done..|].
  exists cq. eexists. split; [exact Ecq|].
  split; [reflexivity|]. rewrite advanced_questions, advanced_score.
  split; [by apply marked_question|].
  rewrite (marked_score _ _ _ _ cq) by done. lia.
Qed.

(** C5. On a quiz in progress, [submit_answer] adds exactly 1 to the score
    when the answer, upper-cased, equals the upper-cased correct letter of
    the current question, and exactly 0 otherwise; so "a" and "A" both
    score against the correct letter "A". [skip_question] adds 0 and marks
    the current question incorrect. *)
Theorem scoring_is_exact w q a :
  reachable w → current_quiz (userdata w) = Some q → completed q = false →
  ∃ cq, questions q !! Z.to_nat (current_question_index q) = Some cq ∧
    (∃ q', current_quiz (userdata (submit_answer a w).2) = Some q' ∧
           score q' = score q
                      + (if bool_decide
                              (Py.upper a = Py.upper (correct_answer cq))
                         then 1 else 0)) ∧
    (correct_answer cq = "A" →
     ∀ x, x = "a" ∨ x = "A" →
       ∃ q', current_quiz (userdata (submit_answer x w).2) = Some q' ∧
             score q' = score q + 1) ∧
    (∃ q' cq', current_quiz (userdata (skip_question w).2) = Some q' ∧
               score q' = score q ∧
               questions q' !! Z.to_nat (current_question_index q)
               = Some cq' ∧
               is_correct cq' = Some false ∧
               user_answer cq' = Some "SKIPPED").
Proof.
  intros Hr Hq Hf. pose proof (reachable_inv w Hr) as Hw.
  destruct (submit_answer_effect a w q Hw Hq Hf)
    as (cq & q' & cq' & Ecq & Hq' & _ & _ & Hs).
  exists cq. split; [exact Ecq|]. split; [by exists q'|]. split.
  - intros HA x Hx.
    destruct (submit_answer_effect x w q Hw Hq Hf)
      as (cq1 & q1 & _ & Ecq1 & Hq1 & _ & _ & Hs1).
    assert (cq1 = cq) as -> by congruence.
    exists q1. split; [done|]. rewrite Hs1, HA.
    by destruct Hx as [-> | ->].
  - destruct (skip_question_effect w q Hw Hq Hf)
      as (cq2 & q2 & Ecq2 & Hq2 & Hl2 & Hs2).
    exists q2. eexists. split; [done|]. split; [done|]. by split.
Qed.

Lemma scoring_is_exact_witness :
  ∃ cq,
    questions (created_quiz offline "algebra" 5 "medium") !! 0%nat = Some cq ∧
    ∃ q', current_quiz (userdata (submit_answer "a" algebra_started).2)
          = Some q' ∧
          score q' = 0 + (if bool_decide (Py.upper "a"
                                          = Py.upper (correct_answer cq))
                          then 1 else 0).
Proof.
  assert (reachable algebra_started) as Hr
    by exact (reach_call _ (CreateQuiz "algebra" 5 "medium")
                (reach_fresh None demo_draws)).
  assert (current_quiz (userdata algebra_started)
          = Some (created_quiz offline "algebra" 5 "medium")) as Hq
    by reflexivity.
  destruct (scoring_is_exact algebra_started _ "a" Hr Hq eq_refl)
    as (cq & Ecq & Hsub & _).
  exists cq. split; [exact Ecq | exact Hsub].
Defined.



(** ** Difficulty *)

Lemma catalog_content w1 w2 t :
  content <$> catalog_entry w1 t = content <$> catalog_entry w2 t.
Proof.
  unfold catalog_entry, sample_questions.
  rewrite !lookup_insert, !lookup_singleton.
  repeat case_decide; reflexivity.
Qed.

(** C10. The question generator ignores its difficulty argument: from the
    same state it returns the same list and leaves the same state for any
    two difficulties. Two quizzes created for the same topic and number
    with different difficulties, in any two sessions, have the same
    question texts, options and correct answers; created from the same
    state they are equal in every field except the difficulty label, which
    is the normalised argument. *)
Theorem difficulty_is_ignored t n d1 d2 :
  (∀ w, _generate_quiz_questions t n d1 w
        = _generate_quiz_questions t n d2 w) ∧
  (∀ w1 w2, ∃ q1 q2,
     current_quiz (userdata (create_quiz t n d1 w1).2) = Some q1 ∧
     current_quiz (userdata (create_quiz t n d2 w2).2) = Some q2 ∧
     content <$> questions q1 = content <$> questions q2) ∧
  (∀ w, ∃ q1 q2,
     current_quiz (userdata (create_quiz t n d1 w).2) = Some q1 ∧
     current_quiz (userdata (create_quiz t n d2 w).2) = Some q2 ∧
     questions q1 = questions q2 ∧ quiz_id q1 = quiz_id q2 ∧
     topic q1 = topic q2 ∧
     current_question_index q1 = current_question_index q2 ∧
     score q1 = score q2 ∧ completed q1 = completed q2 ∧
     difficulty q1 = normalised d1 ∧ difficulty q2 = normalised d2).
Proof.
  split; [reflexivity|]. split.
  - intros w1 w2.
    exists (created_quiz w1 t n d1), (created_quiz w2 t n d2).
    rewrite (proj2 (create_quiz_run t n d1 w1)),
      (proj2 (create_quiz_run t n d2 w2)).
    split; [reflexivity|]. split; [reflexivity|]. simpl.
    pose proof (clamp_range n).
    rewrite !slice_to_pos, !fmap_take by lia.
    by rewrite (catalog_content w1 w2).
  - intros w. exists (created_quiz w t n d1), (created_quiz w t n d2).
    rewrite (proj2 (create_quiz_run t n d1 w)),
      (proj2 (create_quiz_run t n d2 w)).
    repeat split.
Qed.

(** ** The history *)

Lemma history_step c w :
  world_inv w →
  let h := quiz_history (userdata w) in
  let w' := (run c w).2 in
  (∃ t n d, c = CreateQuiz t n d ∧
            quiz_history (userdata w') = (h ++ [created_entry w t d])%list ∧
            current_quiz (userdata w') = Some (created_quiz w t n d))
  ∨ w' = w
  ∨ (∃ q q', current_quiz (userdata w) = Some q ∧ completed q = false ∧
             current_quiz (userdata w') = Some q' ∧
             quiz_history (userdata w')
             = if completed q' then closed_history q' h else h).
Proof.
  intros Hw h w'. subst h w'. pose proof Hw as [_ Hinv].
  destruct c as [t n d|a| | |]; simpl.
  - left. exists t, n, d. by rewrite (proj2 (create_quiz_run t n d w)).
  - destruct (current_quiz (userdata w)) as [q|] eqn:E.
    + destruct (completed q) eqn:Hc.
      * right; left. by rewrite (submit_answer_completed a w q).
      * right; right.
        destruct (submit_answer_run a q w) as (cq & Ecq & _ & ->); auto.
        exists q. eexists. split; [done|]. split; [done|].
        split; [reflexivity|]. simpl.
        by rewrite advanced_completed, marked_len, marked_index,
          marked_completed, Hc, orb_false_r.
    + right; left. by rewrite submit_answer_no_quiz.
  - right; left. apply read_only_get_quiz_status.
  - destruct (current_quiz (userdata w)) as [q|] eqn:E.
    + destruct (completed q) eqn:Hc.
      * right; left. by rewrite (skip_question_completed w q).
      * right; right.
        destruct (skip_question_run q w) as (cq & Ecq & _ & ->); auto.
        exists q. eexists. split; [done|]. split; [done|].
        split; [reflexivity|]. simpl.
        by rewrite advanced_completed, marked_len, marked_index,
          marked_completed, Hc, orb_false_r.
    + right; left. by rewrite skip_question_no_quiz.
  - right; left. apply read_only_show_quiz_results.
Qed.

Lemma closed_history_lookup quiz h i e :
  h !! i = Some e →
  ∃ e', closed_history quiz h !! i = Some e' ∧
        h_id e' = h_id e ∧ h_topic e' = h_topic e ∧
        h_difficulty e' = h_difficulty e ∧
        h_created_at e' = h_created_at e ∧
        (e' = e ∨
         h_id e = quiz_id quiz ∧
         e' = mark_completed (score_of quiz)
                (floor_percentage (score quiz) (Py.len (questions quiz))) e).
Proof.
  intros E. unfold closed_history. rewrite list_lookup_fmap, E. simpl.
  eexists. split; [reflexivity|]. case_bool_decide; simpl; auto 10.
Qed.



(** ** Replies of the display calls *)

#[local] Arguments percentage_of : simpl never.

Lemma first_participant_up a b c k w r :
  ctx (userdata w) ≫= room = Some r → remote_participants r ≠ [] →
  ∃ p, head (remote_participants r).*2 = Some p ∧
       with_first_participant a b c k w = k r p w.
Proof.
  intros Hr Hp. unfold with_first_participant. rewrite bind_run. simpl.
  rewrite Hr. destruct (remote_participants r) as [|[x p] l]; [done|].
  exists p. by simpl.
Qed.

Lemma first_participant_down (a b c z : string) k w :
  frontend_down (ctx (userdata w)) →
  (∀ r p, (∀ d x, rpc_fails (perform_rpc r d x) = true) →
          (k r p w).1 = Ok z) →
  (with_first_participant a b c k w).1 = Ok a
  ∨ (with_first_participant a b c k w).1 = Ok b
  ∨ (with_first_participant a b c k w).1 = Ok z.
Proof.
  intros Hd Hk. unfold with_first_participant. rewrite bind_run. simpl.
  unfold frontend_down in Hd.
  destruct (ctx (userdata w) ≫= room) as [r|]; [|by left].
  destruct (remote_participants r) as [|[x p] l] eqn:E; [by right; left|].
  simpl. right; right. apply Hk.
  destruct Hd as [Hd|Hd]; [discriminate | exact Hd].
Qed.

Lemma rpc_chain_fails r d x (k : bool → M string) w :
  rpc_fails (perform_rpc r d x) = true →
  ∃ e, (result ← await_rpc r d x;
        response ← json_loads result;
        ok ← get_ok response;
        k ok) w = (Raise e, w).
Proof.
  intros H. rewrite bind_run. unfold await_rpc.
  destruct (perform_rpc r d x) as [|detail|[detail|[detail|ok e]]];
    try discriminate; by eexists.
Qed.

Lemma rpc_chain_ok r d x e (k : bool → M string) w :
  perform_rpc r d x = Replied (Json (Dict true e)) →
  (result ← await_rpc r d x;
   response ← json_loads result;
   ok ← get_ok response;
   k ok) w = k true w.
Proof. intros H. rewrite bind_run. unfold await_rpc. by rewrite H. Qed.

Lemma try_except_returned {A} (body : M A) h w a w' :
  body w = (Ok a, w') → try_except body h w = (Ok a, w').
Proof. intros H. unfold try_except. by rewrite H. Qed.

Lemma show_quiz_results_not_completed w q :
  current_quiz (userdata w) = Some q → completed q = false →
  show_quiz_results w
  = (Ok "Quiz is not completed yet. Finish the quiz first.", w).
Proof.
  intros Hq Hf. unfold show_quiz_results. rewrite bind_run. simpl.
  by rewrite Hq, Hf.
Qed.

Lemma show_quiz_results_displayed w q r x p rest e :
  current_quiz (userdata w) = Some q → completed q = true → quiz_inv q →
  ctx (userdata w) ≫= room = Some r →
  remote_participants r = (x, p) :: rest →
  perform_rpc r (identity p)
    (ShowResults (quiz_id q) (score q) (Py.len (questions q))
       (floor_percentage (score q) (Py.len (questions q)))
       (result_rows (questions q)))
  = Replied (Json (Dict true e)) →
  show_quiz_results w
  = (Ok ("Here are your detailed results: " +:+ score_of q +:+ " correct ("
         +:+ Py.str (floor_percentage (score q) (Py.len (questions q)))
         +:+ "%)"), w).
Proof.
  intros Hq Hc [Hl Hi _ Hs] Hr Hp Hrpc.
  unfold show_quiz_results. rewrite bind_run. simpl. rewrite Hq, Hc. simpl.
  match goal with
  | |- context [with_first_participant ?a ?b ?c ?k w] =>
      destruct (first_participant_up a b c k w r Hr) as (p' & Hp' & ->);
        [by rewrite Hp|]
  end.
  rewrite Hp in Hp'. injection Hp' as <-.
  apply try_except_returned. cbv zeta.
  rewrite bind_run, percentage_of_exact by lia.
  rewrite (rpc_chain_ok _ _ _ e) by exact Hrpc.
  rewrite bind_run, percentage_of_exact by lia. reflexivity.
Qed.

Lemma complete_quiz_displayed quiz w r x p rest e :
  1 ≤ Py.len (questions quiz) ≤ 10 →
  0 ≤ score quiz ≤ Py.len (questions quiz) →
  ctx (userdata w) ≫= room = Some r →
  remote_participants r = (x, p) :: rest →
  perform_rpc r (identity p)
    (CompleteQuiz (quiz_id quiz) (score quiz) (Py.len (questions quiz))
       (floor_percentage (score quiz) (Py.len (questions quiz))))
  = Replied (Json (Dict true e)) →
  (_complete_quiz quiz w).1
  = Ok ("Quiz completed! You scored " +:+ score_of quiz +:+ " ("
        +:+ Py.str (floor_percentage (score quiz) (Py.len (questions quiz)))
        +:+ "%). Great job!").
Proof.
  intros Hl Hs Hr Hp Hrpc. unfold _complete_quiz.
  rewrite bind_run, percentage_of_exact by done.
  rewrite bind_run. simpl.
  match goal with
  | |- context [with_first_participant ?a ?b ?c ?k ?w'] =>
      destruct (first_participant_up a b c k w' r Hr) as (p' & Hp' & ->);
        [by rewrite Hp|]
  end.
  rewrite Hp in Hp'. injection Hp' as <-.
  unfold try_except.
  by rewrite (rpc_chain_ok _ _ _ e) by exact Hrpc.
Qed.

Lemma complete_quiz_offline quiz w :
  1 ≤ Py.len (questions quiz) ≤ 10 →
  0 ≤ score quiz ≤ Py.len (questions quiz) →
  ctx (userdata w) ≫= room = None →
  (_complete_quiz quiz w).1
  = Ok ("Quiz completed! Final score: " +:+ score_of quiz +:+ " ("
        +:+ Py.str (floor_percentage (score quiz) (Py.len (questions quiz)))
        +:+ "%)").
Proof.
  intros Hl Hs Hr. unfold _complete_quiz.
  rewrite bind_run, percentage_of_exact by done.
  rewrite bind_run. simpl.
  unfold with_first_participant. rewrite bind_run. simpl. by rewrite Hr.
Qed.



Lemma getitem_run {A} (l : list A) i w :
  0 ≤ i < Py.len l → ∃ x, getitem l i w = (Ok x, w).
Proof.
  intros H. unfold getitem, Py.position.
  replace ((0 <=? i) && (i <? Py.len l)) with true
    by (symmetry; apply andb_true_iff; lia).
  simpl. destruct (l !! Z.to_nat i) as [x|] eqn:E; [by exists x|].
  apply lookup_ge_None in E. unfold Py.len in H. lia.
Qed.

Lemma show_next_reply_down quiz w :
  frontend_down (ctx (userdata w)) →
  (_show_next_question quiz w).1
  = Ok "Moving to next question, but couldn't display it"
  ∨ (_show_next_question quiz w).1 = Ok "No participants"
  ∨ (_show_next_question quiz w).1 = Ok "Moving to next question".
Proof.
  intros Hd. unfold _show_next_question.
  apply first_participant_down; [exact Hd|]. intros r p Hf.
  unfold try_except. rewrite bind_run.
  pose proof (read_only_getitem (questions quiz)
                (current_question_index quiz) w) as Hro.
  destruct (getitem (questions quiz) (current_question_index quiz) w)
    as [[nq|e] w1]; simpl in Hro; subst w1; [|reflexivity].
  match goal with
  | |- context [await_rpc r ?d ?x ≫= ?f] =>
      destruct (rpc_chain_fails r d x
                  (λ ok : bool,
                     if ok
                     then mret ("Moving to question "
                                +:+ Py.str (current_question_index quiz + 1)
                                +:+ ".")
                     else mret ("Next question ready (Question "
                                +:+ Py.str (current_question_index quiz + 1)
                                +:+ ")")) w (Hf d x)) as [e He]
  end.
  by rewrite He.
Qed.

Lemma show_next_reply_up quiz w :
  frontend_up (ctx (userdata w)) →
  0 ≤ current_question_index quiz < Py.len (questions quiz) →
  (_show_next_question quiz w).1
  = Ok ("Moving to question " +:+ Py.str (current_question_index quiz + 1)
        +:+ ".").
Proof.
  intros (r & Hr & Hp & Hrpc) Hi. unfold _show_next_question.
  match goal with
  | |- context [with_first_participant ?a ?b ?c ?k w] =>
      destruct (first_participant_up a b c k w r Hr Hp) as (p & _ & ->)
  end.
  unfold try_except. rewrite bind_run.
  destruct (getitem_run (questions quiz) (current_question_index quiz) w Hi)
    as [nq ->].
  match goal with
  | |- context [await_rpc r ?d ?x ≫= ?f] =>
      destruct (Hrpc d x) as [e He];
      rewrite (rpc_chain_ok r d x e
                 (λ ok : bool,
                    if ok
                    then mret ("Moving to question "
                               +:+ Py.str (current_question_index quiz + 1)
                               +:+ ".")
                    else mret ("Next question ready (Question "
                               +:+ Py.str (current_question_index quiz + 1)
                               +:+ ")")) w He)
  end.
  reflexivity.
Qed.

Lemma complete_reply_down quiz w :
  1 ≤ Py.len (questions quiz) ≤ 10 →
  0 ≤ score quiz ≤ Py.len (questions quiz) →
  frontend_down (ctx (userdata w)) →
  (_complete_quiz quiz w).1
  = Ok ("Quiz completed! Final score: " +:+ score_of quiz +:+ " ("
        +:+ Py.str (floor_percentage (score quiz) (Py.len (questions quiz)))
        +:+ "%)")
  ∨ (_complete_quiz quiz w).1
    = Ok ("Quiz completed! Score: " +:+ score_of quiz).
Proof.
  intros Hl Hs Hd. unfold _complete_quiz.
  rewrite bind_run, percentage_of_exact by done.
  rewrite bind_run. simpl.
  match goal with
  | |- context [with_first_participant ?a ?b ?c ?k ?w'] =>
      destruct (first_participant_down a b c
                  ("Quiz completed! Final score: " +:+ score_of quiz +:+ " ("
                   +:+ Py.str (floor_percentage (score quiz)
                                 (Py.len (questions quiz)))
                   +:+ "%)") k w' Hd) as [H|[H|H]];
        [|by left|by right|by left]
  end.
  intros r p Hf. unfold try_except.
  match goal with
  | |- context [(await_rpc r ?d ?x ≫= ?f) ?w'] =>
      destruct (rpc_chain_fails r d x
                  (λ ok : bool,
                     if ok
                     then mret ("Quiz completed! You scored "
                                +:+ score_of quiz +:+ " ("
                                +:+ Py.str (floor_percentage (score quiz)
                                              (Py.len (questions quiz)))
                                +:+ "%). Great job!")
                     else mret ("Quiz completed! Score: "
                                +:+ score_of quiz +:+ " ("
                                +:+ Py.str (floor_percentage (score quiz)
                                              (Py.len (questions quiz)))
                                +:+ "%)")) w' (Hf d x)) as [e He]
  end.
  by rewrite He.
Qed.

Lemma complete_reply_up quiz w :
  1 ≤ Py.len (questions quiz) ≤ 10 →
  0 ≤ score quiz ≤ Py.len (questions quiz) →
  frontend_up (ctx (userdata w)) →
  (_complete_quiz quiz w).1
  = Ok ("Quiz completed! You scored " +:+ score_of quiz +:+ " ("
        +:+ Py.str (floor_percentage (score quiz) (Py.len (questions quiz)))
        +:+ "%). Great job!").
Proof.
  intros Hl Hs (r & Hr & Hp & Hrpc). unfold _complete_quiz.
  rewrite bind_run, percentage_of_exact by done.
  rewrite bind_run. simpl.
  match goal with
  | |- context [with_first_participant ?a ?b ?c ?k ?w'] =>
      destruct (first_participant_up a b c k w' r Hr Hp) as (p & _ & ->)
  end.
  unfold try_except.
  match goal with
  | |- context [(await_rpc r ?d ?x ≫= ?f) ?w'] =>
      destruct (Hrpc d x) as [e He];
      rewrite (rpc_chain_ok r d x e
                 (λ ok : bool,
                    if ok
                    then mret ("Quiz completed! You scored "
                               +:+ score_of quiz +:+ " ("
                               +:+ Py.str (floor_percentage (score quiz)
                                             (Py.len (questions quiz)))
                               +:+ "%). Great job!")
                    else mret ("Quiz completed! Score: "
                               +:+ score_of quiz +:+ " ("
                               +:+ Py.str (floor_percentage (score quiz)
                                             (Py.len (questions quiz)))
                               +:+ "%)")) w' He)
  end.
  reflexivity.
Qed.

(** ** State first, display second *)

Lemma advance_eq quiz w :
  advance quiz w =
  (if current_question_index quiz + 1 >=? Py.len (questions quiz)
   then _complete_quiz (advanced quiz)
   else _show_next_question (advanced quiz))
    (put_quiz (advanced quiz) (quiz_history (userdata w)) w).
Proof.
  unfold advance, advanced. simpl. rewrite bind_run. simpl.
  destruct (current_question_index quiz + 1 >=? Py.len (questions quiz));
    [rewrite bind_run|]; reflexivity.
Qed.

Lemma answer_run c w q :
  current_quiz (userdata w) = Some q → completed q = false → quiz_inv q →
  is_answer c = true →
  run c w
  = advance (answered c q)
      (put_quiz (answered c q) (quiz_history (userdata w)) w).
Proof.
  intros Hq Hf Hinv Hc.
  destruct (current_question_of_run q w) as (cq & Ecq & Hrun);
    [by apply in_progress_index|].
  destruct c as [|a| | |]; try discriminate; simpl.
  - unfold submit_answer. rewrite bind_run. simpl. rewrite Hq, Hf.
    rewrite bind_run, Hrun. rewrite bind_run. simpl.
    unfold answered, marked. rewrite Ecq. by case_bool_decide.
  - unfold skip_question. rewrite bind_run. simpl. rewrite Hq, Hf.
    rewrite bind_run, Hrun. rewrite bind_run. simpl.
    unfold answered, marked. by rewrite Ecq.
Qed.

Lemma answered_facts c q :
  quiz_inv q → completed q = false → is_answer c = true →
  Py.len (questions (answered c q)) = Py.len (questions q) ∧
  current_question_index (answered c q) = current_question_index q ∧
  completed (answered c q) = false ∧
  0 ≤ score (answered c q) ≤ current_question_index q + 1 ∧
  quiz_inv (advanced (answered c q)).
Proof.
  intros Hinv Hf Hc. pose proof (in_progress_index q Hinv Hf) as Hi.
  destruct (questions q !! Z.to_nat (current_question_index q))
    as [cq|] eqn:Ecq;
    [|apply lookup_ge_None in Ecq; unfold Py.len in Hi; lia].
  pose proof Hinv as [Hl _ _ Hs].
  destruct c as [|a| | |]; try discriminate; unfold answered; rewrite Ecq;
    rewrite marked_len, marked_index, marked_completed,
      (marked_score _ _ _ _ cq) by done;
    (split; [done|]); (split; [done|]); (split; [done|]);
    (split; [try case_bool_decide; lia|]);
    by apply (advanced_marked_inv q _ _ _ cq).
Qed.

(** What an answer or a skip does, for any context. *)
Lemma answer_outcome c w q env :
  world_inv w → current_quiz (userdata w) = Some q → completed q = false →
  is_answer c = true →
  let q' := advanced (answered c q) in
  let done := current_question_index q + 1 >=? Py.len (questions q) in
  (run c (with_ctx env w)).2
  = put_quiz q'
      (if done then closed_history q' (quiz_history (userdata w))
       else quiz_history (userdata w)) (with_ctx env w) ∧
  (frontend_down env →
   if done then
     (run c (with_ctx env w)).1
     = Ok ("Quiz completed! Final score: " +:+ score_of q' +:+ " ("
           +:+ Py.str (floor_percentage (score q') (Py.len (questions q')))
           +:+ "%)")
     ∨ (run c (with_ctx env w)).1
       = Ok ("Quiz completed! Score: " +:+ score_of q')
   else
     (run c (with_ctx env w)).1
     = Ok "Moving to next question, but couldn't display it"
     ∨ (run c (with_ctx env w)).1 = Ok "No participants"
     ∨ (run c (with_ctx env w)).1 = Ok "Moving to next question") ∧
  (frontend_up env →
   (run c (with_ctx env w)).1
   = if done then
       Ok ("Quiz completed! You scored " +:+ score_of q' +:+ " ("
           +:+ Py.str (floor_percentage (score q') (Py.len (questions q')))
           +:+ "%). Great job!")
     else
       Ok ("Moving to question " +:+ Py.str (current_question_index q' + 1)
           +:+ ".")).
Proof.
  intros Hw Hq Hf Hc. cbv zeta.
  pose proof (proj2 Hw q Hq) as Hinv.
  destruct (answered_facts c q Hinv Hf Hc) as (Hl & Hi & Hcf & Hs & Hinv').
  pose proof Hinv as [Hlen Hidx _ _].
  pose proof (in_progress_index q Hinv Hf) as Hlt.
  rewrite (answer_run c (with_ctx env w) q Hq Hf Hinv Hc), advance_eq.
  rewrite Hl, Hi.
  destruct (current_question_index q + 1 >=? Py.len (questions q)) eqn:Hd.
  - apply Z.geb_le in Hd.
    match goal with
    | |- context [_complete_quiz ?a ?b] =>
        destruct (complete_quiz_run a b) as [_ Hrun];
          [by rewrite advanced_len, Hl
          |rewrite advanced_len, advanced_score, Hl; lia|];
        split; [by rewrite Hrun|]; split; intros He;
          [apply complete_reply_down | apply complete_reply_up];
          solve [ by rewrite advanced_len, Hl
                | rewrite advanced_len, advanced_score, Hl; lia
                | exact He ]
    end.
  - rewrite Z.geb_leb in Hd. apply Z.leb_gt in Hd.
    split; [by rewrite read_only_show_next_question|]. split; intros He.
    + by apply show_next_reply_down.
    + apply show_next_reply_up; [exact He|].
      rewrite advanced_len, advanced_index, Hl, Hi. lia.
Qed.

Lemma status_of_put q :
  quiz_inv q →
  ∃ s, ∀ h w, (get_quiz_status (put_quiz q h w)).1 = Ok s.
Proof.
  intros Hinv. destruct (completed q) eqn:Hdone; eexists; intros h w.
  - by rewrite (get_quiz_status_completed (put_quiz q h w) q eq_refl Hdone
                  Hinv).
  - by rewrite (get_quiz_status_in_progress (put_quiz q h w) q eq_refl Hdone).
Qed.



(** * Further properties of the quiz tools *)

(** ** Bookkeeping of answers *)

Lemma catalog_entry_unanswered w t cq :
  cq ∈ catalog_entry w t → user_answer cq = None ∧ is_correct cq = None.
Proof.
  unfold catalog_entry.
  destruct (sample_questions _ _ _ _ !! Py.lower t) as [l|] eqn:E; simpl.
  - apply bank_lookup in E as [ -> | [ -> | -> ] ];
      unfold algebra_questions, geometry_questions, fractions_questions;
      intros H; repeat (apply elem_of_cons in H as [-> | H]; [done|]);
      by apply elem_of_nil in H.
  - unfold algebra_questions.
    intros H; repeat (apply elem_of_cons in H as [-> | H]; [done|]);
      by apply elem_of_nil in H.
Qed.

Lemma correct_count_unanswered qs :
  (∀ cq, cq ∈ qs → is_correct cq = None) → correct_count qs = 0.
Proof.
  intros H. unfold correct_count.
  induction qs as [|cq qs IH]; [done|].
  rewrite filter_cons. rewrite decide_False.
  - apply IH. intros cq' Hin. apply H. by right.
  - rewrite (H cq) by by left. discriminate.
Qed.

Lemma created_quiz_book w t n d : book_inv (created_quiz w t n d).
Proof.
  assert (∀ cq, cq ∈ questions (created_quiz w t n d) →
                user_answer cq = None ∧ is_correct cq = None) as Hnone.
  { intros cq Hin. apply (catalog_entry_unanswered w t). simpl in Hin.
    pose proof (clamp_range n). rewrite slice_to_pos in Hin by lia.
    apply elem_of_take in Hin as (i & Hi & _).
    by eapply list_elem_of_lookup_2. }
  split.
  - intros i cq E. rewrite bool_decide_eq_false_2 by (simpl; lia).
    apply Hnone. by eapply list_elem_of_lookup_2.
  - simpl. symmetry. apply correct_count_unanswered.
    intros cq Hin. by apply Hnone.
Qed.

Lemma correct_count_insert qs i old new :
  qs !! i = Some old → is_correct old = None →
  correct_count (<[i := new]> qs)
  = correct_count qs
    + (if bool_decide (is_correct new = Some true) then 1 else 0).
Proof.
  intros E Hold. unfold correct_count.
  pose proof (lookup_lt_Some _ _ _ E) as Hlt.
  rewrite insert_take_drop by done.
  rewrite <- (take_drop_middle qs i old E) at 3.
  rewrite !filter_app, !filter_cons, !length_app.
  rewrite (decide_False (P := is_correct old = Some true))
    by (rewrite Hold; discriminate).
  case_bool_decide.
  - rewrite decide_True by done. simpl. lia.
  - rewrite decide_False by done. lia.
Qed.

Lemma advanced_marked_book q i a c cq :
  quiz_inv q → completed q = false → book_inv q →
  i = Z.to_nat (current_question_index q) → questions q !! i = Some cq →
  book_inv (advanced (marked i a c q)).
Proof.
  intros Hinv Hf [Hmarks Hscore] Hi E.
  pose proof (in_progress_index q Hinv Hf) as Hlt.
  pose proof (Hmarks i cq E) as Hcq.
  rewrite bool_decide_eq_false_2 in Hcq by lia. destruct Hcq as [_ Hnone].
  split.
  - intros j cq' E'. rewrite advanced_questions in E'.
    rewrite advanced_index, marked_index.
    unfold marked in E'. rewrite E in E'. simpl in E'.
    destruct (decide (j = i)) as [->|Hne].
    + rewrite list_lookup_insert_eq in E'
        by (destruct c; by eapply lookup_lt_Some).
      injection E' as <-. rewrite bool_decide_eq_true_2 by lia.
      simpl. split; by eexists.
    + rewrite list_lookup_insert_ne in E' by done.
      assert (questions q !! j = Some cq') as Eq by by destruct c.
      pose proof (Hmarks j cq' Eq) as Hj.
      case_bool_decide; case_bool_decide; try done; lia.
  - rewrite advanced_score, advanced_questions,
      (marked_score _ _ _ _ cq) by done.
    unfold marked. rewrite E. simpl.
    rewrite (correct_count_insert _ _ cq) by done. simpl.
    rewrite Hscore. destruct c; [by rewrite bool_decide_eq_true_2|].
    by rewrite bool_decide_eq_false_2.
Qed.

Lemma run_session_inv c w :
  world_inv w → session_inv w → session_inv (run c w).2.
Proof.
  intros Hw Hs. pose proof Hw as [_ Hq]. pose proof Hs as [Hnone Hbook].
  destruct c as [t n d|a| | |]; simpl.
  - destruct (create_quiz_run t n d w) as [_ ->]. split; [discriminate|].
    simpl. intros q [= <-]. apply created_quiz_book.
  - destruct (current_quiz (userdata w)) as [q|] eqn:E.
    + destruct (completed q) eqn:Hc.
      * rewrite (submit_answer_completed a w q) by done. exact Hs.
      * destruct (submit_answer_run a q w) as (cq & Ecq & _ & ->); auto.
        split; [discriminate|]. simpl. intros q' [= <-].
        apply (advanced_marked_book q _ _ _ cq); auto.
    + rewrite submit_answer_no_quiz by done. exact Hs.
  - rewrite read_only_get_quiz_status. exact Hs.
  - destruct (current_quiz (userdata w)) as [q|] eqn:E.
    + destruct (completed q) eqn:Hc.
      * rewrite (skip_question_completed w q) by done. exact Hs.
      * destruct (skip_question_run q w) as (cq & Ecq & _ & ->); auto.
        split; [discriminate|]. simpl. intros q' [= <-].
        apply (advanced_marked_book q _ _ _ cq); auto.
    + rewrite skip_question_no_quiz by done. exact Hs.
  - rewrite read_only_show_quiz_results. exact Hs.
Qed.

Lemma reachable_session_inv w : reachable w → session_inv w.
Proof.
  induction 1 as [c draws|w c Hr IH|w c _ IH].
  - split; [done | discriminate].
  - apply run_session_inv; [by apply reachable_inv | done].
  - exact IH.
Qed.

Lemma record_answer_content a c cq :
  content (record_answer a c cq) = content cq ∧
  qid (record_answer a c cq) = qid cq ∧
  explanation (record_answer a c cq) = explanation cq.
Proof. done. Qed.

Lemma answered_questions c q cq :
  questions q !! Z.to_nat (current_question_index q) = Some cq →
  is_answer c = true →
  ∃ a b, questions (advanced (answered c q))
         = <[Z.to_nat (current_question_index q) := record_answer a b cq]>
             (questions q).
Proof.
  intros E Hc. rewrite advanced_questions. unfold answered. rewrite E.
  destruct c as [|a| | |]; try discriminate; unfold marked; rewrite E;
    eexists; eexists; simpl; reflexivity.
Qed.

Lemma answer_state c w q :
  world_inv w → current_quiz (userdata w) = Some q → completed q = false →
  is_answer c = true →
  current_quiz (userdata (run c w).2) = Some (advanced (answered c q)).
Proof.
  intros Hw Hq Hf Hc.
  rewrite (answer_run c w q Hq Hf (proj2 Hw q Hq) Hc).
  destruct (answered_facts c q (proj2 Hw q Hq) Hf Hc)
    as (Hl & Hi & Hcf & Hs & Hinv').
  pose proof (proj2 Hw q Hq) as [Hlen Hidx _ _].
  pose proof (in_progress_index q (proj2 Hw q Hq) Hf) as Hlt.
  match goal with
  | |- context [advance ?a ?b] =>
      destruct (advance_run a b) as [_ ->]; [by rewrite Hl | rewrite Hl; lia|]
  end.
  reflexivity.
Qed.

(** X1. In every reachable state the questions before the current index
    carry an answer and a mark and the others carry neither; the score is
    the number of questions marked correct and is at most the number of
    questions answered. An answer or a skip writes to the current
    question only, which had no answer yet, and keeps its text, options,
    correct letter, id and explanation. *)
Theorem answers_are_recorded_once w q :
  reachable w → current_quiz (userdata w) = Some q →
  (∀ i cq, questions q !! i = Some cq →
     (Z.of_nat i < current_question_index q →
      is_Some (user_answer cq) ∧ is_Some (is_correct cq)) ∧
     (current_question_index q ≤ Z.of_nat i →
      user_answer cq = None ∧ is_correct cq = None)) ∧
  score q = correct_count (questions q) ∧
  0 ≤ score q ≤ current_question_index q ∧
  (∀ c, is_answer c = true → completed q = false →
     ∃ cq cq' q',
       questions q !! Z.to_nat (current_question_index q) = Some cq ∧
       user_answer cq = None ∧ is_correct cq = None ∧
       current_quiz (userdata (run c w).2) = Some q' ∧
       questions q' !! Z.to_nat (current_question_index q) = Some cq' ∧
       is_Some (user_answer cq') ∧ is_Some (is_correct cq') ∧
       content cq' = content cq ∧ qid cq' = qid cq ∧
       explanation cq' = explanation cq ∧
       length (questions q') = length (questions q) ∧
       ∀ j, j ≠ Z.to_nat (current_question_index q) →
            questions q' !! j = questions q !! j).
Proof.
  intros Hr Hq. pose proof (reachable_inv w Hr) as Hw.
  pose proof (reachable_session_inv w Hr) as [_ Hbook].
  destruct (Hbook q Hq) as [Hmarks Hscore].
  pose proof (proj2 Hw q Hq) as Hinv. pose proof Hinv as [Hl Hi Hc Hs].
  split; [|split; [exact Hscore|split; [exact Hs|]]].
  - intros i cq E. specialize (Hmarks i cq E).
    case_bool_decide; split; intros; try done; lia.
  - intros c Hans Hf. pose proof (in_progress_index q Hinv Hf) as Hlt.
    destruct (questions q !! Z.to_nat (current_question_index q))
      as [cq|] eqn:E;
      [|apply lookup_ge_None in E; unfold Py.len in Hlt; lia].
    pose proof (Hmarks _ cq E) as Hcq.
    rewrite bool_decide_eq_false_2 in Hcq by lia. destruct Hcq as [Hu Hm].
    destruct (answered_questions c q cq E Hans) as (a & b & Hqs).
    exists cq, (record_answer a b cq), (advanced (answered c q)).
    split; [done|]. split; [done|]. split; [done|].
    split; [by apply answer_state|]. rewrite Hqs.
    split; [apply list_lookup_insert_eq; by eapply lookup_lt_Some|].
    split; [by eexists|]. split; [by eexists|].
    split; [done|]. split; [done|]. split; [done|].
    split; [apply length_insert|].
    intros j Hj. by rewrite list_lookup_insert_ne.
Qed.

Lemma answers_are_recorded_once_witness :
  ∃ q, current_quiz (userdata fractions_done) = Some q ∧
       score q = correct_count (questions q).
Proof.
  assert (reachable fractions_done) as Hr
    by exact (reach_call _ (SubmitAnswer "b")
                (reach_call _ (CreateQuiz "fractions" 1 "easy")
                   (reach_fresh None demo_draws))).
  eexists. split; [reflexivity|].
  exact (proj1 (proj2 (answers_are_recorded_once fractions_done _ Hr
                         eq_refl))).
Defined.

(** ** The calls before the first quiz *)



(** ** Progress through a quiz *)

Lemma event_index e w q :
  world_inv w → current_quiz (userdata w) = Some q → is_create e = false →
  ∃ q', current_quiz (userdata (step w e)) = Some q' ∧
        Py.len (questions q') = Py.len (questions q) ∧
        current_question_index q'
        = Z.min (current_question_index q
                 + (if is_answer_event e then 1 else 0))
            (Py.len (questions q)).
Proof.
  intros Hw Hq He. pose proof (proj2 Hw q Hq) as Hinv.
  pose proof Hinv as [Hl Hi Hc Hs].
  destruct e as [c|env]; simpl;
    [|exists q; split; [done|]; split; [done|lia]].
  destruct (is_answer c && negb (completed q)) eqn:E.
  - apply andb_true_iff in E as [Ha Hf]. apply negb_true_iff in Hf.
    pose proof (in_progress_index q Hinv Hf).
    destruct (answered_facts c q Hinv Hf Ha) as (Hl' & Hi' & _).
    exists (advanced (answered c q)). split; [by apply answer_state|].
    rewrite advanced_len, advanced_index, Hl', Hi', Ha. split; [done|lia].
  - rewrite (idle_step c w q); [| done | |].
    + exists q. split; [done|]. split; [done|].
      destruct (is_answer c) eqn:Ha; [|lia].
      assert (completed q = true) as Hd by by destruct (completed q).
      apply Hc in Hd. lia.
    + intros Ha. rewrite Ha in E. by destruct (completed q).
    + intros t n d ->. discriminate.
Qed.

Lemma events_index es w q :
  world_inv w → current_quiz (userdata w) = Some q →
  forallb (negb ∘ is_create) es = true →
  ∃ q', current_quiz (userdata (after es w)) = Some q' ∧
        Py.len (questions q') = Py.len (questions q) ∧
        current_question_index q'
        = Z.min (current_question_index q + answers_in es)
            (Py.len (questions q)).
Proof.
  revert w q. induction es as [|e es IH]; intros w q Hw Hq Hes.
  - exists q. pose proof (proj2 Hw q Hq) as [Hl Hi Hc Hs].
    split; [done|]. split; [done|]. unfold answers_in. simpl. lia.
  - simpl in Hes. apply andb_true_iff in Hes as [He Hes].
    apply negb_true_iff in He.
    destruct (event_index e w q Hw Hq He) as (q1 & Hq1 & Hl1 & Hi1).
    destruct (IH (step w e) q1 (step_inv e w Hw) Hq1 Hes)
      as (q' & Hq' & Hl' & Hi').
    exists q'. split; [done|]. split; [congruence|].
    rewrite Hi', Hi1, Hl1. unfold answers_in. rewrite filter_cons.
    assert (0 ≤ Z.of_nat
                  (length (filter (λ e0, is_answer_event e0 = true) es)))
      by lia.
    destruct (is_answer_event e) eqn:Ha.
    + rewrite decide_True by done. simpl length. lia.
    + rewrite decide_False by done. lia.
Qed.

(** X3. Over any sequence of calls and context changes that creates no
    new quiz, the index of the active quiz is its old value plus the
    number of answers and skips in the sequence, capped at the number of
    questions; the quiz is completed afterwards exactly when that sum
    reaches the number of questions. A new quiz of n questions is thus
    completed by n answers and not by fewer. *)
Theorem index_counts_answers w q es :
  reachable w → current_quiz (userdata w) = Some q →
  forallb (negb ∘ is_create) es = true →
  ∃ q', current_quiz (userdata (after es w)) = Some q' ∧
        Py.len (questions q') = Py.len (questions q) ∧
        current_question_index q'
        = Z.min (current_question_index q + answers_in es)
            (Py.len (questions q)) ∧
        (completed q' = true
         ↔ Py.len (questions q) ≤ current_question_index q + answers_in es).
Proof.
  intros Hr Hq Hes.
  destruct (events_index es w q (reachable_inv w Hr) Hq Hes)
    as (q' & Hq' & Hl' & Hi').
  exists q'. split; [done|]. split; [done|]. split; [done|].
  pose proof (reachable_inv _ (reachable_after es w Hr)) as Hw'.
  pose proof (proj2 Hw' q' Hq') as [_ _ Hc' _].
  pose proof (proj2 (reachable_inv w Hr) q Hq) as [_ Hi _ _].
  rewrite Hc', Hi', Hl'. lia.
Qed.

Lemma index_counts_answers_witness :
  ∃ q', current_quiz
          (userdata (after [Invoke SkipQuestion; Invoke GetQuizStatus;
                            Invoke (SubmitAnswer "a")] algebra_started))
        = Some q' ∧
        current_question_index q' = 2 ∧ completed q' = true.
Proof.
  assert (reachable algebra_started) as Hr
    by exact (reach_call _ (CreateQuiz "algebra" 5 "medium")
                (reach_fresh None demo_draws)).
  destruct (index_counts_answers algebra_started _
              [Invoke SkipQuestion; Invoke GetQuizStatus;
               Invoke (SubmitAnswer "a")] Hr eq_refl eq_refl)
    as (q' & Hq' & _ & Hi & Hc).
  exists q'. split; [exact Hq'|]. split; [exact Hi|].
  apply Hc. vm_compute. discriminate.
Defined.

(** ** The percentage *)

(** X4. For the active quiz of a reachable state the percentage that the
    tools compute lies between 0 and 100; it is 100 exactly when every
    question was answered correctly and 0 exactly when none was. *)
Theorem percentage_range w q :
  reachable w → current_quiz (userdata w) = Some q →
  ∃ p, (∀ w1, percentage_of (score q) (Py.len (questions q)) w1
              = (Ok p, w1)) ∧
       0 ≤ p ≤ 100 ∧
       (p = 100 ↔ score q = Py.len (questions q)) ∧
       (p = 0 ↔ score q = 0).
Proof.
  intros Hr Hq.
  pose proof (proj2 (reachable_inv w Hr) q Hq) as [Hl Hi _ Hs].
  exists (floor_percentage (score q) (Py.len (questions q))).
  split; [intros w1; apply percentage_of_exact; lia|].
  unfold floor_percentage.
  assert (0 ≤ score q ≤ Py.len (questions q)) as Hb by lia.
  revert Hl Hb. generalize (score q) (Py.len (questions q)). clear.
  intros s n Hl Hb.
  assert (0 ≤ s * 100 / n) by (apply Z.div_pos; lia).
  assert (s * 100 / n ≤ 100)
    by (apply Z.div_le_upper_bound; [lia | nia]).
  split; [lia|]. split; split.
  - intros Hp. destruct (decide (s = n)) as [|Hne]; [done|].
    assert (s * 100 / n < 100)
      by (apply Z.div_lt_upper_bound; [lia | nia]).
    lia.
  - intros ->. replace (n * 100) with (100 * n) by lia.
    apply Z.div_mul. lia.
  - intros Hp. destruct (decide (s = 0)) as [|Hne]; [done|].
    assert (1 ≤ s * 100 / n)
      by (apply Z.div_le_lower_bound; [lia | nia]).
    lia.
  - intros ->. reflexivity.
Qed.

Lemma percentage_range_witness :
  ∃ p, (∀ w1, percentage_of 1 1 w1 = (Ok p, w1)) ∧ 0 ≤ p ≤ 100.
Proof.
  assert (reachable fractions_done) as Hr
    by exact (reach_call _ (SubmitAnswer "b")
                (reach_call _ (CreateQuiz "fractions" 1 "easy")
                   (reach_fresh None demo_draws))).
  destruct (percentage_range fractions_done _ Hr eq_refl)
    as (p & Hp & Hrange & _).
  exists p. split; [exact Hp | exact Hrange].
Defined.

(** ** What [create_quiz] stores and answers *)

Lemma lower_easy_medium_hard s :
  s ∈ ["easy"; "medium"; "hard"] → Py.lower s = s.
Proof.
  intros H. repeat (apply elem_of_cons in H as [-> | H]; [done|]).
  by apply elem_of_nil in H.
Qed.

Lemma normalised_range d : normalised d ∈ ["easy"; "medium"; "hard"].
Proof.
  unfold normalised. case_bool_decide; [done|].
  apply elem_of_cons. right. apply elem_of_cons. by left.
Qed.

(** X5. Whatever the state before and whatever the frontend does,
    [create_quiz] stores a quiz with index 0, score 0, not completed and
    with every question unanswered, under the topic as it was given; the
    stored difficulty is one of "easy", "medium" and "hard": the
    lower-cased argument when that is one of the three, "medium"
    otherwise, and a stored difficulty is left as it is when given
    again. *)
Theorem create_quiz_stores_a_clean_quiz w t n d :
  ∃ q, current_quiz (userdata (create_quiz t n d w).2) = Some q ∧
       current_question_index q = 0 ∧ score q = 0 ∧ completed q = false ∧
       topic q = t ∧
       (∀ cq, cq ∈ questions q →
              user_answer cq = None ∧ is_correct cq = None) ∧
       difficulty q ∈ ["easy"; "medium"; "hard"] ∧
       (Py.lower d ∈ ["easy"; "medium"; "hard"] →
        difficulty q = Py.lower d) ∧
       (Py.lower d ∉ ["easy"; "medium"; "hard"] → difficulty q = "medium") ∧
       normalised (difficulty q) = difficulty q ∧
       (∀ env, current_quiz (userdata (create_quiz t n d (with_ctx env w)).2)
               = Some q).
Proof.
  exists (created_quiz w t n d).
  rewrite (proj2 (create_quiz_run t n d w)). simpl.
  split; [done|]. split; [done|]. split; [done|]. split; [done|].
  split; [done|]. split.
  { intros cq Hin. pose proof (clamp_range n).
    rewrite slice_to_pos in Hin by lia.
    apply elem_of_take in Hin as (i & Hi & _).
    apply (catalog_entry_unanswered w t). by eapply list_elem_of_lookup_2. }
  split; [apply normalised_range|].
  split; [intros H; unfold normalised; by rewrite bool_decide_eq_true_2|].
  split; [intros H; unfold normalised; by rewrite bool_decide_eq_false_2|].
  split.
  - pose proof (normalised_range d) as H.
    unfold normalised at 1.
    rewrite (lower_easy_medium_hard _ H).
    by rewrite bool_decide_eq_true_2.
  - intros env. by rewrite (proj2 (create_quiz_run t n d (with_ctx env w))).
Qed.

Lemma created_quiz_first w t n d :
  ∃ first, head (questions (created_quiz w t n d)) = Some first ∧
           ∀ w1, getitem (questions (created_quiz w t n d)) 0 w1
                 = (Ok first, w1).
Proof.
  pose proof (created_quiz_inv w t n d) as [Hl _ _ _].
  destruct (questions (created_quiz w t n d)) as [|first l] eqn:E;
    [unfold Py.len in Hl; simpl in Hl; lia|].
  exists first. split; [done|]. intros w1.
  destruct (getitem_run (first :: l) 0 w1) as [x Hx]; [lia|].
  rewrite Hx. unfold getitem, Py.position in Hx.
  destruct ((0 <=? 0) && (0 <? Py.len (first :: l))); simpl in Hx;
    [by injection Hx as <-|].
  destruct ((- Py.len (first :: l) <=? 0) && (0 <? 0)) eqn:E2;
    simpl in Hx; [|discriminate].
  apply andb_true_iff in E2 as [_ E2]. discriminate.
Qed.



(** ** What the other display calls send and answer *)

Lemma first_participant_none (a b c : string) k w :
  ctx (userdata w) ≫= room = None →
  with_first_participant a b c k w = (Ok a, w).
Proof.
  intros Hr. unfold with_first_participant. rewrite bind_run. simpl.
  by rewrite Hr.
Qed.

Lemma first_participant_empty (a b c : string) k w r :
  ctx (userdata w) ≫= room = Some r → remote_participants r = [] →
  with_first_participant a b c k w = (Ok b, w).
Proof.
  intros Hr Hp. unfold with_first_participant. rewrite bind_run. simpl.
  by rewrite Hr, Hp.
Qed.

Lemma first_participant_first (a b c : string) k w r x p rest :
  ctx (userdata w) ≫= room = Some r →
  remote_participants r = (x, p) :: rest →
  with_first_participant a b c k w = k r p w.
Proof.
  intros Hr Hp.
  destruct (first_participant_up a b c k w r Hr) as (p' & Hp' & ->);
    [by rewrite Hp|].
  rewrite Hp in Hp'. by injection Hp' as <-.
Qed.

Lemma show_next_display quiz w :
  0 ≤ current_question_index quiz < Py.len (questions quiz) →
  completed quiz = false →
  ∃ req, display_request quiz = Some req ∧
    (ctx (userdata w) ≫= room = None →
     (_show_next_question quiz w).1
     = Ok "Moving to next question, but couldn't display it") ∧
    (∀ r, ctx (userdata w) ≫= room = Some r → remote_participants r = [] →
          (_show_next_question quiz w).1 = Ok "No participants") ∧
    (∀ r x p rest,
       ctx (userdata w) ≫= room = Some r →
       remote_participants r = (x, p) :: rest →
       (_show_next_question quiz w).1
       = match perform_rpc r (identity p) req with
         | Replied (Json (Dict true _)) =>
             Ok ("Moving to question "
                 +:+ Py.str (current_question_index quiz + 1) +:+ ".")
         | Replied (Json (Dict false _)) =>
             Ok ("Next question ready (Question "
                 +:+ Py.str (current_question_index quiz + 1) +:+ ")")
         | _ => Ok "Moving to next question"
         end).
Proof.
  intros Hi Hf.
  destruct (questions quiz !! Z.to_nat (current_question_index quiz))
    as [nq|] eqn:E;
    [|apply lookup_ge_None in E; unfold Py.len in Hi; lia].
  eexists. split; [unfold display_request; by rewrite Hf, E|].
  unfold _show_next_question. split; [|split].
  - intros Hr. by rewrite first_participant_none.
  - intros r Hr Hp. by rewrite (first_participant_empty _ _ _ _ _ r).
  - intros r x p rest Hr Hp.
    rewrite (first_participant_first _ _ _ _ _ r x p rest Hr Hp).
    unfold try_except. rewrite bind_run.
    assert (getitem (questions quiz) (current_question_index quiz) w
            = (Ok nq, w)) as ->.
    { unfold getitem, Py.position.
      replace ((0 <=? current_question_index quiz)
               && (current_question_index quiz <? Py.len (questions quiz)))
        with true by (symmetry; apply andb_true_iff; lia).
      simpl. by rewrite E. }
    rewrite bind_run. unfold await_rpc.
    destruct (perform_rpc r (identity p) _)
      as [|e|[e|[e|[|] e]]]; reflexivity.
Qed.

Lemma complete_display quiz w :
  1 ≤ Py.len (questions quiz) ≤ 10 →
  0 ≤ score quiz ≤ Py.len (questions quiz) →
  completed quiz = true →
  ∃ req, display_request quiz = Some req ∧
    (ctx (userdata w) ≫= room = None →
     (_complete_quiz quiz w).1
     = Ok ("Quiz completed! Final score: " +:+ score_of quiz +:+ " ("
           +:+ Py.str (floor_percentage (score quiz)
                         (Py.len (questions quiz))) +:+ "%)")) ∧
    (∀ r, ctx (userdata w) ≫= room = Some r → remote_participants r = [] →
          (_complete_quiz quiz w).1
          = Ok ("Quiz completed! Score: " +:+ score_of quiz)) ∧
    (∀ r x p rest,
       ctx (userdata w) ≫= room = Some r →
       remote_participants r = (x, p) :: rest →
       (_complete_quiz quiz w).1
       = match perform_rpc r (identity p) req with
         | Replied (Json (Dict true _)) =>
             Ok ("Quiz completed! You scored " +:+ score_of quiz +:+ " ("
                 +:+ Py.str (floor_percentage (score quiz)
                               (Py.len (questions quiz)))
                 +:+ "%). Great job!")
         | Replied (Json (Dict false _)) =>
             Ok ("Quiz completed! Score: " +:+ score_of quiz +:+ " ("
                 +:+ Py.str (floor_percentage (score quiz)
                               (Py.len (questions quiz))) +:+ "%)")
         | _ =>
             Ok ("Quiz completed! Final score: " +:+ score_of quiz +:+ " ("
                 +:+ Py.str (floor_percentage (score quiz)
                               (Py.len (questions quiz))) +:+ "%)")
         end).
Proof.
  intros Hl Hs Hd.
  eexists. split; [unfold display_request; by rewrite Hd|].
  unfold _complete_quiz.
  rewrite bind_run, percentage_of_exact by done.
  rewrite bind_run. simpl.
  match goal with
  | |- context [with_first_participant ?a ?b ?c ?k ?w'] =>
      pose proof (first_participant_none a b c k w') as Hnone;
      pose proof (first_participant_empty a b c k w') as Hempty;
      pose proof (first_participant_first a b c k w') as Hfirst
  end.
  simpl in Hnone, Hempty, Hfirst. split; [|split].
  - intros Hr. by rewrite Hnone.
  - intros r Hr Hp. by rewrite (Hempty r).
  - intros r x p rest Hr Hp. rewrite (Hfirst r x p rest Hr Hp).
    unfold try_except. rewrite bind_run. unfold await_rpc.
    destruct (perform_rpc r (identity p) _)
      as [|e|[e|[e|[|] e]]]; reflexivity.
Qed.



Lemma result_rows_lookup qs i cq :
  qs !! i = Some cq →
  result_rows qs !! i
  = Some {| r_question_number := Z.of_nat i + 1;
            r_question := question_text cq;
            r_correct_answer := correct_answer cq;
            r_user_answer := answer_or_not_answered cq;
            r_is_correct := is_correct cq |}.
Proof. intros E. unfold result_rows. by rewrite list_lookup_imap, E. Qed.

(** X8. On a completed quiz of a reachable state, [show_quiz_results]
    sends one show_results request to the first participant, with the
    score, the number of questions, the percentage and one row per
    question, in order and numbered from 1. Every question has a recorded
    answer and mark by then; the row repeats them, except that an empty
    recorded answer is shown as "Not answered". The reply gives score and
    percentage on acceptance, the bare score on refusal, and one fallback
    sentence for a timeout and every other failure. The state is never
    changed. *)
Theorem show_quiz_results_display w q :
  reachable w → current_quiz (userdata w) = Some q → completed q = true →
  length (result_rows (questions q)) = length (questions q) ∧
  (∀ i cq, questions q !! i = Some cq →
     ∃ a m, user_answer cq = Some a ∧ is_correct cq = Some m ∧
            result_rows (questions q) !! i
            = Some {| r_question_number := Z.of_nat i + 1;
                      r_question := question_text cq;
                      r_correct_answer := correct_answer cq;
                      r_user_answer :=
                        if decide (a = "") then "Not answered" else a;
                      r_is_correct := Some m |}) ∧
  (show_quiz_results w).2 = w ∧
  (ctx (userdata w) ≫= room = None →
   (show_quiz_results w).1
   = Ok "Quiz completed but couldn't display results") ∧
  (∀ r, ctx (userdata w) ≫= room = Some r → remote_participants r = [] →
        (show_quiz_results w).1 = Ok "No participants to send results to") ∧
  (∀ r x p rest,
     ctx (userdata w) ≫= room = Some r →
     remote_participants r = (x, p) :: rest →
     (show_quiz_results w).1
     = match perform_rpc r (identity p) (results_request q) with
       | Replied (Json (Dict true _)) =>
           Ok ("Here are your detailed results: " +:+ score_of q
               +:+ " correct ("
               +:+ Py.str (floor_percentage (score q)
                             (Py.len (questions q))) +:+ "%)")
       | Replied (Json (Dict false _)) => Ok ("Results: " +:+ score_of q)
       | _ => Ok ("Quiz completed with score " +:+ score_of q)
       end).
Proof.
  intros Hr Hq Hd. pose proof (reachable_inv w Hr) as Hw.
  pose proof (proj2 Hw q Hq) as [Hl Hi Hc Hs]. pose proof (proj1 Hc Hd) as Hend.
  pose proof (reachable_session_inv w Hr) as [_ Hbook].
  destruct (Hbook q Hq) as [Hmarks _].
  split; [unfold result_rows; apply length_imap|]. split.
  { intros i cq E. pose proof (Hmarks i cq E) as Hcq.
    pose proof (lookup_lt_Some _ _ _ E) as Hlt.
    rewrite bool_decide_eq_true_2 in Hcq by (unfold Py.len in Hend; lia).
    destruct Hcq as [[a Ha] [m Hm]]. exists a, m.
    split; [done|]. split; [done|].
    rewrite (result_rows_lookup _ _ cq E). unfold answer_or_not_answered.
    rewrite Ha, Hm. by destruct a. }
  split; [apply read_only_show_quiz_results|].
  unfold show_quiz_results. rewrite bind_run. simpl. rewrite Hq, Hd. simpl.
  split; [|split].
  - intros Hroom. by rewrite first_participant_none.
  - intros r Hroom Hp. by rewrite (first_participant_empty _ _ _ _ _ r).
  - intros r x p rest Hroom Hp.
    rewrite (first_participant_first _ _ _ _ _ r x p rest Hroom Hp).
    unfold try_except. cbv zeta.
    rewrite bind_run, percentage_of_exact by lia.
    rewrite bind_run. unfold await_rpc, results_request.
    destruct (perform_rpc r (identity p) _)
      as [|e|[e|[e|[|] e]]]; try reflexivity.
    unfold mret at 1, M_ret at 1. cbv beta iota.
    repeat (rewrite bind_run; simpl).
    rewrite percentage_of_exact by lia. reflexivity.
Qed.

Lemma show_quiz_results_display_witness :
  (show_quiz_results fractions_done).1
  = Ok "Quiz completed but couldn't display results".
Proof.
  assert (reachable fractions_done) as Hr
    by exact (reach_call _ (SubmitAnswer "b")
                (reach_call _ (CreateQuiz "fractions" 1 "easy")
                   (reach_fresh None demo_draws))).
  exact (proj1 (proj2 (proj2 (proj2
           (show_quiz_results_display fractions_done _ Hr eq_refl eq_refl))))
           eq_refl).
Defined.

(** X9. [get_quiz_status] and [show_quiz_results] never change the
    session state, in any state and whatever the frontend answers; a
    status query made twice gives the same reply. *)
Theorem queries_change_nothing w :
  (get_quiz_status w).2 = w ∧ (show_quiz_results w).2 = w ∧
  (get_quiz_status (get_quiz_status w).2).1 = (get_quiz_status w).1 ∧
  (get_quiz_status (show_quiz_results w).2).1 = (get_quiz_status w).1.
Proof.
  split; [apply read_only_get_quiz_status|].
  split; [apply read_only_show_quiz_results|].
  by rewrite read_only_get_quiz_status, read_only_show_quiz_results.
Qed.

(** * Properties of the session data and of the tools that use it *)

Module ModelsFacts.
Import Models.

Lemma run_bind {A B} (m : T A) (f : A → T B) s :
  (m ≫= f) s = match m s with
               | (Ok a, s') => f a s'
               | (Raise e, s') => (Raise e, s')
               end.
Proof. reflexivity. Qed.

Lemma session_eta s :
  {| userdata := {| ctx := ctx (userdata s); name := name (userdata s);
                    age := age (userdata s);
                    components := components (userdata s);
                    last_canvas_drawing := last_canvas_drawing (userdata s);
                    canvas_history := canvas_history (userdata s) |};
     uuid_draws := uuid_draws s; uuid_count := uuid_count s;
     replies_requested := replies_requested s |} = s.
Proof. by destruct s as [[] ? ? ?]. Qed.

(** ** User information *)

(** X10. [set_user_data] stores the name and the age and changes nothing
    else of the user data; [get_user_data] then repeats both, unless the
    name is empty: an empty name is answered as unknown although
    [set_user_data] has confirmed it. The latest call of [set_user_data]
    is the one remembered, a new session knows no name, and
    [get_user_data] changes no user data. *)
Theorem user_data_round_trip s n a :
  (set_user_data n a s).1
  = Ok ("Okay, now I will remember your name is " +:+ n
        +:+ " and you are " +:+ Py.str a +:+ " year old.") ∧
  name (userdata (set_user_data n a s).2) = n ∧
  age (userdata (set_user_data n a s).2) = a ∧
  components (userdata (set_user_data n a s).2) = components (userdata s) ∧
  last_canvas_drawing (userdata (set_user_data n a s).2)
  = last_canvas_drawing (userdata s) ∧
  canvas_history (userdata (set_user_data n a s).2)
  = canvas_history (userdata s) ∧
  ctx (userdata (set_user_data n a s).2) = ctx (userdata s) ∧
  (n ≠ "" →
   (get_user_data (set_user_data n a s).2).1
   = Ok ("Your name: " +:+ n +:+ " and your age: " +:+ Py.str a)) ∧
  (n = "" →
   (get_user_data (set_user_data n a s).2).1
   = Ok "I don't know your name. Please introduce your name and your age") ∧
  (∀ n' a', n' ≠ "" →
     (get_user_data (set_user_data n' a' (set_user_data n a s).2).2).1
     = Ok ("Your name: " +:+ n' +:+ " and your age: " +:+ Py.str a')) ∧
  userdata (get_user_data s).2 = userdata s ∧
  (∀ c draws,
     (get_user_data (fresh c draws)).1
     = Ok "I don't know your name. Please introduce your name and your age").
Proof.
  assert (∀ s n a, n ≠ "" →
            (get_user_data (set_user_data n a s).2).1
            = Ok ("Your name: " +:+ n +:+ " and your age: " +:+ Py.str a))
    as Hget.
  { intros s' n' a' Hn. unfold get_user_data, get_user_info.
    repeat (rewrite run_bind; simpl).
    apply String.eqb_neq in Hn. by rewrite Hn. }
  repeat (split; [reflexivity|]).
  split; [apply Hget|]. split.
  { intros ->. reflexivity. }
  split; [intros n' a'; apply Hget|]. split; [|reflexivity].
  unfold get_user_data, get_user_info. repeat (rewrite run_bind; simpl).
  destruct (negb (name (userdata s) =? "")%string); by destruct s as [[] ? ? ?].
Qed.

Lemma user_data_round_trip_witness :
  (get_user_data (set_user_data "Ana" 12 (fresh None demo_draws)).2).1
  = Ok "Your name: Ana and your age: 12".
Proof.
  apply (proj1 (proj2 (proj2 (proj2 (proj2 (proj2 (proj2 (proj2
           (user_data_round_trip (fresh None demo_draws) "Ana" 12))))))))).
  discriminate.
Defined.

(** ** Components *)

Lemma get_component_at_Some id cs i c :
  get_component_at id cs = Some (i, c) ↔
  cs !! i = Some c ∧ comp_id c = id ∧
  ∀ j y, cs !! j = Some y → (j < i)%nat → comp_id y ≠ id.
Proof.
  unfold get_component_at.
  apply (list_find_Some (λ x, comp_id x = id)).
Qed.

Lemma get_component_at_None id cs :
  get_component_at id cs = None ↔ id ∉ comp_id <$> cs.
Proof.
  unfold get_component_at. rewrite list_find_None, Forall_forall.
  rewrite list_elem_of_fmap. split.
  - intros H (c & -> & Hin). by apply (H c).
  - intros H c Hin Hid. apply H. by exists c.
Qed.

Lemma get_component_at_flip id cs i c :
  get_component_at id cs = Some (i, c) →
  get_component_at id (<[i := flip_showed c]> cs)
  = Some (i, flip_showed c).
Proof.
  rewrite !get_component_at_Some. intros (E & Hid & Hfirst).
  pose proof (lookup_lt_Some _ _ _ E) as Hlt.
  split; [by apply list_lookup_insert_eq|]. split; [done|].
  intros j y Ej Hj. rewrite list_lookup_insert_ne in Ej by lia.
  by apply (Hfirst j).
Qed.

Lemma flip_showed_twice c : flip_showed (flip_showed c) = c.
Proof. destruct c as [? ? []]; reflexivity. Qed.

(** X11. [add_component] appends one hidden component with the given
    content and a newly drawn id, and leaves the components already
    stored as they are. [get_component] returns the first component with
    the id: the new one when its id is not yet in use, the older one when
    it is, and nothing for an id that no component has. *)
Theorem add_then_get_component s text :
  ∃ c, (add_component text s).1 = Ok c ∧
       comp_id c = uuid_draws s (uuid_count s) ∧
       content c = text ∧ is_showed c = false ∧
       components (userdata (add_component text s).2)
       = (components (userdata s) ++ [c])%list ∧
       (comp_id c ∉ comp_id <$> components (userdata s) →
        (get_component (comp_id c) (add_component text s).2).1
        = Ok (Some c)) ∧
       (∀ id, id ∈ comp_id <$> components (userdata s) →
              (get_component id (add_component text s).2).1
              = (get_component id s).1 ∧
              ∃ old, (get_component id s).1 = Ok (Some old) ∧
                     old ∈ components (userdata s) ∧ comp_id old = id) ∧
       (∀ id, id ∉ comp_id <$> components (userdata s) → id ≠ comp_id c →
              (get_component id (add_component text s).2).1 = Ok None).
Proof.
  eexists. split; [reflexivity|]. simpl.
  split; [done|]. split; [done|]. split; [done|]. split; [done|].
  unfold get_component, get_component_at.
  split; [|split].
  - intros Hnew. rewrite ?run_bind. simpl.
    rewrite list_find_app_r by by apply get_component_at_None.
    simpl. by rewrite decide_True.
  - intros id Hin. rewrite ?run_bind. simpl.
    destruct (list_find (λ c, comp_id c = id) (components (userdata s)))
      as [[i old]|] eqn:E.
    + rewrite (list_find_app_l _ _ _ _ _ E). split; [done|].
      apply list_find_Some in E as (E & Hid & _).
      exists old. split; [done|]. split; [|done].
      by eapply list_elem_of_lookup_2.
    + by apply get_component_at_None in E.
  - intros id Hin Hne. rewrite ?run_bind. simpl.
    rewrite list_find_app_r by by apply get_component_at_None.
    simpl. rewrite decide_False by done. reflexivity.
Qed.

Lemma add_then_get_component_witness :
  ∃ c, (add_component "hello" (fresh None demo_draws)).1 = Ok c ∧
       (get_component (comp_id c)
          (add_component "hello" (fresh None demo_draws)).2).1
       = Ok (Some c).
Proof.
  destruct (add_then_get_component (fresh None demo_draws) "hello")
    as (c & Hc & _ & _ & _ & _ & Hget & _).
  exists c. split; [exact Hc|]. apply Hget. simpl. apply not_elem_of_nil.
Defined.



(** ** The component tools *)

Lemma no_room_reply (a b c : string) k s :
  ctx (userdata s) ≫= room = None →
  with_first_participant a b c k s = (Ok a, s).
Proof.
  intros Hr. unfold with_first_participant. rewrite run_bind. simpl.
  by rewrite Hr.
Qed.

Lemma empty_room_reply (a b c : string) k s r :
  ctx (userdata s) ≫= room = Some r → remote_participants r = [] →
  with_first_participant a b c k s = (Ok b, s).
Proof.
  intros Hr Hp. unfold with_first_participant. rewrite run_bind. simpl.
  by rewrite Hr, Hp.
Qed.

Lemma first_participant_called (a b c : string) k s r x p rest :
  ctx (userdata s) ≫= room = Some r →
  remote_participants r = (x, p) :: rest →
  with_first_participant a b c k s = k r p s.
Proof.
  intros Hr Hp. unfold with_first_participant. rewrite run_bind. simpl.
  by rewrite Hr, Hp.
Qed.

(** The three ways a context can be. *)
Lemma context_cases (c : option JobContext) :
  c ≫= room = None
  ∨ (∃ r, c ≫= room = Some r ∧ remote_participants r = [])
  ∨ (∃ r x p rest, c ≫= room = Some r ∧
                   remote_participants r = (x, p) :: rest).
Proof.
  destruct (c ≫= room) as [r|]; [|by left]. right.
  destruct (remote_participants r) as [|[x p] rest] eqn:E.
  - left. by exists r.
  - right. by exists r, x, p, rest.
Qed.

(** X13. [create_component] stores the new component whatever becomes of
    the display. With a participant in the room it sends one show
    request to the first participant, with the id and content of the
    component and its position in the list, and does not guard the
    call: when the frontend answers, whatever the answer, the tool
    confirms, and when the call fails the failure is raised to the
    caller instead of being turned into a reply, the component staying
    stored. *)
Theorem create_component_is_not_guarded s text :
  let c := {| comp_id := uuid_draws s (uuid_count s); content := text;
              is_showed := false |} in
  components (userdata (create_component text s).2)
  = (components (userdata s) ++ [c])%list ∧
  (ctx (userdata s) ≫= room = None →
   (create_component text s).1
   = Ok "Created a component, but couldn't access the room to send it") ∧
  (∀ r, ctx (userdata s) ≫= room = Some r → remote_participants r = [] →
        (create_component text s).1
        = Ok "Created a component, but no participants found to send it to") ∧
  (∀ r x p rest,
     ctx (userdata s) ≫= room = Some r →
     remote_participants r = (x, p) :: rest →
     (create_component text s).1
     = match perform_rpc r (identity p) RPC_METHOD_COMPONENT
               (ShowComponent (comp_id c) text
                  (Py.len (components (userdata s)))) with
       | Replied _ =>
           Ok ("I've created a component with the content: " +:+ text)
       | TimedOut => Raise TimeoutError
       | Failed d => Raise (Exception d)
       end).
Proof.
  cbv zeta. unfold create_component. rewrite run_bind. simpl.
  match goal with
  | |- context [with_first_participant ?a ?b ?c ?k ?s'] =>
      pose proof (no_room_reply a b c k s') as Hnone;
      pose proof (empty_room_reply a b c k s') as Hempty;
      pose proof (first_participant_called a b c k s') as Hfirst;
      destruct (context_cases (ctx (userdata s')))
        as [Hr | [(r & Hr & Hp) | (r & x & p & rest & Hr & Hp)]]
  end; simpl in *.
  - rewrite (Hnone Hr). split; [done|]. split; [done|].
    split; [intros r' Hr'; congruence | intros r' ? ? ? Hr'; congruence].
  - rewrite (Hempty r Hr Hp). split; [done|].
    split; [congruence|]. split; [done|].
    intros r' x p rest Hr' Hp'. congruence.
  - rewrite (Hfirst r x p rest Hr Hp).
    assert (Py.len (components (userdata s)
                    ++ [{| comp_id := uuid_draws s (uuid_count s);
                           content := text; is_showed := false |}]) - 1
            = Py.len (components (userdata s))) as Hlen
      by (unfold Py.len; rewrite length_app; simpl; lia).
    rewrite !run_bind. simpl. rewrite Hlen. unfold await_plain.
    split; [by destruct (perform_rpc r _ _ _)|].
    split; [congruence|]. split; [congruence|].
    intros r' x' p' rest' Hr' Hp'.
    assert (r' = r) as -> by congruence.
    assert (p' = p) as -> by congruence.
    by destruct (perform_rpc r _ _ _).
Qed.

Lemma create_component_is_not_guarded_witness :
  (create_component "hello" (fresh (in_room silent_room) demo_draws)).1
  = Raise TimeoutError.
Proof.
  exact (proj2 (proj2 (proj2
           (create_component_is_not_guarded
              (fresh (in_room silent_room) demo_draws) "hello")))
           silent_room "web" {| identity := "web" |} [] eq_refl eq_refl).
Defined.



(** ** The handler of toggle requests *)

Ltac run :=
  repeat first [ rewrite run_bind
               | progress unfold mret, T_ret
               | progress simpl ].

(** X15. The handler of toggle requests never raises. It answers
    "success" for every payload that decodes to an object, whether or
    not a component was toggled, and "error: " followed by the detail
    for a payload that does not decode or is not an object. The session
    changes only when the payload names, by a non-empty string under
    "id", a component that exists: then the first such component is
    flipped and one reply is asked of the agent. *)
Theorem toggle_handler_always_answers s rpc_data :
  (∃ reply, (handle_toggle_component rpc_data s).1 = Ok reply ∧
            (reply = "success" ↔ ∃ items, rpc_data = Parsed (JDict items)) ∧
            (reply ≠ "success" → ∃ detail, reply = "error: " +:+ detail)) ∧
  match requested_id rpc_data
        ≫= λ id, get_component_at id (components (userdata s)) with
  | Some (i, c) =>
      components (userdata (handle_toggle_component rpc_data s).2)
      = <[i := flip_showed c]> (components (userdata s)) ∧
      replies_requested (handle_toggle_component rpc_data s).2
      = S (replies_requested s) ∧
      name (userdata (handle_toggle_component rpc_data s).2)
      = name (userdata s) ∧
      age (userdata (handle_toggle_component rpc_data s).2)
      = age (userdata s)
  | None => (handle_toggle_component rpc_data s).2 = s
  end.
Proof.
  unfold handle_toggle_component, try_except, requested_id.
  destruct rpc_data as [detail|j].
  { simpl. split; [|done]. eexists. split; [reflexivity|].
    split; [|by eexists]. split; [discriminate | by intros [? ?]]. }
  destruct j as [|b|z|f|str|l|items];
    try (simpl; split; [|done]; eexists; (split; [reflexivity|]);
         split; [|by eexists]; split; [discriminate | by intros [? [=]]]).
  rewrite !run_bind. simpl.
  assert (∀ s' : Session, s' = s →
            (∃ reply : string,
               (Ok "success" : Res string) = Ok reply ∧
               (reply = "success"
                ↔ ∃ items', Parsed (JDict items) = Parsed (JDict items')) ∧
               (reply ≠ "success" → ∃ detail, reply = "error: " +:+ detail)) ∧
            s' = s) as Hidle.
  { intros s' ->. split; [|done]. eexists. split; [reflexivity|].
    split; [|done]. split; [by eexists | done]. }
  destruct (assoc "id" items) as [v|] eqn:Ev; simpl; [|by apply Hidle].
  destruct v as [|b|z|f|id|l|items']; run.
  - by apply Hidle.
  - destruct b; run; by apply Hidle.
  - destruct (Z.eqb z 0); run; by apply Hidle.
  - destruct (PrimFloat.eqb f PrimFloat.zero); run; by apply Hidle.
  - destruct (String.eqb id "") eqn:Eid; run; [by apply Hidle|].
    unfold toggle_component. run.
    destruct (get_component_at id (components (userdata s)))
      as [[i c]|] eqn:E; run.
    + split; [|done]. eexists. split; [reflexivity|].
      split; [|done]. split; [by eexists | done].
    + by apply Hidle.
  - destruct l; run; by apply Hidle.
  - destruct items'; run; by apply Hidle.
Qed.

(** ** The canvas tools *)

Lemma frontend_none s method payload :
  ctx (userdata s) ≫= room = None → frontend s method payload = None.
Proof. intros H. unfold frontend. by rewrite H. Qed.

Lemma frontend_empty s method payload r :
  ctx (userdata s) ≫= room = Some r → remote_participants r = [] →
  frontend s method payload = None.
Proof. intros H Hp. unfold frontend. rewrite H. simpl. by rewrite Hp. Qed.

Lemma frontend_first s method payload r x p rest :
  ctx (userdata s) ≫= room = Some r →
  remote_participants r = (x, p) :: rest →
  frontend s method payload
  = Some (perform_rpc r (identity p) method payload).
Proof. intros H Hp. unfold frontend. rewrite H. simpl. by rewrite Hp. Qed.

(** Splits a goal about a tool that starts by looking for the first
    participant into the three ways the context can be, and rewrites the
    tool and [frontend] accordingly. *)
Ltac by_context s :=
  destruct (context_cases (ctx (userdata s)))
    as [Hr | [(r & Hr & Hp) | (r & x & p & rest & Hr & Hp)]];
  [ rewrite (no_room_reply _ _ _ _ s Hr),
      ?(frontend_none s _ _ Hr)
  | rewrite (empty_room_reply _ _ _ _ s r Hr Hp),
      ?(frontend_empty s _ _ r Hr Hp)
  | rewrite (first_participant_called _ _ _ _ s r x p rest Hr Hp),
      ?(frontend_first s _ _ r x p rest Hr Hp) ].

(** X16. [get_canvas_drawing] never raises. It changes the session only
    when the frontend accepts the request, and then the drawing of the
    answer (an empty dict when the answer has none) replaces the stored
    one, nothing else changing. The stroke count is reported when the
    drawing is a dict whose strokes are a list; a drawing that is not a
    dict is stored all the same, although the reply is the one of an
    error. *)
Theorem get_canvas_drawing_stores_the_answer s :
  (∃ reply, (get_canvas_drawing s).1 = Ok reply) ∧
  match accepted (frontend s RPC_METHOD_CANVAS GetDrawing) with
  | None => (get_canvas_drawing s).2 = s
  | Some d =>
      let drawing := default (JDict []) d in
      (get_canvas_drawing s).2 = with_drawing (to_optional drawing) s ∧
      (∀ items l, drawing = JDict items → strokes_of items = JList l →
         (get_canvas_drawing s).1
         = Ok ("I can see your drawing. It contains "
               +:+ Py.str (Py.len l) +:+ " strokes. Let me analyze it.")) ∧
      ((∀ items, drawing ≠ JDict items) →
         (get_canvas_drawing s).1
         = Ok "I encountered an error while trying to get your drawing. Please try again.")
  end.
Proof.
  unfold get_canvas_drawing. by_context s; simpl.
  - split; [by eexists | done].
  - split; [by eexists | done].
  - unfold try_except, await_rpc. rewrite !run_bind.
    destruct (perform_rpc r (identity p) RPC_METHOD_CANVAS GetDrawing)
      as [|detail|[detail|[detail|ok e d]]]; simpl;
      try (split; [by eexists | done]).
    destruct ok; run; [|split; [by eexists | done]].
    unfold with_drawing, strokes_of.
    destruct (default (JDict []) d) as [|b|z|f|str|l|items] eqn:Ed; run;
      try (split; [by eexists|]; split; [done|]; split;
           [intros ? ? [=] | done]).
    destruct (default (JList []) (assoc "strokes" items))
      as [|b|z|f|str|l|items'] eqn:El; run;
      (split; [by eexists|]); (split; [done|]);
      (split; [intros ? ? [= <-]; rewrite El; intros [=]; by subst
              | intros H; by destruct (H items)]).
Qed.

Lemma get_canvas_drawing_stores_the_answer_witness :
  let s := fresh (in_room (drawing_room (JList [JInt 1]))) demo_draws in
  (get_canvas_drawing s).1
  = Ok "I encountered an error while trying to get your drawing. Please try again."
  ∧ last_canvas_drawing (userdata (get_canvas_drawing s).2)
    = Some (JList [JInt 1]).
Proof.
  cbv zeta.
  pose proof (get_canvas_drawing_stores_the_answer
                (fresh (in_room (drawing_room (JList [JInt 1]))) demo_draws))
    as [_ H].
  simpl in H. destruct H as (Hs & _ & Hr).
  split; [apply Hr; by intros items | reflexivity].
Defined.

(** X17. [clear_canvas] never raises. It forgets the stored drawing
    exactly when the frontend accepts the request, and this is also
    exactly when it says that the canvas is cleared; in every other case
    the session is unchanged. The canvas history is never touched: the
    forgotten drawing is not saved. *)
Theorem clear_canvas_clears_on_acceptance s :
  (∃ reply, (clear_canvas s).1 = Ok reply) ∧
  ((clear_canvas s).1
   = Ok "I've cleared the canvas. You can start drawing a new problem."
   ↔ accepted (frontend s RPC_METHOD_CANVAS ClearCanvas) ≠ None) ∧
  (clear_canvas s).2
  = match accepted (frontend s RPC_METHOD_CANVAS ClearCanvas) with
    | Some _ => with_drawing None s
    | None => s
    end.
Proof.
  unfold clear_canvas. by_context s; simpl.
  - split; [by eexists|]. split; [|done]. split; [discriminate | done].
  - split; [by eexists|]. split; [|done]. split; [discriminate | done].
  - unfold try_except, await_rpc. rewrite !run_bind.
    destruct (perform_rpc r (identity p) RPC_METHOD_CANVAS ClearCanvas)
      as [|detail|[detail|[detail|ok e d]]]; simpl;
      try (split; [by eexists|]; split; [|done];
           split; [discriminate | done]).
    destruct ok; run.
    + split; [by eexists|]. done.
    + split; [by eexists|]. split; [|done]. split; [discriminate | done].
Qed.

(** ** Analysing a drawing *)

Lemma lower_app a b : Py.lower (a +:+ b) = Py.lower a +:+ Py.lower b.
Proof. induction a as [|c a IH]; simpl; [done | by rewrite IH]. Qed.

Lemma decimal_char_cases (c : ascii) :
  bool_decide (c ∈ ["0"; "1"; "2"; "3"; "4"; "5"; "6"; "7"; "8"; "9"]%char)
  = true →
  c ∈ ["0"; "1"; "2"; "3"; "4"; "5"; "6"; "7"; "8"; "9"]%char.
Proof. intros H. by apply bool_decide_eq_true in H. Qed.

Lemma pretty_N_char_decimal x :
  bool_decide (pretty_N_char x
               ∈ ["0"; "1"; "2"; "3"; "4"; "5"; "6"; "7"; "8"; "9"]%char)
  = true.
Proof.
  destruct x as [|p]; [done|].
  do 4 (try (destruct p as [p|p|]; try done)).
Qed.

Lemma decimal_go x s : decimal s = true → decimal (pretty_N_go x s) = true.
Proof.
  revert s. induction (N.lt_wf_0 x) as [x _ IH]. intros s Hs.
  destruct (decide (x = 0)%N) as [->|Hx].
  - by rewrite pretty_N_go_0.
  - rewrite pretty_N_go_step by lia.
    apply IH.
    + apply N.div_lt; lia.
    + simpl. by rewrite pretty_N_char_decimal, Hs.
Qed.

Lemma decimal_str (n : nat) : decimal (Py.str (Z.of_nat n)) = true.
Proof.
  unfold Py.str, pretty, pretty_Z.
  destruct (Z.of_nat n) as [|p|p] eqn:E; [done| |lia].
  unfold pretty, pretty_N. simpl. by apply decimal_go.
Qed.

Lemma lower_decimal s : decimal s = true → Py.lower s = s.
Proof.
  induction s as [|c s IH]; [done|]. simpl.
  intros [Hc Hs]%andb_prop. rewrite (IH Hs). f_equal.
  apply decimal_char_cases in Hc.
  repeat (apply elem_of_cons in Hc as [->|Hc]; [done|]).
  by apply elem_of_nil in Hc.
Qed.

(** A run of digits in front of a text holds no occurrence of a word that
    starts with a letter. *)
Lemma contains_decimal (sub : string) (l : ascii) d post :
  (∀ c, c ∈ ["0"; "1"; "2"; "3"; "4"; "5"; "6"; "7"; "8"; "9"]%char →
        Ascii.eqb l c = false) →
  decimal d = true →
  contains (String l sub) (d +:+ post) = contains (String l sub) post.
Proof.
  intros Hl. induction d as [|c d IH]; [done|].
  simpl decimal. intros [Hc Hd]%andb_prop.
  apply decimal_char_cases in Hc.
  change (contains (String l sub) (String c (d +:+ post))
          = contains (String l sub) post).
  cbn [contains String.prefix]. rewrite (IH Hd).
  specialize (Hl c Hc). destruct (ascii_dec l c) as [->|_]; [|done].
  by rewrite Ascii.eqb_refl in Hl.
Qed.

(** The reply of a successful fetch is not taken for a failure. *)
Lemma fetched_is_no_failure (n : nat) :
  let reply := "I can see your drawing. It contains "
               +:+ Py.str (Z.of_nat n) +:+ " strokes. Let me analyze it." in
  contains "couldn't" (Py.lower reply) || contains "error" (Py.lower reply)
  = false.
Proof.
  cbv zeta. rewrite !lower_app, (lower_decimal _ (decimal_str n)).
  assert (∀ sub l,
            (∀ c, c ∈ ["0"; "1"; "2"; "3"; "4"; "5"; "6"; "7"; "8"; "9"]%char
                  → Ascii.eqb l c = false) →
            contains (String l sub)
              (Py.str (Z.of_nat n) +:+ Py.lower " strokes. Let me analyze it.")
            = contains (String l sub)
                (Py.lower " strokes. Let me analyze it.")) as Hd
    by (intros; by apply contains_decimal, decimal_str).
  change (Py.lower "I can see your drawing. It contains ")
    with "i can see your drawing. it contains ".
  assert (∀ X, contains "couldn't"
                 ("i can see your drawing. it contains " +:+ X)
               = contains "couldn't" X) as -> by (intros; reflexivity).
  assert (∀ X, contains "error"
                 ("i can see your drawing. it contains " +:+ X)
               = contains "error" X) as -> by (intros; reflexivity).
  rewrite (Hd "ouldn't" "c"%char), (Hd "rror" "e"%char); [done|..];
    intros c Hc;
    repeat (apply elem_of_cons in Hc as [->|Hc]; [done|]);
    by apply elem_of_nil in Hc.
Qed.

(** The analysis of a stored drawing [d] that answers [get] like a dict
    whose strokes are the list [l]. *)
Lemma analyze_stored s d l v :
  last_canvas_drawing (userdata s) = Some d → truthy d = true →
  json_get d "strokes" (JList []) = mret (JList l) →
  json_get d "image" (JStr "") = mret v →
  analyze_math_drawing s = (Ok (analysis (length l)), s).
Proof.
  intros Hd Ht Hg Hv.
  unfold analyze_math_drawing. rewrite run_bind. simpl.
  rewrite Hd. simpl. rewrite Ht. run. rewrite Hd, Ht, Hg. run.
  rewrite Hv. run.
  unfold heuristic, analysis, Py.len.
  destruct (decide (length l < 5)%nat) as [H5|H5].
  - by rewrite (proj2 (Z.ltb_lt _ _)) by lia.
  - rewrite (proj2 (Z.ltb_ge _ _)) by lia.
    destruct (decide (length l < 20)%nat) as [H20|H20].
    + by rewrite (proj2 (Z.ltb_lt _ _)) by lia.
    + by rewrite (proj2 (Z.ltb_ge _ _)) by lia.
Qed.

(** X18. With a stored drawing that is a non-empty dict whose strokes are
    a list, [analyze_math_drawing] answers from the stored drawing alone:
    whatever the context, no request is sent and the session is
    unchanged. The reply gives the number of strokes and classifies it:
    fewer than 5 a simple shape, fewer than 20 an equation, otherwise a
    complex diagram. *)
Theorem analyze_math_drawing_counts_strokes s items l :
  last_canvas_drawing (userdata s) = Some (JDict items) →
  items ≠ [] → strokes_of items = JList l →
  analyze_math_drawing s = (Ok (analysis (length l)), s).
Proof.
  intros Hd Hi Hl.
  apply (analyze_stored s (JDict items) l
           (default (JStr "") (assoc "image" items)) Hd).
  - by destruct items.
  - unfold strokes_of in Hl. simpl. by rewrite Hl.
  - reflexivity.
Qed.

Lemma analyze_math_drawing_counts_strokes_witness :
  let s := with_drawing
             (Some (JDict [("strokes", JList (replicate 7 (JList [])))]))
             (fresh (in_room silent_room) demo_draws) in
  analyze_math_drawing s
  = (Ok "I can see you've drawn something with 7 strokes. Mathematical equation or expression. Make sure numbers and operators are clear",
     s).
Proof.
  exact (analyze_math_drawing_counts_strokes
           (with_drawing
              (Some (JDict [("strokes", JList (replicate 7 (JList [])))]))
              (fresh (in_room silent_room) demo_draws))
           [("strokes", JList (replicate 7 (JList [])))]
           (replicate 7 (JList []))
           eq_refl ltac:(discriminate) eq_refl).
Defined.

(** X19. With no drawing stored, [analyze_math_drawing] asks the frontend
    once and, unless the request is accepted, leaves the session
    unchanged. A frontend that does not answer in time, and a room without
    participants, are both reported as a canvas with no drawing; only a
    missing room, a failed call, an answer that is not a JSON object and a
    refusal are reported as such. *)
Theorem analyze_math_drawing_without_answer s :
  has_drawing (last_canvas_drawing (userdata s)) = false →
  accepted (frontend s RPC_METHOD_CANVAS GetDrawing) = None →
  analyze_math_drawing s
  = (Ok match frontend s RPC_METHOD_CANVAS GetDrawing with
        | None =>
            match ctx (userdata s) ≫= room : option Room with
            | Some _ =>
                "There's no drawing on the canvas yet. Please draw something first."
            | None => "Cannot get canvas: couldn't access the room"
            end
        | Some TimedOut =>
            "There's no drawing on the canvas yet. Please draw something first."
        | Some (Replied (Decoded (Dict _ e _))) =>
            "I couldn't get your canvas drawing: "
            +:+ default "Unknown error" e
        | Some _ =>
            "I encountered an error while trying to get your drawing. Please try again."
        end, s).
Proof.
  intros Hno Hacc. unfold analyze_math_drawing. rewrite run_bind. simpl.
  rewrite Hno. simpl. rewrite !run_bind. unfold get_canvas_drawing.
  revert Hacc. by_context s; intros Hacc.
  - simpl. rewrite Hr. by run.
  - simpl. rewrite Hr. run.
    by destruct (last_canvas_drawing (userdata s)) as [d0|];
      simpl in Hno; rewrite ?Hno.
  - unfold try_except, await_rpc. rewrite !run_bind.
    destruct (perform_rpc r (identity p) RPC_METHOD_CANVAS GetDrawing)
      as [|detail|[detail|[detail|ok e d]]]; simpl in Hacc |- *; run;
      try done.
    + by destruct (last_canvas_drawing (userdata s)) as [d0|];
        simpl in Hno; rewrite ?Hno.
    + destruct ok; [done|]. by run.
Qed.

Lemma analyze_math_drawing_without_answer_witness :
  analyze_math_drawing (fresh (in_room silent_room) demo_draws)
  = (Ok "There's no drawing on the canvas yet. Please draw something first.",
     fresh (in_room silent_room) demo_draws).
Proof.
  exact (analyze_math_drawing_without_answer
           (fresh (in_room silent_room) demo_draws) eq_refl eq_refl).
Defined.

Lemma fetch_accepted s d items l :
  accepted (frontend s RPC_METHOD_CANVAS GetDrawing) = Some d →
  default (JDict []) d = JDict items → strokes_of items = JList l →
  get_canvas_drawing s
  = (Ok ("I can see your drawing. It contains "
         +:+ Py.str (Z.of_nat (length l)) +:+ " strokes. Let me analyze it."),
     with_drawing (Some (JDict items)) s).
Proof.
  intros Hacc Hd Hl. unfold get_canvas_drawing.
  revert Hacc. by_context s; intros Hacc; try done.
  unfold try_except, await_rpc. rewrite !run_bind.
  destruct (perform_rpc r (identity p) RPC_METHOD_CANVAS GetDrawing)
    as [|detail|[detail|[detail|ok e d']]]; try done.
  destruct ok; [|done]. injection Hacc as ->.
  run. rewrite Hd. run. unfold strokes_of in Hl. rewrite Hl. by run.
Qed.

(** X20. With no drawing stored, when the frontend accepts the request
    and answers with a drawing that is a dict whose strokes are a list,
    [analyze_math_drawing] stores the drawing and analyses it in the same
    call: the reply is the one for the number of strokes, or that there
    is no drawing when the dict is empty. *)
Theorem analyze_math_drawing_fetches s d items l :
  has_drawing (last_canvas_drawing (userdata s)) = false →
  accepted (frontend s RPC_METHOD_CANVAS GetDrawing) = Some d →
  default (JDict []) d = JDict items → strokes_of items = JList l →
  analyze_math_drawing s
  = (Ok (if bool_decide (items = [])
         then "There's no drawing on the canvas yet. Please draw something first."
         else analysis (length l)),
     with_drawing (Some (JDict items)) s).
Proof.
  intros Hno Hacc Hd Hl.
  pose proof (fetched_is_no_failure (length l)) as Hfine. cbv zeta in Hfine.
  unfold analyze_math_drawing. rewrite run_bind.
  change (get_userdata s) with (Ok (userdata s), s). cbv beta iota.
  rewrite Hno. cbn [negb]. rewrite !run_bind.
  rewrite (fetch_accepted s d items l Hacc Hd Hl). cbv beta iota.
  rewrite Hfine.
  destruct items as [|kv items']; [done|].
  rewrite bool_decide_false by done.
  apply (analyze_stored (with_drawing (Some (JDict (kv :: items'))) s)
           (JDict (kv :: items')) l
           (default (JStr "") (assoc "image" (kv :: items'))));
    [done | done | | done].
  unfold strokes_of in Hl. cbn [json_get]. by rewrite Hl.
Qed.

Lemma analyze_math_drawing_fetches_witness :
  let d := JDict [("strokes", JList [JInt 1; JInt 2; JInt 3])] in
  analyze_math_drawing (fresh (in_room (drawing_room d)) demo_draws)
  = (Ok "I can see you've drawn something with 3 strokes. Simple shape or number. Try drawing more complex mathematical expressions",
     with_drawing (Some d) (fresh (in_room (drawing_room d)) demo_draws)).
Proof.
  exact (analyze_math_drawing_fetches
           (fresh (in_room
                     (drawing_room
                        (JDict [("strokes",
                                 JList [JInt 1; JInt 2; JInt 3])])))
              demo_draws)
           (Some (JDict [("strokes", JList [JInt 1; JInt 2; JInt 3])]))
           [("strokes", JList [JInt 1; JInt 2; JInt 3])]
           [JInt 1; JInt 2; JInt 3]
           eq_refl eq_refl eq_refl eq_refl).
Defined.

(** X21. [analyze_math_drawing] is not guarded against the drawing it
    reads. When the frontend accepts a request for the drawing and
    answers with a value that is true in a condition but is not a dict (a
    non-empty list or string, a number other than zero), the tool
    [get_canvas_drawing] answers that there was an error but has stored
    the value, and a later [analyze_math_drawing] raises instead of
    replying. *)
Theorem analyze_math_drawing_is_not_guarded s d :
  accepted (frontend s RPC_METHOD_CANVAS GetDrawing) = Some (Some d) →
  truthy d = true → (∀ items, d ≠ JDict items) →
  (get_canvas_drawing s).1
  = Ok "I encountered an error while trying to get your drawing. Please try again."
  ∧ last_canvas_drawing (userdata (get_canvas_drawing s).2) = Some d
  ∧ (analyze_math_drawing (get_canvas_drawing s).2).1
    = Raise (Exception ("'" +:+ type_name d
                        +:+ "' object has no attribute 'get'")).
Proof.
  intros Hacc Ht Hnd. unfold get_canvas_drawing.
  revert Hacc. by_context s; intros Hacc; try done.
  unfold try_except, await_rpc. rewrite !run_bind.
  destruct (perform_rpc r (identity p) RPC_METHOD_CANVAS GetDrawing)
    as [|detail|[detail|[detail|ok e d']]]; try done.
  destruct ok; [|done]. injection Hacc as ->.
  run.
  destruct d as [|b|z|f|str|l|items];
    try discriminate Ht; try (by destruct (Hnd items));
    run; (split; [done|]); (split; [done|]);
    unfold analyze_math_drawing; run; simpl in Ht; rewrite ?Ht; run;
    rewrite ?Ht; by run.
Qed.

Lemma analyze_math_drawing_is_not_guarded_witness :
  let s := fresh (in_room (drawing_room (JList [JInt 1]))) demo_draws in
  (analyze_math_drawing (get_canvas_drawing s).2).1
  = Raise (Exception "'list' object has no attribute 'get'").
Proof.
  exact (proj2 (proj2
           (analyze_math_drawing_is_not_guarded
              (fresh (in_room (drawing_room (JList [JInt 1]))) demo_draws)
              (JList [JInt 1]) eq_refl eq_refl
              ltac:(intros items; discriminate)))).
Defined.

(** ** The illustration tools and the highlight *)

Lemma lookup_illustration_cases key i :
  lookup_illustration key AVAILABLE_ILLUSTRATIONS = Some i →
  key ∈ ["pythagoras"; "trigonometry"] ∧
  String.eqb (description i) "" = false.
Proof.
  unfold AVAILABLE_ILLUSTRATIONS. cbn [lookup_illustration].
  destruct (String.eqb "pythagoras" key) eqn:E1.
  - apply String.eqb_eq in E1 as <-. intros [= <-]. split; [|done].
    apply elem_of_cons. by left.
  - destruct (String.eqb "trigonometry" key) eqn:E2; [|done].
    apply String.eqb_eq in E2 as <-. intros [= <-]. split; [|done].
    apply elem_of_cons. right. apply elem_of_cons. by left.
Qed.

Lemma lookup_illustration_unknown key :
  key ∉ ["pythagoras"; "trigonometry"] →
  lookup_illustration key AVAILABLE_ILLUSTRATIONS = None.
Proof.
  intros Hk.
  destruct (lookup_illustration key AVAILABLE_ILLUSTRATIONS) as [i|] eqn:E;
    [|done].
  by destruct (lookup_illustration_cases key i E).
Qed.

(** X22. [show_illustration] never raises and never changes the session.
    A key that is not exactly one of the two of the catalogue (the case
    of the letters counts) is answered with the list of the keys, without
    any request being sent. For a key of the catalogue the request
    carries the URL of its entry, and when the frontend accepts it the
    reply quotes the description of the entry. *)
Theorem show_illustration_by_key s key :
  (∃ reply, show_illustration key s = (Ok reply, s)) ∧
  (key ∉ ["pythagoras"; "trigonometry"] →
   ∀ c, (show_illustration key (with_ctx c s)).1
        = Ok ("I don't have an illustration called '" +:+ key
              +:+ "'. Available illustrations are: pythagoras, trigonometry"))
  ∧
  (∀ i, lookup_illustration key AVAILABLE_ILLUSTRATIONS = Some i →
        accepted (frontend s RPC_METHOD_ILLUSTRATION
                    (ShowIllustration (url i))) ≠ None →
        (show_illustration key s).1
        = Ok ("I've displayed the illustration showing " +:+ description i
              +:+ " to you.")).
Proof.
  split; [|split].
  - unfold show_illustration.
    destruct (lookup_illustration key AVAILABLE_ILLUSTRATIONS) as [i|];
      [|by eexists].
    by_context s; [by eexists | by eexists |].
    unfold try_except, await_rpc. rewrite !run_bind.
    destruct (perform_rpc r (identity p) RPC_METHOD_ILLUSTRATION _)
      as [|detail|[detail|[detail|ok e d]]]; run; try by eexists.
    destruct ok; run; by eexists.
  - intros Hk c. unfold show_illustration.
    by rewrite (lookup_illustration_unknown key Hk).
  - intros i Hi Hacc. unfold show_illustration. rewrite Hi.
    destruct (lookup_illustration_cases key i Hi) as [_ Hd].
    revert Hacc. by_context s; intros Hacc; try done.
    unfold try_except, await_rpc. rewrite !run_bind.
    destruct (perform_rpc r (identity p) RPC_METHOD_ILLUSTRATION _)
      as [|detail|[detail|[detail|ok e d]]]; try done.
    destruct ok; [|done]. run. by rewrite Hd.
Qed.

Lemma show_illustration_by_key_witness :
  (show_illustration "Pythagoras" (fresh (in_room ok_room) demo_draws)).1
  = Ok "I don't have an illustration called 'Pythagoras'. Available illustrations are: pythagoras, trigonometry".
Proof.
  apply (proj1 (proj2 (show_illustration_by_key
                         (fresh (in_room ok_room) demo_draws) "Pythagoras"))
           ltac:(by intros [[=]|[[=]|[]%elem_of_nil]%elem_of_cons]%elem_of_cons)
           (in_room ok_room)).
Defined.

(** X23. [hide_illustration] and [highlight_canvas_area] never raise and
    never change the session, and each confirms exactly when the frontend
    accepted its request: every failure, a timeout, a refusal or an
    unreadable answer, gives another reply. *)
Theorem hide_and_highlight_confirm_on_acceptance s x y width height color :
  (∃ reply, hide_illustration s = (Ok reply, s)) ∧
  ((hide_illustration s).1 = Ok "I've hidden the illustration."
   ↔ accepted (frontend s RPC_METHOD_ILLUSTRATION HideIllustration) ≠ None)
  ∧
  (∃ reply, highlight_canvas_area x y width height color s = (Ok reply, s))
  ∧
  ((highlight_canvas_area x y width height color s).1
   = Ok ("I've highlighted the area at (" +:+ Py.str x +:+ ", "
         +:+ Py.str y +:+ ") to draw your attention to it.")
   ↔ accepted (frontend s RPC_METHOD_CANVAS
                 (Highlight x y width height color)) ≠ None).
Proof.
  rename x into x0.
  split; [|split; [|split]].
  - unfold hide_illustration.
    by_context s; [by eexists | by eexists |].
    unfold try_except, await_rpc. rewrite !run_bind.
    destruct (perform_rpc r (identity p) RPC_METHOD_ILLUSTRATION _)
      as [|detail|[detail|[detail|ok e d]]]; run; try by eexists.
    destruct ok; run; by eexists.
  - unfold hide_illustration.
    by_context s; [by split | by split |].
    unfold try_except, await_rpc. rewrite !run_bind.
    destruct (perform_rpc r (identity p) RPC_METHOD_ILLUSTRATION _)
      as [|detail|[detail|[detail|ok e d]]]; run; try by split.
    destruct ok; run; by split.
  - unfold highlight_canvas_area.
    by_context s; [by eexists | by eexists |].
    unfold try_except, await_rpc. rewrite !run_bind.
    destruct (perform_rpc r (identity p) RPC_METHOD_CANVAS _)
      as [|detail|[detail|[detail|ok e d]]]; run; try by eexists.
    destruct ok; run; by eexists.
  - unfold highlight_canvas_area.
    by_context s; [by split | by split |].
    unfold try_except, await_rpc. rewrite !run_bind.
    destruct (perform_rpc r (identity p) RPC_METHOD_CANVAS _)
      as [|detail|[detail|[detail|ok e d]]]; run; try by split.
    destruct ok; run; by split.
Qed.

(** ** The sessions of the two agents *)

(** Unfolds a tool down to the outcome of its request and splits on
    everything it examines, innermost first. *)
Ltac cases_of_tool :=
  unfold set_user_data, get_user_data, create_component,
    toggle_component_tool, show_illustration, hide_illustration,
    get_canvas_drawing, clear_canvas, highlight_canvas_area,
    handle_toggle_component, get_id, toggle_by,
    with_first_participant, try_except, await_rpc, await_plain,
    json_loads, get_ok, get_error, get_drawing_data, json_get, json_len,
    set_user_info, get_user_info, add_component, toggle_component,
    get_component, set_components, set_canvas, generate_reply, uuid4,
    put_userdata, get_userdata, raise;
  repeat first
    [ progress run
    | match goal with
      | |- context [match ?x with _ => _ end] =>
          lazymatch x with
          | context [match _ with _ => _ end] => fail
          | _ => destruct x eqn:?
          end
      end ].

(** What [analyze_math_drawing] leaves of the session: it changes it only
    by fetching the drawing. *)
Lemma analyze_state s :
  (analyze_math_drawing s).2 = s
  ∨ (analyze_math_drawing s).2 = (get_canvas_drawing s).2.
Proof.
  unfold analyze_math_drawing. rewrite run_bind.
  change (get_userdata s) with (Ok (userdata s), s). cbv beta iota.
  assert (∀ s', (let (r, s'') :=
                   (u ← get_userdata;
                    match last_canvas_drawing u with
                    | Some drawing_data =>
                        if truthy drawing_data then
                          strokes ← json_get drawing_data "strokes" (JList []);
                          _ ← json_get drawing_data "image" (JStr "");
                          n ← json_len strokes;
                          let '(element, suggestion) := heuristic n in
                          mret ("I can see you've drawn something with "
                                +:+ Py.str n +:+ " strokes. " +:+ element
                                +:+ ". " +:+ suggestion)
                        else
                          mret "There's no drawing on the canvas yet. Please draw something first."
                    | None =>
                        mret "There's no drawing on the canvas yet. Please draw something first."
                    end) s' in (r, s'')).2 = s') as Hrest.
  { intros s'. rewrite run_bind.
    change (get_userdata s') with (Ok (userdata s'), s'). cbv beta iota.
    destruct (last_canvas_drawing (userdata s')) as [d|]; [|done].
    destruct (truthy d); [|done].
    rewrite run_bind.
    destruct d as [| | | | | |items]; try done.
    cbn [json_get]. unfold mret at 1, T_ret at 1. cbv beta iota.
    rewrite run_bind. unfold mret at 1, T_ret at 1. cbv beta iota.
    rewrite run_bind.
    destruct (default (JList []) (assoc "strokes" items));
      cbn [json_len]; try done;
      unfold mret at 1, T_ret at 1; cbv beta iota;
      by destruct (heuristic _). }
  destruct (negb (has_drawing (last_canvas_drawing (userdata s)))).
  - right. rewrite !run_bind.
    destruct (get_canvas_drawing s) as [[reply|e] s']; [|done].
    cbn [snd].
    destruct (contains "couldn't" (Py.lower reply)
              || contains "error" (Py.lower reply)); [done|].
    unfold mret at 1, T_ret at 1. cbv beta iota.
    specialize (Hrest s').
    by destruct ((get_userdata ≫= _) s').
  - left. rewrite run_bind. unfold mret at 1, T_ret at 1. cbv beta iota.
    specialize (Hrest s).
    by destruct ((get_userdata ≫= _) s).
Qed.

Lemma show_illustration_state key s : (show_illustration key s).2 = s.
Proof.
  unfold show_illustration.
  destruct (lookup_illustration key AVAILABLE_ILLUSTRATIONS) as [i|];
    [|done].
  generalize (url i) (description i). intros image_url description.
  cases_of_tool; done.
Qed.

(** No tool and no request of the frontend writes the canvas history. *)
Lemma tools_keep_history call s :
  canvas_history (userdata (run_tool call s).2)
  = canvas_history (userdata s).
Proof.
  assert (canvas_history (userdata (get_canvas_drawing s).2)
          = canvas_history (userdata s)) as Hget by (cases_of_tool; done).
  destruct call; simpl;
    try (by destruct (analyze_state s) as [-> | ->]);
    try (by rewrite show_illustration_state);
    cases_of_tool; done.
Qed.

Lemma handler_keeps_history rpc_data s :
  canvas_history (userdata (handle_toggle_component rpc_data s).2)
  = canvas_history (userdata s).
Proof. cases_of_tool; done. Qed.

(** The tools of the math teacher leave the components and the count of
    the replies requested as they are. *)
Lemma math_teacher_tools_keep_components call s :
  tool_name call ∈ tools MathTeacherAssistant →
  components (userdata (run_tool call s).2) = components (userdata s) ∧
  replies_requested (run_tool call s).2 = replies_requested s.
Proof.
  intros Hin.
  assert (components (userdata (get_canvas_drawing s).2)
          = components (userdata s) ∧
          replies_requested (get_canvas_drawing s).2 = replies_requested s)
    as Hget by (cases_of_tool; done).
  destruct call; simpl in Hin;
    repeat (apply elem_of_cons in Hin as [Hin|Hin]; [try discriminate Hin|]);
    try (by apply elem_of_nil in Hin); clear Hin; simpl;
    try (by destruct (analyze_state s) as [-> | ->]);
    try (by rewrite show_illustration_state);
    cases_of_tool; done.
Qed.

(** Without components the handler toggles nothing and requests no
    reply. *)
Lemma handler_without_components rpc_data s :
  components (userdata s) = [] →
  components (userdata (handle_toggle_component rpc_data s).2) = [] ∧
  replies_requested (handle_toggle_component rpc_data s).2
  = replies_requested s.
Proof.
  intros Hc.
  assert (∀ id, toggle_component id s = (Ok None, s)) as Ht.
  { intros id. unfold toggle_component, get_component. run.
    unfold get_component_at. by rewrite Hc. }
  unfold handle_toggle_component, try_except, get_id, toggle_by.
  destruct rpc_data as [detail|j]; run; [done|].
  destruct j as [| | | | | |items]; run; try done.
  destruct (assoc "id" items) as [v|]; run; [|done].
  destruct v; run;
    repeat match goal with
           | |- context [if ?x then _ else _] => destruct x
           end; run; rewrite ?Ht; by run.
Qed.

(** The tools of the default assistant and the handler leave the stored
    drawing as it is. *)
Lemma assistant_tools_keep_drawing call s :
  tool_name call ∈ tools Assistant →
  last_canvas_drawing (userdata (run_tool call s).2)
  = last_canvas_drawing (userdata s).
Proof.
  intros Hin.
  destruct call; simpl in Hin;
    repeat (apply elem_of_cons in Hin as [Hin|Hin]; [try discriminate Hin|]);
    try (by apply elem_of_nil in Hin); clear Hin; simpl;
    try (by rewrite show_illustration_state);
    cases_of_tool; done.
Qed.

Lemma handler_keeps_drawing rpc_data s :
  last_canvas_drawing (userdata (handle_toggle_component rpc_data s).2)
  = last_canvas_drawing (userdata s).
Proof. cases_of_tool; done. Qed.

Lemma create_agent_class t custom a :
  create_agent t custom = Ok a →
  (t = "math_teacher" ∧ agent_class a = MathTeacherAssistant)
  ∨ (t = "default" ∧ agent_class a = Assistant).
Proof.
  unfold create_agent.
  destruct (String.eqb t "math_teacher") eqn:E1.
  - apply String.eqb_eq in E1 as ->. left. split; [done|].
    destruct custom as [i|]; [destruct (negb _)|]; by injection H as <-.
  - destruct (String.eqb t "default") eqn:E2; [|done].
    apply String.eqb_eq in E2 as ->. right. split; [done|].
    destruct custom as [i|]; [destruct (negb _)|]; by injection H as <-.
Qed.

(** X24. What the sessions of the two agents never hold. Whatever the
    model calls and the frontend requests, no session ever has an entry
    in its canvas history. The math teacher has no tool that creates a
    component, so its sessions hold no component and a toggle request of
    the frontend never toggles anything nor makes the agent speak. The
    default assistant has no canvas tool, so its sessions never hold a
    drawing. *)
Theorem agent_sessions_never_hold agent_type a s :
  started_agent agent_type None = Ok a → reaches a s →
  canvas_history (userdata s) = [] ∧
  (agent_type = "math_teacher" →
   components (userdata s) = [] ∧ replies_requested s = 0%nat) ∧
  (agent_type = "default" → last_canvas_drawing (userdata s) = None).
Proof.
  unfold started_agent. intros Ha Hr.
  apply create_agent_class in Ha as [[-> Hc] | [-> Hc]].
  - induction Hr as [c draws | call s Hr IH Hin | rpc_data s Hr IH
                     | c s Hr IH].
    + done.
    + destruct IH as (Hh & Hm & _). destruct (Hm eq_refl) as [Hcs Hrs].
      rewrite Hc in Hin.
      destruct (math_teacher_tools_keep_components call s Hin) as [-> ->].
      rewrite tools_keep_history. done.
    + destruct IH as (Hh & Hm & _). destruct (Hm eq_refl) as [Hcs Hrs].
      destruct (handler_without_components rpc_data s Hcs) as [-> ->].
      rewrite handler_keeps_history. done.
    + done.
  - induction Hr as [c draws | call s Hr IH Hin | rpc_data s Hr IH
                     | c s Hr IH].
    + done.
    + destruct IH as (Hh & _ & Hd). rewrite Hc in Hin.
      rewrite tools_keep_history, (assistant_tools_keep_drawing call s Hin).
      split; [done|]. split; [done|]. intros _. by apply Hd.
    + destruct IH as (Hh & _ & Hd).
      rewrite handler_keeps_history, handler_keeps_drawing.
      split; [done|]. split; [done|]. intros _. by apply Hd.
    + done.
Qed.

Lemma agent_sessions_never_hold_witness :
  let a := new_MathTeacherAssistant None in
  let s := (handle_toggle_component
              (Parsed (JDict [("id", JStr "id-0")]))
              (run_tool call_get_canvas_drawing
                 (fresh (in_room ok_room) demo_draws)).2).2 in
  components (userdata s) = [] ∧ replies_requested s = 0%nat.
Proof.
  cbv zeta.
  refine (proj1 (proj2
            (agent_sessions_never_hold "math_teacher"
               (new_MathTeacherAssistant None) _ eq_refl _)) eq_refl).
  apply reaches_toggle. apply reaches_tool; [apply reaches_fresh|].
  simpl. repeat (apply elem_of_cons; first [by left | right]).
Defined.

End ModelsFacts.
